(** * Verification of the news collection and emotion-tagging pipeline

    A shallow embedding of [main.py] (the Lenta.ru news bot): the headline
    formatter, the day crawler with its URL deduplication, the date-range
    collector, the first-sentence extractor, the tagging loop with its
    progress record, the progress bar, and the per-chat result store with
    its category filter.

    Python strings are sequences of Unicode code points, so a string is a
    [list Z] of code points and [len] is [length]; literals are written as
    UTF-8 text and decoded by [u8].  Calls that leave the program
    ([requests.get], the HTML parser, the zero-shot classifier) are fields
    of the class [World]; the calls made are recorded in a trace. *)

From Stdlib Require Import ZArith List Ascii String Lia Bool.
From Stdlib Require Import Floats.SpecFloat.
From stdpp Require Import gmap strings list fin_maps.

Open Scope Z_scope.

(** ** Strings of code points *)

Definition char := Z.
Definition pystr := list char.

Definition bytes_of (s : string) : list Z :=
  (fun a => Z.of_N (N_of_ascii a)) <$> list_ascii_of_string s.

(** UTF-8 decoding of the bytes of a source literal. *)
Fixpoint utf8_decode (bs : list Z) : pystr :=
  match bs with
  | [] => []
  | b :: t =>
      if b <? 128 then b :: utf8_decode t
      else if b <? 224 then
        match t with
        | b2 :: t' => ((b - 192) * 64 + (b2 - 128)) :: utf8_decode t'
        | _ => []
        end
      else if b <? 240 then
        match t with
        | b2 :: b3 :: t' =>
            ((b - 224) * 4096 + (b2 - 128) * 64 + (b3 - 128)) :: utf8_decode t'
        | _ => []
        end
      else
        match t with
        | b2 :: b3 :: b4 :: t' =>
            ((b - 240) * 262144 + (b2 - 128) * 4096 + (b3 - 128) * 64 + (b4 - 128))
              :: utf8_decode t'
        | _ => []
        end
  end.

Definition u8 (s : string) : pystr := utf8_decode (bytes_of s).
Arguments u8 : simpl never.

Definition str_eqb (a b : pystr) : bool := bool_decide (a = b).

(** ** The character classes of the Python runtime *)

(** [str.isspace] for one code point, which is also the class [\s] of [re]
    on [str] patterns. *)
Definition is_space (c : char) : bool :=
  ((9 <=? c) && (c <=? 13)) || ((28 <=? c) && (c <=? 32))
  || (c =? 133) || (c =? 160) || (c =? 5760)
  || ((8192 <=? c) && (c <=? 8202))
  || (c =? 8232) || (c =? 8233) || (c =? 8239) || (c =? 8287) || (c =? 12288).

(** First code points of the runs of ten decimal digits (general category
    Nd, Unicode 14); the mathematical digits U+1D7CE..U+1D7FF form one run
    of fifty. *)
Definition decimal_digit_runs : list Z :=
  [
    48; 1632; 1776; 1984; 2406; 2534; 2662; 2790; 2918; 3046; 3174; 3302; 3430; 3558;
    3664; 3792; 3872; 4160; 4240; 6112; 6160; 6470; 6608; 6784; 6800; 6992; 7088; 7232;
    7248; 42528; 43216; 43264; 43472; 43504; 43600; 44016; 65296; 66720; 68912; 69734;
    69872; 69942; 70096; 70384; 70736; 70864; 71248; 71360; 71472; 71904; 72016; 72784;
    73040; 73120; 92768; 92864; 93008; 123200; 123632; 125264; 130032
  ].

(** The class [\d] of [re] on [str] patterns. *)
Definition is_digit (c : char) : bool :=
  existsb (fun lo => (lo <=? c) && (c <? lo + 10)) decimal_digit_runs
  || ((120782 <=? c) && (c <=? 120831)).

(** Simple lowercase mappings (Unicode 14) as
    (first, last, offset, step): every [step]-th code point from [first]
    to [last] is mapped to itself plus [offset]. *)
Definition lowercase_ranges : list (Z * Z * Z * Z) :=
  [
    (65, 90, 32, 1); (192, 214, 32, 1); (216, 222, 32, 1); (256, 302, 1, 2); (306, 310, 1, 2);
    (313, 327, 1, 2); (330, 374, 1, 2); (376, 376, (-121), 1); (377, 381, 1, 2);
    (385, 385, 210, 1); (386, 388, 1, 2); (390, 390, 206, 1); (391, 391, 1, 1);
    (393, 394, 205, 1); (395, 395, 1, 1); (398, 398, 79, 1); (399, 399, 202, 1);
    (400, 400, 203, 1); (401, 401, 1, 1); (403, 403, 205, 1); (404, 404, 207, 1);
    (406, 406, 211, 1); (407, 407, 209, 1); (408, 408, 1, 1); (412, 412, 211, 1);
    (413, 413, 213, 1); (415, 415, 214, 1); (416, 420, 1, 2); (422, 422, 218, 1);
    (423, 423, 1, 1); (425, 425, 218, 1); (428, 428, 1, 1); (430, 430, 218, 1);
    (431, 431, 1, 1); (433, 434, 217, 1); (435, 437, 1, 2); (439, 439, 219, 1);
    (440, 440, 1, 1); (444, 444, 1, 1); (452, 452, 2, 1); (453, 453, 1, 1); (455, 455, 2, 1);
    (456, 456, 1, 1); (458, 458, 2, 1); (459, 475, 1, 2); (478, 494, 1, 2); (497, 497, 2, 1);
    (498, 500, 1, 2); (502, 502, (-97), 1); (503, 503, (-56), 1); (504, 542, 1, 2);
    (544, 544, (-130), 1); (546, 562, 1, 2); (570, 570, 10795, 1); (571, 571, 1, 1);
    (573, 573, (-163), 1); (574, 574, 10792, 1); (577, 577, 1, 1); (579, 579, (-195), 1);
    (580, 580, 69, 1); (581, 581, 71, 1); (582, 590, 1, 2); (880, 882, 1, 2); (886, 886, 1, 1);
    (895, 895, 116, 1); (902, 902, 38, 1); (904, 906, 37, 1); (908, 908, 64, 1);
    (910, 911, 63, 1); (913, 929, 32, 1); (931, 939, 32, 1); (975, 975, 8, 1);
    (984, 1006, 1, 2); (1012, 1012, (-60), 1); (1015, 1015, 1, 1); (1017, 1017, (-7), 1);
    (1018, 1018, 1, 1); (1021, 1023, (-130), 1); (1024, 1039, 80, 1); (1040, 1071, 32, 1);
    (1120, 1152, 1, 2); (1162, 1214, 1, 2); (1216, 1216, 15, 1); (1217, 1229, 1, 2);
    (1232, 1326, 1, 2); (1329, 1366, 48, 1); (4256, 4293, 7264, 1); (4295, 4295, 7264, 1);
    (4301, 4301, 7264, 1); (5024, 5103, 38864, 1); (5104, 5109, 8, 1); (7312, 7354, (-3008), 1);
    (7357, 7359, (-3008), 1); (7680, 7828, 1, 2); (7838, 7838, (-7615), 1); (7840, 7934, 1, 2);
    (7944, 7951, (-8), 1); (7960, 7965, (-8), 1); (7976, 7983, (-8), 1); (7992, 7999, (-8), 1);
    (8008, 8013, (-8), 1); (8025, 8031, (-8), 2); (8040, 8047, (-8), 1); (8072, 8079, (-8), 1);
    (8088, 8095, (-8), 1); (8104, 8111, (-8), 1); (8120, 8121, (-8), 1); (8122, 8123, (-74), 1);
    (8124, 8124, (-9), 1); (8136, 8139, (-86), 1); (8140, 8140, (-9), 1); (8152, 8153, (-8), 1);
    (8154, 8155, (-100), 1); (8168, 8169, (-8), 1); (8170, 8171, (-112), 1);
    (8172, 8172, (-7), 1); (8184, 8185, (-128), 1); (8186, 8187, (-126), 1);
    (8188, 8188, (-9), 1); (8486, 8486, (-7517), 1); (8490, 8490, (-8383), 1);
    (8491, 8491, (-8262), 1); (8498, 8498, 28, 1); (8544, 8559, 16, 1); (8579, 8579, 1, 1);
    (9398, 9423, 26, 1); (11264, 11311, 48, 1); (11360, 11360, 1, 1);
    (11362, 11362, (-10743), 1); (11363, 11363, (-3814), 1); (11364, 11364, (-10727), 1);
    (11367, 11371, 1, 2); (11373, 11373, (-10780), 1); (11374, 11374, (-10749), 1);
    (11375, 11375, (-10783), 1); (11376, 11376, (-10782), 1); (11378, 11378, 1, 1);
    (11381, 11381, 1, 1); (11390, 11391, (-10815), 1); (11392, 11490, 1, 2);
    (11499, 11501, 1, 2); (11506, 11506, 1, 1); (42560, 42604, 1, 2); (42624, 42650, 1, 2);
    (42786, 42798, 1, 2); (42802, 42862, 1, 2); (42873, 42875, 1, 2);
    (42877, 42877, (-35332), 1); (42878, 42886, 1, 2); (42891, 42891, 1, 1);
    (42893, 42893, (-42280), 1); (42896, 42898, 1, 2); (42902, 42920, 1, 2);
    (42922, 42922, (-42308), 1); (42923, 42923, (-42319), 1); (42924, 42924, (-42315), 1);
    (42925, 42925, (-42305), 1); (42926, 42926, (-42308), 1); (42928, 42928, (-42258), 1);
    (42929, 42929, (-42282), 1); (42930, 42930, (-42261), 1); (42931, 42931, 928, 1);
    (42932, 42946, 1, 2); (42948, 42948, (-48), 1); (42949, 42949, (-42307), 1);
    (42950, 42950, (-35384), 1); (42951, 42953, 1, 2); (42960, 42960, 1, 1);
    (42966, 42968, 1, 2); (42997, 42997, 1, 1); (65313, 65338, 32, 1); (66560, 66599, 40, 1);
    (66736, 66771, 40, 1); (66928, 66938, 39, 1); (66940, 66954, 39, 1); (66956, 66962, 39, 1);
    (66964, 66965, 39, 1); (68736, 68786, 64, 1); (71840, 71871, 32, 1); (93760, 93791, 32, 1);
    (125184, 125217, 34, 1)
  ].

Definition in_range (c : char) (r : Z * Z * Z * Z) : bool :=
  let '(lo, hi, _, step) := r in
  (lo <=? c) && (c <=? hi) && ((c - lo) mod step =? 0).

(** Lowercase of one code point, whatever stands around it.  U+0130 is
    the one code point whose lowercase has two code points. *)
Definition lower_char (c : char) : pystr :=
  if c =? 304 then [105; 775]
  else match List.find (in_range c) lowercase_ranges with
       | Some (_, _, off, _) => [c + off]
       | None => [c]
       end.

(** The code points with the property Cased (Unicode 14), as (first, last). *)
Definition cased_ranges : list (Z * Z) :=
  [
    (65, 90); (97, 122); (170, 170); (181, 181); (186, 186); (192, 214); (216, 246);
    (248, 442); (444, 447); (452, 659); (661, 696); (704, 705); (736, 740); (837, 837);
    (880, 883); (886, 887); (890, 893); (895, 895); (902, 902); (904, 906); (908, 908);
    (910, 929); (931, 1013); (1015, 1153); (1162, 1327); (1329, 1366); (1376, 1416);
    (4256, 4293); (4295, 4295); (4301, 4301); (4304, 4346); (4349, 4351); (5024, 5109);
    (5112, 5117); (7296, 7304); (7312, 7354); (7357, 7359); (7424, 7615); (7680, 7957);
    (7960, 7965); (7968, 8005); (8008, 8013); (8016, 8023); (8025, 8025); (8027, 8027);
    (8029, 8029); (8031, 8061); (8064, 8116); (8118, 8124); (8126, 8126); (8130, 8132);
    (8134, 8140); (8144, 8147); (8150, 8155); (8160, 8172); (8178, 8180); (8182, 8188);
    (8305, 8305); (8319, 8319); (8336, 8348); (8450, 8450); (8455, 8455); (8458, 8467);
    (8469, 8469); (8473, 8477); (8484, 8484); (8486, 8486); (8488, 8488); (8490, 8493);
    (8495, 8500); (8505, 8505); (8508, 8511); (8517, 8521); (8526, 8526); (8544, 8575);
    (8579, 8580); (9398, 9449); (11264, 11492); (11499, 11502); (11506, 11507);
    (11520, 11557); (11559, 11559); (11565, 11565); (42560, 42605); (42624, 42653);
    (42786, 42887); (42891, 42894); (42896, 42954); (42960, 42961); (42963, 42963);
    (42965, 42969); (42997, 42998); (43000, 43002); (43824, 43866); (43868, 43880);
    (43888, 43967); (64256, 64262); (64275, 64279); (65313, 65338); (65345, 65370);
    (66560, 66639); (66736, 66771); (66776, 66811); (66928, 66938); (66940, 66954);
    (66956, 66962); (66964, 66965); (66967, 66977); (66979, 66993); (66995, 67001);
    (67003, 67004); (67456, 67456); (67459, 67461); (67463, 67504); (67506, 67514);
    (68736, 68786); (68800, 68850); (71840, 71903); (93760, 93823); (119808, 119892);
    (119894, 119964); (119966, 119967); (119970, 119970); (119973, 119974);
    (119977, 119980); (119982, 119993); (119995, 119995); (119997, 120003);
    (120005, 120069); (120071, 120074); (120077, 120084); (120086, 120092);
    (120094, 120121); (120123, 120126); (120128, 120132); (120134, 120134);
    (120138, 120144); (120146, 120485); (120488, 120512); (120514, 120538);
    (120540, 120570); (120572, 120596); (120598, 120628); (120630, 120654);
    (120656, 120686); (120688, 120712); (120714, 120744); (120746, 120770);
    (120772, 120779); (122624, 122633); (122635, 122654); (125184, 125251);
    (127280, 127305); (127312, 127337); (127344, 127369)
  ].

(** The code points with the property Case_Ignorable (Unicode 14), as
    (first, last). *)
Definition case_ignorable_ranges : list (Z * Z) :=
  [
    (39, 39); (46, 46); (58, 58); (94, 94); (96, 96); (168, 168); (173, 173); (175, 175);
    (180, 180); (183, 184); (688, 879); (884, 885); (890, 890); (900, 901); (903, 903);
    (1155, 1161); (1369, 1369); (1375, 1375); (1425, 1469); (1471, 1471); (1473, 1474);
    (1476, 1477); (1479, 1479); (1524, 1524); (1536, 1541); (1552, 1562); (1564, 1564);
    (1600, 1600); (1611, 1631); (1648, 1648); (1750, 1757); (1759, 1768); (1770, 1773);
    (1807, 1807); (1809, 1809); (1840, 1866); (1958, 1968); (2027, 2037); (2042, 2042);
    (2045, 2045); (2070, 2093); (2137, 2139); (2184, 2184); (2192, 2193); (2200, 2207);
    (2249, 2306); (2362, 2362); (2364, 2364); (2369, 2376); (2381, 2381); (2385, 2391);
    (2402, 2403); (2417, 2417); (2433, 2433); (2492, 2492); (2497, 2500); (2509, 2509);
    (2530, 2531); (2558, 2558); (2561, 2562); (2620, 2620); (2625, 2626); (2631, 2632);
    (2635, 2637); (2641, 2641); (2672, 2673); (2677, 2677); (2689, 2690); (2748, 2748);
    (2753, 2757); (2759, 2760); (2765, 2765); (2786, 2787); (2810, 2815); (2817, 2817);
    (2876, 2876); (2879, 2879); (2881, 2884); (2893, 2893); (2901, 2902); (2914, 2915);
    (2946, 2946); (3008, 3008); (3021, 3021); (3072, 3072); (3076, 3076); (3132, 3132);
    (3134, 3136); (3142, 3144); (3146, 3149); (3157, 3158); (3170, 3171); (3201, 3201);
    (3260, 3260); (3263, 3263); (3270, 3270); (3276, 3277); (3298, 3299); (3328, 3329);
    (3387, 3388); (3393, 3396); (3405, 3405); (3426, 3427); (3457, 3457); (3530, 3530);
    (3538, 3540); (3542, 3542); (3633, 3633); (3636, 3642); (3654, 3662); (3761, 3761);
    (3764, 3772); (3782, 3782); (3784, 3789); (3864, 3865); (3893, 3893); (3895, 3895);
    (3897, 3897); (3953, 3966); (3968, 3972); (3974, 3975); (3981, 3991); (3993, 4028);
    (4038, 4038); (4141, 4144); (4146, 4151); (4153, 4154); (4157, 4158); (4184, 4185);
    (4190, 4192); (4209, 4212); (4226, 4226); (4229, 4230); (4237, 4237); (4253, 4253);
    (4348, 4348); (4957, 4959); (5906, 5908); (5938, 5939); (5970, 5971); (6002, 6003);
    (6068, 6069); (6071, 6077); (6086, 6086); (6089, 6099); (6103, 6103); (6109, 6109);
    (6155, 6159); (6211, 6211); (6277, 6278); (6313, 6313); (6432, 6434); (6439, 6440);
    (6450, 6450); (6457, 6459); (6679, 6680); (6683, 6683); (6742, 6742); (6744, 6750);
    (6752, 6752); (6754, 6754); (6757, 6764); (6771, 6780); (6783, 6783); (6823, 6823);
    (6832, 6862); (6912, 6915); (6964, 6964); (6966, 6970); (6972, 6972); (6978, 6978);
    (7019, 7027); (7040, 7041); (7074, 7077); (7080, 7081); (7083, 7085); (7142, 7142);
    (7144, 7145); (7149, 7149); (7151, 7153); (7212, 7219); (7222, 7223); (7288, 7293);
    (7376, 7378); (7380, 7392); (7394, 7400); (7405, 7405); (7412, 7412); (7416, 7417);
    (7468, 7530); (7544, 7544); (7579, 7679); (8125, 8125); (8127, 8129); (8141, 8143);
    (8157, 8159); (8173, 8175); (8189, 8190); (8203, 8207); (8216, 8217); (8228, 8228);
    (8231, 8231); (8234, 8238); (8288, 8292); (8294, 8303); (8305, 8305); (8319, 8319);
    (8336, 8348); (8400, 8432); (11388, 11389); (11503, 11505); (11631, 11631);
    (11647, 11647); (11744, 11775); (11823, 11823); (12293, 12293); (12330, 12333);
    (12337, 12341); (12347, 12347); (12441, 12446); (12540, 12542); (40981, 40981);
    (42232, 42237); (42508, 42508); (42607, 42610); (42612, 42621); (42623, 42623);
    (42652, 42655); (42736, 42737); (42752, 42785); (42864, 42864); (42888, 42890);
    (42994, 42996); (43000, 43001); (43010, 43010); (43014, 43014); (43019, 43019);
    (43045, 43046); (43052, 43052); (43204, 43205); (43232, 43249); (43263, 43263);
    (43302, 43309); (43335, 43345); (43392, 43394); (43443, 43443); (43446, 43449);
    (43452, 43453); (43471, 43471); (43493, 43494); (43561, 43566); (43569, 43570);
    (43573, 43574); (43587, 43587); (43596, 43596); (43632, 43632); (43644, 43644);
    (43696, 43696); (43698, 43700); (43703, 43704); (43710, 43711); (43713, 43713);
    (43741, 43741); (43756, 43757); (43763, 43764); (43766, 43766); (43867, 43871);
    (43881, 43883); (44005, 44005); (44008, 44008); (44013, 44013); (64286, 64286);
    (64434, 64450); (65024, 65039); (65043, 65043); (65056, 65071); (65106, 65106);
    (65109, 65109); (65279, 65279); (65287, 65287); (65294, 65294); (65306, 65306);
    (65342, 65342); (65344, 65344); (65392, 65392); (65438, 65439); (65507, 65507);
    (65529, 65531); (66045, 66045); (66272, 66272); (66422, 66426); (67456, 67461);
    (67463, 67504); (67506, 67514); (68097, 68099); (68101, 68102); (68108, 68111);
    (68152, 68154); (68159, 68159); (68325, 68326); (68900, 68903); (69291, 69292);
    (69446, 69456); (69506, 69509); (69633, 69633); (69688, 69702); (69744, 69744);
    (69747, 69748); (69759, 69761); (69811, 69814); (69817, 69818); (69821, 69821);
    (69826, 69826); (69837, 69837); (69888, 69890); (69927, 69931); (69933, 69940);
    (70003, 70003); (70016, 70017); (70070, 70078); (70089, 70092); (70095, 70095);
    (70191, 70193); (70196, 70196); (70198, 70199); (70206, 70206); (70367, 70367);
    (70371, 70378); (70400, 70401); (70459, 70460); (70464, 70464); (70502, 70508);
    (70512, 70516); (70712, 70719); (70722, 70724); (70726, 70726); (70750, 70750);
    (70835, 70840); (70842, 70842); (70847, 70848); (70850, 70851); (71090, 71093);
    (71100, 71101); (71103, 71104); (71132, 71133); (71219, 71226); (71229, 71229);
    (71231, 71232); (71339, 71339); (71341, 71341); (71344, 71349); (71351, 71351);
    (71453, 71455); (71458, 71461); (71463, 71467); (71727, 71735); (71737, 71738);
    (71995, 71996); (71998, 71998); (72003, 72003); (72148, 72151); (72154, 72155);
    (72160, 72160); (72193, 72202); (72243, 72248); (72251, 72254); (72263, 72263);
    (72273, 72278); (72281, 72283); (72330, 72342); (72344, 72345); (72752, 72758);
    (72760, 72765); (72767, 72767); (72850, 72871); (72874, 72880); (72882, 72883);
    (72885, 72886); (73009, 73014); (73018, 73018); (73020, 73021); (73023, 73029);
    (73031, 73031); (73104, 73105); (73109, 73109); (73111, 73111); (73459, 73460);
    (78896, 78904); (92912, 92916); (92976, 92982); (92992, 92995); (94031, 94031);
    (94095, 94111); (94176, 94177); (94179, 94180); (110576, 110579); (110581, 110587);
    (110589, 110590); (113821, 113822); (113824, 113827); (118528, 118573);
    (118576, 118598); (119143, 119145); (119155, 119170); (119173, 119179);
    (119210, 119213); (119362, 119364); (121344, 121398); (121403, 121452);
    (121461, 121461); (121476, 121476); (121499, 121503); (121505, 121519);
    (122880, 122886); (122888, 122904); (122907, 122913); (122915, 122916);
    (122918, 122922); (123184, 123197); (123566, 123566); (123628, 123631);
    (125136, 125142); (125252, 125259); (127995, 127999); (917505, 917505);
    (917536, 917631); (917760, 917999)
  ].

Definition in_ranges (c : char) (ranges : list (Z * Z)) : bool :=
  existsb (fun r : Z * Z => (r.1 <=? c) && (c <=? r.2)) ranges.

Definition is_cased (c : char) : bool := in_ranges c cased_ranges.

Definition is_case_ignorable (c : char) : bool :=
  in_ranges c case_ignorable_ranges.

(** The first code point of [s] that is not case-ignorable. *)
Definition first_not_ignorable (s : pystr) : option char :=
  List.find (fun c => negb (is_case_ignorable c)) s.

(** The one rule of [str.lower] that looks at the neighbours: a capital
    sigma (U+03A3) is final, and becomes U+03C2 instead of U+03C3, when
    the nearest code point before it that is not case-ignorable is cased
    and the nearest such code point after it, if there is one, is not.
    [before] is what stands before the sigma, nearest first; [after] is
    what stands after it. *)
Definition final_sigma (before after : pystr) : bool :=
  match first_not_ignorable before with
  | Some c => is_cased c
  | None => false
  end
  && match first_not_ignorable after with
     | Some c => negb (is_cased c)
     | None => true
     end.

(** The lowercase of [s], which stands after [before] (nearest first). *)
Fixpoint lower_from (before s : pystr) : pystr :=
  match s with
  | [] => []
  | c :: s' =>
      (if c =? 931 then [if final_sigma before s' then 962 else 963]
       else lower_char c)
      ++ lower_from (c :: before) s'
  end.

(** [str.lower] *)
Definition lower (s : pystr) : pystr := lower_from [] s.

(** *** Letter case in the alphabets of the labels

    The labels, and what a user types, are written in ASCII and in the
    Russian alphabet. *)
Definition plain_char (c : char) : bool :=
  ((0 <=? c) && (c <? 128)) || ((1040 <=? c) && (c <=? 1103))
  || (c =? 1025) || (c =? 1105).

(** The small letter of a capital letter of these alphabets: A to Z,
    U+0410 to U+042F, and U+0401. *)
Definition small_letter (c : char) : char :=
  if (65 <=? c) && (c <=? 90) then c + 32
  else if (1040 <=? c) && (c <=? 1071) then c + 32
  else if c =? 1025 then 1105
  else c.

(** Two strings that differ at most in the case of their letters. *)
Definition same_up_to_case (a b : pystr) : Prop :=
  small_letter <$> a = small_letter <$> b.

(** [str.strip] with no argument *)
Fixpoint lstrip (s : pystr) : pystr :=
  match s with
  | c :: s' => if is_space c then lstrip s' else s
  | [] => []
  end.

Definition rstrip (s : pystr) : pystr := rev (lstrip (rev s)).

Definition strip (s : pystr) : pystr := rstrip (lstrip s).

(** [str.startswith] *)
Fixpoint startswith (s p : pystr) : bool :=
  match p, s with
  | [], _ => true
  | a :: p', b :: s' => (a =? b) && startswith s' p'
  | _ :: _, [] => false
  end.

(** [p in s] for strings: [p] occurs in [s] as a substring. *)
Fixpoint str_contains (p s : pystr) : bool :=
  startswith s p
  || match s with
     | [] => false
     | _ :: s' => str_contains p s'
     end.

(** Decimal digits of a natural number, as [str] of a non-negative [int]. *)
Fixpoint digits_fuel (fuel : nat) (n : Z) (acc : pystr) : pystr :=
  match fuel with
  | O => acc
  | S fuel' =>
      let acc' := (48 + n mod 10) :: acc in
      if n <? 10 then acc' else digits_fuel fuel' (n / 10) acc'
  end.

Definition str_of_int (n : Z) : pystr :=
  if n <? 0 then 45 :: digits_fuel (Z.to_nat (Z.log2 (- n)) + 1) (- n) []
  else digits_fuel (Z.to_nat (Z.log2 n) + 1) n [].

(** The format specification [:02] on a non-negative [int]. *)
Definition pad02 (n : Z) : pystr :=
  let d := str_of_int n in
  if (length d <? 2)%nat then 48 :: d else d.

(** ** A backtracking matcher for the regular expressions of [re] *)

Module Re.

(** The fragment of the pattern language that [main.py] uses.  [Star true]
    is the greedy [*], [Star false] the lazy [*?]; [Alt] tries its left
    branch first. *)
Inductive regex : Type :=
| Eps
| Chr (p : char -> bool)
| Cat (r1 r2 : regex)
| Alt (r1 r2 : regex)
| Star (greedy : bool) (r : regex)
| Group (i : nat) (r : regex)
| Bol
| Eol.

Definition captures := gmap nat pystr.
Definition cont := pystr -> captures -> option captures.

(** One repetition loop: each round must consume at least one character,
    so the length of the input bounds the number of rounds. *)
Fixpoint star_loop (body : pystr -> captures -> cont -> option captures)
    (greedy : bool) (fuel : nat) (s : pystr) (c : captures) (k : cont)
    : option captures :=
  match fuel with
  | O => k s c
  | S fuel' =>
      let k' : cont := fun s' c' =>
        if (length s' <? length s)%nat
        then star_loop body greedy fuel' s' c' k else None in
      if greedy then
        match body s c k' with
        | Some res => Some res
        | None => k s c
        end
      else
        match k s c with
        | Some res => Some res
        | None => body s c k'
        end
  end.

(** [run w r s c k]: match [r] at the front of [s], a suffix of the whole
    subject [w], then hand the rest of the input and the groups to [k];
    [None] makes the matcher backtrack to its latest choice. *)
Fixpoint run (w : pystr) (r : regex) (s : pystr) (c : captures) (k : cont)
    {struct r} : option captures :=
  match r with
  | Eps => k s c
  | Chr p =>
      match s with
      | a :: s' => if p a then k s' c else None
      | [] => None
      end
  | Cat r1 r2 => run w r1 s c (fun s' c' => run w r2 s' c' k)
  | Alt r1 r2 =>
      match run w r1 s c k with
      | Some res => Some res
      | None => run w r2 s c k
      end
  | Star g r' => star_loop (run w r') g (length s) s c k
  | Group i r' =>
      run w r' s c
        (fun s' c' => k s' (<[i := take (length s - length s') s]> c'))
  | Bol => if (length s =? length w)%nat then k s c else None
  | Eol => if str_eqb s [] || str_eqb s [10] then k s c else None
  end.

(** [re.match(pattern, s)]: the pattern must match at position 0; the
    match need not reach the end of [s]. *)
Definition re_match (r : regex) (s : pystr) : option captures :=
  run s r s ∅ (fun _ c => Some c).

(** [match.group(i)] *)
Definition group (m : captures) (i : nat) : pystr := default [] (m !! i).

Definition seq (rs : list regex) : regex := foldr Cat Eps rs.

(** [r{n}] *)
Fixpoint rep (n : nat) (r : regex) : regex :=
  match n with
  | O => Eps
  | S n' => Cat r (rep n' r)
  end.

(** [r{0,n}], greedy *)
Fixpoint rep_upto (n : nat) (r : regex) : regex :=
  match n with
  | O => Eps
  | S n' => Alt (Cat r (rep_upto n' r)) Eps
  end.

(** [r+] *)
Definition plus (r : regex) : regex := Cat r (Star true r).

Definition lit (a : char) : regex := Chr (Z.eqb a).
Definition dot : regex := Chr (fun a => negb (a =? 10)).
Definition digit : regex := Chr is_digit.
Definition space : regex := Chr is_space.
Definition nonspace : regex := Chr (fun a => negb (is_space a)).

(** What it means for [r] to match the string [s] when [rest] follows it in
    the subject [w], taking the groups from [c] to [c']. *)
Inductive matches (w : pystr)
    : regex -> pystr -> pystr -> captures -> captures -> Prop :=
| M_Eps rest c : matches w Eps [] rest c c
| M_Chr (p : char -> bool) a rest c :
    p a = true -> matches w (Chr p) [a] rest c c
| M_Cat r1 r2 s1 s2 rest c c1 c2 :
    matches w r1 s1 (s2 ++ rest) c c1 ->
    matches w r2 s2 rest c1 c2 ->
    matches w (Cat r1 r2) (s1 ++ s2) rest c c2
| M_AltL r1 r2 s rest c c1 :
    matches w r1 s rest c c1 -> matches w (Alt r1 r2) s rest c c1
| M_AltR r1 r2 s rest c c1 :
    matches w r2 s rest c c1 -> matches w (Alt r1 r2) s rest c c1
| M_StarNil g r rest c : matches w (Star g r) [] rest c c
| M_StarCons g r s1 s2 rest c c1 c2 :
    s1 <> [] ->
    matches w r s1 (s2 ++ rest) c c1 ->
    matches w (Star g r) s2 rest c1 c2 ->
    matches w (Star g r) (s1 ++ s2) rest c c2
| M_Group i r s rest c c1 :
    matches w r s rest c c1 -> matches w (Group i r) s rest c (<[i := s]> c1)
| M_Bol rest c : length rest = length w -> matches w Bol [] rest c c
| M_Eol rest c : rest = [] \/ rest = [10] -> matches w Eol [] rest c c.

(** The two directions of the correctness of [run] for one pattern. *)
Definition sound_at (w : pystr) (r : regex) : Prop :=
  forall s c k res,
    run w r s c k = Some res ->
    exists s1 s2 c1,
      s = s1 ++ s2 /\ matches w r s1 s2 c c1 /\ k s2 c1 = Some res.

Definition complete_at (w : pystr) (r : regex) : Prop :=
  forall s1 rest c c1,
    matches w r s1 rest c c1 ->
    forall k, (forall c', k rest c' <> None) ->
    forall c0, run w r (s1 ++ rest) c0 k <> None.

End Re.

(** ** [format_news_headline] *)

(** The pattern of [format_news_headline]: anchored at the start, group 1
    [.*?], group 2 [\d{2}:\d{2}], a comma, [\s*], group 3
    [[\d]{1,2}\s+\S+\s+\d{4}], group 4 [.*], and [$]. *)
Definition time_re : Re.regex :=
  Re.seq [Re.rep 2 Re.digit; Re.lit 58; Re.rep 2 Re.digit].

Definition date_re : Re.regex :=
  Re.seq [ Re.Cat (Re.rep 1 Re.digit) (Re.rep_upto 1 Re.digit);
           Re.plus Re.space;
           Re.plus Re.nonspace;
           Re.plus Re.space;
           Re.rep 4 Re.digit ].

(** The pattern after its first group. *)
Definition headline_tail : list Re.regex :=
  [ Re.Group 2 time_re;
    Re.lit 44;
    Re.Star true Re.space;
    Re.Group 3 date_re;
    Re.Group 4 (Re.Star true Re.dot);
    Re.Eol ].

Definition headline_pattern : Re.regex :=
  Re.seq (Re.Bol :: Re.Group 1 (Re.Star false Re.dot) :: headline_tail).

(** Every group of [headline_pattern] takes part in every match, so
    [Re.group] never falls back to its default here. *)
Definition format_news_headline (headline : pystr) : pystr :=
  match Re.re_match headline_pattern headline with
  | Some m =>
      let main_text := strip (Re.group m 1) in
      let time_str := Re.group m 2 in
      let date_str := Re.group m 3 in
      main_text ++ u8 ", " ++ time_str ++ u8 ", " ++ date_str
  | None => headline
  end.

(** *** The shape of a headline that the pattern matches *)

Definition all_of (p : char -> bool) (s : pystr) : Prop :=
  Forall (fun a => p a = true) s.

(** [HH:MM]: two digits, a colon, two digits. *)
Definition is_time (t : pystr) : Prop :=
  exists a b c d,
    t = [a; b; 58; c; d]
    /\ is_digit a = true /\ is_digit b = true
    /\ is_digit c = true /\ is_digit d = true.

(** [D Month YYYY]: one or two digits, white space, a word without white
    space, white space, four digits. *)
Definition is_date (dt : pystr) : Prop :=
  exists dd sp1 word sp2 yyyy,
    dt = dd ++ sp1 ++ word ++ sp2 ++ yyyy
    /\ (length dd = 1%nat \/ length dd = 2%nat) /\ all_of is_digit dd
    /\ sp1 <> [] /\ all_of is_space sp1
    /\ word <> [] /\ all_of (fun a => negb (is_space a)) word
    /\ sp2 <> [] /\ all_of is_space sp2
    /\ length yyyy = 4%nat /\ all_of is_digit yyyy.

(** [s] is leading text without a line break, a time, a comma, optional
    white space, a date, trailing text without a line break, and at most
    one final line break. *)
Definition headline_shape (s main time date trail : pystr) : Prop :=
  exists sp nl,
    s = main ++ time ++ [44] ++ sp ++ date ++ trail ++ nl
    /\ all_of (fun a => negb (a =? 10)) main
    /\ is_time time
    /\ all_of is_space sp
    /\ is_date date
    /\ all_of (fun a => negb (a =? 10)) trail
    /\ (nl = [] \/ nl = [10]).

(** ** Insertion-ordered dictionaries

    A Python [dict] keeps its keys in the order of their first insertion;
    assigning to a key that is present replaces the value in place. *)

Section OrderedDict.
Context {K V : Type} `{EqDecision K}.

(** [d[k] = v] *)
Fixpoint od_set (k : K) (v : V) (d : list (K * V)) : list (K * V) :=
  match d with
  | [] => [(k, v)]
  | (k', v') :: d' =>
      if decide (k = k') then (k', v) :: d' else (k', v') :: od_set k v d'
  end.

(** [d.get(k)] *)
Fixpoint od_get (k : K) (d : list (K * V)) : option V :=
  match d with
  | [] => None
  | (k', v') :: d' => if decide (k = k') then Some v' else od_get k d'
  end.

Definition od_keys (d : list (K * V)) : list K := fst <$> d.
Definition od_values (d : list (K * V)) : list V := snd <$> d.
End OrderedDict.

(** ** Progress percentage and progress bar *)

(** The dictionary [progress], shared with the reporter thread. *)
Record progress : Type := Progress {
  count : Z;
  total : Z;
  done : bool
}.

(** Python floats are IEEE 754 binary64 numbers. *)
Definition float : Type := spec_float.
Definition prec : Z := 53.
Definition emax : Z := 1024.

(** [a / b] on integers, [b] not zero: the float nearest to the
    quotient. *)
Definition int_truediv (a b : Z) : float :=
  let fl (n : Z) : float :=
    match n with
    | Z0 => S754_zero false
    | Zpos m => S754_finite false m 0
    | Zneg m => S754_finite true m 0
    end in
  SFdiv prec emax (fl a) (fl b).

(** The float equal to a small integer. *)
Definition float_of_int (n : Z) : float := binary_normalize prec emax n 0 false.

(** [x * n] for a float [x] and an integer [n] *)
Definition float_mul_int (x : float) (n : Z) : float :=
  SFmul prec emax x (float_of_int n).

(** [int(x)] for a finite float: rounding towards zero. *)
Definition int_of_float (x : float) : Z :=
  match x with
  | S754_finite s m e =>
      let a := if 0 <=? e then Z.pos m * 2 ^ e else Z.pos m / 2 ^ (- e) in
      if s then - a else a
  | _ => 0
  end.

(** The percentage computed by [update_progress]. *)
Definition progress_percent (p : progress) : Z :=
  if 0 <? total p
  then int_of_float (float_mul_int (int_truediv (count p) (total p)) 100)
  else 100.

(** The percentage as the specification words it: the floor of
    [completed / total * 100], and 100 when [total] is 0. *)
Definition floor_percent (p : progress) : Z :=
  if 0 <? total p then count p * 100 / total p else 100.

(** [s * n] for a string [s] of one character *)
Definition str_repeat (c : char) (n : Z) : pystr := replicate (Z.to_nat n) c.

Definition format_progress (percent : Z) : pystr :=
  let total_blocks := 10 in
  let filled_blocks :=
    int_of_float (float_mul_int (int_truediv percent 100) total_blocks) in
  let empty_blocks := total_blocks - filled_blocks in
  str_repeat 128309 filled_blocks ++ str_repeat 9898 empty_blocks
    ++ u8 " " ++ str_of_int percent ++ u8 "%".

(** The bar as the specification words it: [percent / 10] filled segments,
    the rest of the ten empty, then the number. *)
Definition bar_as_specified (percent : Z) : pystr :=
  str_repeat 128309 (percent / 10) ++ str_repeat 9898 (10 - percent / 10)
    ++ u8 " " ++ str_of_int percent ++ u8 "%".

(** ** News items, events and the outside world *)

(** A news item is a [dict] with the keys ['headline'] and ['url'], to
    which [process_date_input] adds ['date'], ['combined_text'] and
    ['predicted_emotion']. *)
Record news : Type := News {
  headline : pystr;
  url : pystr;
  date : option Z;
  combined_text : option pystr;
  predicted_emotion : option pystr
}.

(** The result of a call: a value, or an exception with its text. *)
Inductive outcome (A : Type) : Type :=
| Returned (a : A)
| Raised (e : pystr).
Arguments Returned {A} a.
Arguments Raised {A} e.

Inductive event : Type :=
| EvGet (u : pystr)
| EvLogError (msg : pystr)
| EvClassify (text : pystr)
| EvSend (chat_id : Z) (text : pystr).

(** What the program calls but does not define.  The network and the
    classifier may answer differently from call to call: they see the trace
    of the calls made so far.
    - [requests_get tr u]: the [text] of the response to
      [requests.get(u)], or the exception raised on the way;
    - [find_all_a html]: for each element of
      [soup.find_all('a', href=True)], its [get_text(strip=True)] and its
      [href];
    - [topic_body_p html]: the stripped text of the first [p] inside the
      [div] of class [topic-body__content], when both exist;
    - [first_p html]: the stripped text of the first [p] of the page;
    - [classifier tr text labels]: the list [result["labels"]], or the
      exception raised. *)
Class World : Type := {
  requests_get : list event -> pystr -> outcome pystr;
  find_all_a : pystr -> list (pystr * pystr);
  topic_body_p : pystr -> option pystr;
  first_p : pystr -> option pystr;
  classifier : list event -> pystr -> list pystr -> outcome (list pystr)
}.

(** The mutable state: the trace of outside calls and the global
    [user_context]. *)
Record state : Type := State {
  trace : list event;
  user_context : gmap Z (list news)
}.

(** ** A state and exception monad *)

Definition M (A : Type) : Type := state -> outcome A * state.

#[global] Instance M_ret : MRet M := fun A a st => (Returned a, st).

#[global] Instance M_bind : MBind M := fun A B f m st =>
  match m st with
  | (Returned a, st') => f a st'
  | (Raised e, st') => (Raised e, st')
  end.

(** [try: ... except Exception as e:] around [m]: the exception becomes a
    value. *)
Definition attempt {A : Type} (m : M A) : M (outcome A) := fun st =>
  let '(r, st') := m st in (Returned r, st').

Definition raise {A : Type} (e : pystr) : M A := fun st => (Raised e, st).

Definition emit (ev : event) : M unit := fun st =>
  (Returned tt, State (trace st ++ [ev]) (user_context st)).

Definition log_error (msg : pystr) : M unit := emit (EvLogError msg).

Section Program.
Context `{W : World}.

(** [requests.get(u)] followed by reading [response.text] *)
Definition http_get (u : pystr) : M pystr := fun st =>
  (requests_get (trace st) u, State (trace st ++ [EvGet u]) (user_context st)).

(** [classifier(text, candidate_labels=labels)["labels"]] *)
Definition call_classifier (text : pystr) (labels : list pystr)
    : M (list pystr) := fun st =>
  (classifier (trace st) text labels,
   State (trace st ++ [EvClassify text]) (user_context st)).

(** *** [get_first_sentence] *)

Definition is_terminal (c : char) : bool :=
  (c =? 46) || (c =? 33) || (c =? 63).

(** First element of [re.split] on white space that follows one of
    [.], [!], [?]: the text before the first such white space. *)
Fixpoint first_piece (after_terminal : bool) (text : pystr) : pystr :=
  match text with
  | [] => []
  | a :: text' =>
      if after_terminal && is_space a then []
      else a :: first_piece (is_terminal a) text'
  end.

Definition article_text (html : pystr) : pystr :=
  let text := default [] (topic_body_p html) in
  if bool_decide (text = []) then default text (first_p html) else text.

Definition get_first_sentence (u : pystr) : M pystr :=
  r ← attempt (http_get u);
  match r with
  | Raised e =>
      log_error (u8 "Ошибка при получении статьи " ++ u ++ u8 ": " ++ e);;
      mret []
  | Returned html => mret (first_piece false (article_text html))
  end.

(** *** Dates

    A [datetime.date] is its proleptic Gregorian ordinal, from 1
    (0001-01-01) to [MAXORDINAL] (9999-12-31). *)

Definition MAXORDINAL : Z := 3652059.

Definition valid_date (d : Z) : Prop := 1 <= d <= MAXORDINAL.

Definition DAYS_BEFORE_MONTH : list Z :=
  [0; 0; 31; 59; 90; 120; 151; 181; 212; 243; 273; 304; 334].
Definition DAYS_IN_MONTH : list Z :=
  [0; 31; 28; 31; 30; 31; 30; 31; 31; 30; 31; 30; 31].

(** Year, month and day of an ordinal. *)
Definition ord2ymd (ordinal : Z) : Z * Z * Z :=
  let n := ordinal - 1 in
  let n400 := n / 146097 in
  let n := n mod 146097 in
  let year := n400 * 400 + 1 in
  let n100 := n / 36524 in
  let n := n mod 36524 in
  let n4 := n / 1461 in
  let n := n mod 1461 in
  let n1 := n / 365 in
  let n := n mod 365 in
  let year := year + n100 * 100 + n4 * 4 + n1 in
  if (n1 =? 4) || (n100 =? 4) then (year - 1, 12, 31)
  else
    let leapyear := (n1 =? 3) && (negb (n4 =? 24) || (n100 =? 3)) in
    let month := Z.shiftr (n + 50) 5 in
    let preceding :=
      nth (Z.to_nat month) DAYS_BEFORE_MONTH 0
      + (if (2 <? month) && leapyear then 1 else 0) in
    if n <? preceding then
      let month := month - 1 in
      let preceding :=
        preceding - (nth (Z.to_nat month) DAYS_IN_MONTH 0
                     + (if (month =? 2) && leapyear then 1 else 0)) in
      (year, month, n - preceding + 1)
    else (year, month, n - preceding + 1).

(** [d + datetime.timedelta(days=1)] *)
Definition date_add_day (d : Z) : M Z :=
  if d + 1 <=? MAXORDINAL then mret (d + 1)
  else raise (u8 "date value out of range").

(** *** [get_news_for_day] *)

Definition BASE_URL : pystr := u8 "https://lenta.ru".

Definition day_url (date_obj : Z) : pystr :=
  let '(year, month, day) := ord2ymd date_obj in
  BASE_URL ++ u8 "/news/" ++ str_of_int year ++ u8 "/" ++ pad02 month
    ++ u8 "/" ++ pad02 day ++ u8 "/".
Arguments day_url : simpl never.

Definition blacklisted_headlines : gset pystr :=
  list_to_set
    [ u8 "узнать больше"; u8 "подробнее"; u8 "пресс-релизы";
      u8 "техподдержка"; u8 "спецпроекты";
      u8 "условия использования"; u8 "политика конфиденциальности";
      u8 "правила применения рекомендательных технологий";
      u8 "условиями акции lenta.ru";
      u8 "политикой конфиденциальности rambler id"; u8 "бывший ссср";
      u8 "силовые структуры"; u8 "наука и техника"; u8 "интернет и СМИ";
      u8 "путешествия"; u8 "среда обитания"; u8 "забота о себе" ].

Definition blacklisted_url_parts : list pystr :=
  [ u8 "mailto:"; u8 "/parts/"; u8 "/specprojects/"; u8 "/info/";
    u8 "help.rambler.ru"; u8 "/rubrics/" ].

(** The test before the first [continue] of the loop. *)
Definition headline_rejected (h : pystr) : bool :=
  bool_decide (h = []) || (length h <=? 10)%nat
  || bool_decide (lower h ∈ blacklisted_headlines).

Definition full_url_of (href : pystr) : pystr :=
  if startswith href (u8 "/") then BASE_URL ++ href
  else if startswith href (u8 "http") then href
  else BASE_URL ++ u8 "/" ++ href.

(** One round of the loop over the links: the item appended to
    [news_items], or [None] when the round ends in [continue]. *)
Definition candidate (a : pystr * pystr) : option news :=
  let '(raw_headline, href) := a in
  let h := format_news_headline raw_headline in
  if headline_rejected h then None
  else
    let full_url := full_url_of href in
    if existsb (fun bad => str_contains bad full_url) blacklisted_url_parts
    then None
    else Some (News h full_url None None None).

Definition collect_news (anchors : list (pystr * pystr)) : list news :=
  omap candidate anchors.

(** The dictionary [{item['url']: item for item in news_items}], built
    on top of [d]. *)
Definition url_index (news_items : list news) (d : list (pystr * news))
    : list (pystr * news) :=
  foldl (fun d item => od_set (url item) item d) d news_items.

(** [list({item['url']: item for item in news_items}.values())] *)
Definition unique_news (news_items : list news) : list news :=
  od_values (url_index news_items []).

Definition get_news_for_day (date_obj : Z) : M (list news) :=
  let u := day_url date_obj in
  r ← attempt (http_get u);
  match r with
  | Raised e =>
      log_error (u8 "Ошибка при получении " ++ u ++ u8 ": " ++ e);;
      mret []
  | Returned html => mret (unique_news (collect_news (find_all_a html)))
  end.

(** The items appended to [news_items] while crawling day [date_obj]
    from state [st]: the links of the fetched page that pass both
    filters, in document order. *)
Definition candidates_of_day (date_obj : Z) (st : state) : list news :=
  match requests_get (trace st) (day_url date_obj) with
  | Returned html => collect_news (find_all_a html)
  | Raised _ => []
  end.

(** *** [get_news_for_date_range] *)

(** The [while] loop.  [fuel] bounds the number of rounds;
    [get_news_for_date_range] starts it with the number of days from
    [start_date] to [end_date], which the loop cannot exceed. *)
Fixpoint range_loop (fuel : nat) (current_date end_date : Z)
    (news_by_day : list (Z * list news)) : M (list (Z * list news)) :=
  if current_date <=? end_date then
    match fuel with
    | O => mret news_by_day
    | S fuel' =>
        day_news ← get_news_for_day current_date;
        next ← date_add_day current_date;
        range_loop fuel' next end_date (od_set current_date day_news news_by_day)
    end
  else mret news_by_day.

(** Every value of the dictionary is what [get_news_for_day] returned
    for its key in some state. *)
Definition crawled (news_by_day : list (Z * list news)) : Prop :=
  forall d l, (d, l) ∈ news_by_day ->
    exists st st', get_news_for_day d st = (Returned l, st').

Definition get_news_for_date_range (start_date end_date : Z)
    : M (list (Z * list news)) :=
  range_loop (Z.to_nat (end_date - start_date + 1)) start_date end_date [].

(** *** The tagging loop of [process_date_input] *)

Definition CANDIDATE_LABELS : list pystr :=
  [ u8 "агрессия"; u8 "тревожность"; u8 "сарказм"; u8 "позитив";
    u8 "нейтральное состояние" ].

(** The label given to an item whose classification raised. *)
Definition UNDETERMINED : pystr := u8 "не определено".

(** The [try] block of the loop: [result["labels"][0]], where an empty
    list makes the subscript raise [IndexError]; any exception is logged
    and gives the label [UNDETERMINED]. *)
Definition predict (text : pystr) : M pystr :=
  r ← attempt (labels ← call_classifier text CANDIDATE_LABELS;
               match labels with
               | top :: _ => mret top
               | [] => raise (u8 "list index out of range")
               end);
  match r with
  | Returned top => mret top
  | Raised e =>
      log_error (u8 "Ошибка классификации текста: " ++ e);;
      mret UNDETERMINED
  end.

(** The label an item gets from the outcome of its classifier call: the
    first of the ranked labels, or [UNDETERMINED] when the call raised
    or ranked nothing. *)
Definition label_of_outcome (r : outcome (list pystr)) : pystr :=
  match r with
  | Returned (top :: _) => top
  | _ => UNDETERMINED
  end.

(** The body of the loop without the progress update. *)
Definition tag_news (item : news) : M news :=
  first_sentence ← get_first_sentence (url item);
  let text :=
    if bool_decide (first_sentence = []) then headline item
    else headline item ++ u8 ". " ++ first_sentence in
  emotion ← predict text;
  mret (News (headline item) (url item) (date item) (Some text) (Some emotion)).

(** [for news in aggregated_news: ...; progress["count"] += 1] *)
Fixpoint tagging_loop (items : list news) (p : progress)
    : M (list news * progress) :=
  match items with
  | [] => mret ([], p)
  | item :: rest =>
      item' ← tag_news item;
      '(rest', p') ← tagging_loop rest (Progress (count p + 1) (total p) (done p));
      mret (item' :: rest', p')
  end.

(** [item'] is [item] after its round of a run that ended with the trace
    [final]: the crawled fields are kept, the combined text is the
    headline, followed by [". "] and a first sentence when there is one,
    and the label is the outcome of a classifier call on that text that
    the trace records, [tr] being the trace before that call. *)
Definition labelled (final : list event) (item item' : news) : Prop :=
  headline item' = headline item /\ url item' = url item
  /\ date item' = date item
  /\ exists tr text,
       (tr ++ [EvClassify text]) `prefix_of` final
       /\ (text = headline item
           \/ exists sentence, sentence <> []
                /\ text = headline item ++ u8 ". " ++ sentence)
       /\ combined_text item' = Some text
       /\ predicted_emotion item' =
            Some (label_of_outcome (classifier tr text CANDIDATE_LABELS)).

(** The classifier ranks the labels it was given and no others. *)
Definition ranks_given_labels : Prop :=
  forall tr text labels ranked,
    classifier tr text labels = Returned ranked ->
    forall l, l ∈ ranked -> l ∈ labels.

(** [user_context[chat_id] = batch] *)
Definition store_batch (chat_id : Z) (batch : list news) : M unit := fun st =>
  (Returned tt, State (trace st) (<[chat_id := batch]> (user_context st))).

(** [process_date_input] from the test [if not aggregated_news] to the
    assignment to [user_context]: the tagged batch and the final
    [progress], or [None] when there was nothing to tag.  The reporter
    thread, which only reads [progress] and edits the status message, is
    not part of this function. *)
Definition tag_and_store (chat_id : Z) (aggregated_news : list news)
    : M (option (list news * progress)) :=
  match aggregated_news with
  | [] =>
      emit (EvSend chat_id
              (u8 "Новостей не найдено. Попробуйте другую дату или диапазон."));;
      mret None
  | _ =>
      emit (EvSend chat_id (u8 "Оценка эмоций: " ++ format_progress 0));;
      let p := Progress 0 (Z.of_nat (length aggregated_news)) false in
      '(tagged, p) ← tagging_loop aggregated_news p;
      let p := Progress (count p) (total p) true in
      store_batch chat_id tagged;;
      mret (Some (tagged, p))
  end.

(** *** [callback_emotion] *)

(** [data.split("_", 1)[1]]: what follows the first underscore;
    [IndexError] when there is none. *)
Fixpoint after_underscore (data : pystr) : option pystr :=
  match data with
  | [] => None
  | a :: data' => if a =? 95 then Some data' else after_underscore data'
  end.

(** [news.get('predicted_emotion', '')] *)
Definition emotion_of (item : news) : pystr := default [] (predicted_emotion item).

(** The list [filtered_news] that [callback_emotion] replies with. *)
Definition callback_emotion (chat_id : Z) (data : pystr) : M (list news) :=
  fun st =>
  match after_underscore data with
  | None => (Raised (u8 "list index out of range"), st)
  | Some label =>
      let selected_emotion := lower label in
      let news_items := default [] (user_context st !! chat_id) in
      (Returned
         (List.filter
            (fun item => str_eqb (lower (emotion_of item)) selected_emotion)
            news_items),
       st)
  end.

(** *** The store seen from [callback_emotion] *)

(** The state after the batches [stores] were assigned to
    [user_context], one after the other. *)
Definition after_stores (stores : list (Z * list news)) (st : state) : state :=
  foldl (fun st s => (store_batch s.1 s.2 st).2) st stores.

(** The batch most recently stored for [chat_id]. *)
Definition last_stored (chat_id : Z) (stores : list (Z * list news))
    : option (list news) :=
  snd <$> last (filter (fun s => s.1 = chat_id) stores).

(** The item has a label and it equals [label] once both are put in
    lower case. *)
Definition emotion_matches (label : pystr) (item : news) : bool :=
  match predicted_emotion item with
  | Some e => str_eqb (lower e) (lower label)
  | None => false
  end.

(** Every item of the batch went through the tagging loop. *)
Definition all_tagged (batch : list news) : Prop :=
  Forall (fun item => is_Some (predicted_emotion item)) batch.
End Program.

(** A world without network, in which every request raises, and whose
    classifier ranks the candidate labels in the order given. *)
Definition offline_world : World := {|
  requests_get := fun _ _ => Raised (u8 "connection refused");
  find_all_a := fun _ => [];
  topic_body_p := fun _ => None;
  first_p := fun _ => None;
  classifier := fun _ _ labels => Returned labels
|}.

(** A world without network whose classifier raises on its second call and
    otherwise ranks the candidate labels in the order given. *)
Definition flaky_world : World := {|
  requests_get := fun _ _ => Raised (u8 "connection refused");
  find_all_a := fun _ => [];
  topic_body_p := fun _ => None;
  first_p := fun _ => None;
  classifier := fun tr _ labels =>
    if (length (List.filter (fun ev => match ev with EvClassify _ => true | _ => false end) tr)
        =? 1)%nat
    then Raised (u8 "model failure") else Returned labels
|}.

Definition initial_state : state := State [] ∅.

Definition tagged_batch : list news :=
  [ News (u8 "Первая новость дня") (u8 "https://lenta.ru/news/2025/03/03/a/") None
      (Some (u8 "Первая новость дня")) (Some (u8 "позитив"));
    News (u8 "Вторая новость дня") (u8 "https://lenta.ru/news/2025/03/03/b/") None
      (Some (u8 "Вторая новость дня")) (Some (u8 "сарказм"));
    News (u8 "Третья новость дня") (u8 "https://lenta.ru/news/2025/03/03/c/") None
      (Some (u8 "Третья новость дня")) (Some (u8 "позитив")) ].

Definition three_items : list news :=
  [ News (u8 "Первая новость дня") (u8 "https://lenta.ru/news/2025/03/03/a/") None None None;
    News (u8 "Вторая новость дня") (u8 "https://lenta.ru/news/2025/03/03/b/") None None None;
    News (u8 "Третья новость дня") (u8 "https://lenta.ru/news/2025/03/03/c/") None None None ].


(** * The rest of the program *)

From Stdlib Require Import Sorting.Sorted.

(** ** Reading a request: [str.split], [int], [datetime.date] *)

(** [s.split()]: the words of [s] between runs of white space. *)
Fixpoint split_ws (s : pystr) : list pystr :=
  match s with
  | [] => []
  | c :: s' =>
      if is_space c then split_ws s'
      else
        match s' with
        | [] => [[c]]
        | c' :: _ =>
            if is_space c' then [c] :: split_ws s'
            else
              match split_ws s' with
              | w :: ws => (c :: w) :: ws
              | [] => [[c]]
              end
        end
  end.

(** [s.split(sep)] for a separator of one character. *)
Fixpoint split_char (sep : char) (s : pystr) : list pystr :=
  match s with
  | [] => [[]]
  | c :: s' =>
      if c =? sep then [] :: split_char sep s'
      else
        match split_char sep s' with
        | w :: ws => (c :: w) :: ws
        | [] => [[c]]
        end
  end.

(** The value of a decimal digit of any script. *)
Definition digit_value (c : char) : option Z :=
  match List.find (fun lo => (lo <=? c) && (c <? lo + 10)) decimal_digit_runs with
  | Some lo => Some (c - lo)
  | None =>
      if (120782 <=? c) && (c <=? 120831) then Some ((c - 120782) mod 10)
      else None
  end.

(** The white space that [int] skips around a number: the ASCII blanks
    and the white space beyond ASCII. *)
Definition int_space (c : char) : bool :=
  ((9 <=? c) && (c <=? 13)) || (c =? 32) || ((127 <=? c) && is_space c).

Fixpoint drop_int_space (s : pystr) : pystr :=
  match s with
  | c :: s' => if int_space c then drop_int_space s' else s
  | [] => []
  end.

(** The digits after the first one: a digit, or one underscore and a
    digit, at a time. *)
Fixpoint int_digits (acc : Z) (s : pystr) : option Z :=
  match s with
  | [] => Some acc
  | c :: s' =>
      if c =? 95 then
        match s' with
        | d :: s'' =>
            match digit_value d with
            | Some v => int_digits (acc * 10 + v) s''
            | None => None
            end
        | [] => None
        end
      else
        match digit_value c with
        | Some v => int_digits (acc * 10 + v) s'
        | None => None
        end
  end.

(** The number of digits beyond which [int] raises [ValueError]: the
    default of [sys.get_int_max_str_digits()]. *)
Definition int_max_str_digits : nat := 4300.

Definition int_unsigned (s : pystr) : option Z :=
  if (int_max_str_digits <? length (List.filter (fun c : char => negb (c =? 95)%Z) s))%nat
  then None
  else
    match s with
    | d :: s' =>
        match digit_value d with
        | Some v => int_digits v s'
        | None => None
        end
    | [] => None
    end.

(** [int(s)]; [None] stands for [ValueError]. *)
Definition int_of_str (s : pystr) : option Z :=
  let s := rev (drop_int_space (rev (drop_int_space s))) in
  match s with
  | c :: s' =>
      if c =? 43 then int_unsigned s'
      else if c =? 45 then Z.opp <$> int_unsigned s'
      else int_unsigned s
  | [] => None
  end.

Definition is_leap (year : Z) : bool :=
  (year mod 4 =? 0) && (negb (year mod 100 =? 0) || (year mod 400 =? 0)).

Definition days_before_year (year : Z) : Z :=
  let y := year - 1 in
  y * 365 + y / 4 - y / 100 + y / 400.

Definition days_in_month (year month : Z) : Z :=
  if (month =? 2) && is_leap year then 29
  else nth (Z.to_nat month) DAYS_IN_MONTH 0.

Definition days_before_month (year month : Z) : Z :=
  nth (Z.to_nat month) DAYS_BEFORE_MONTH 0
  + (if (2 <? month) && is_leap year then 1 else 0).

(** The ordinal of a year, month and day. *)
Definition ymd2ord (year month day : Z) : Z :=
  days_before_year year + days_before_month year month + day.

Definition valid_ymd (year month day : Z) : Prop :=
  1 <= year <= 9999 /\ 1 <= month <= 12 /\ 1 <= day <= days_in_month year month.

(** [datetime.date(year, month, day)]; [None] stands for [ValueError]. *)
Definition make_date (year month day : Z) : option Z :=
  if (1 <=? year) && (year <=? 9999) && (1 <=? month) && (month <=? 12)
     && (1 <=? day) && (day <=? days_in_month year month)
  then Some (ymd2ord year month day)
  else None.

(** [day, month, year = map(int, part.split('-'))] followed by
    [datetime.date(year, month, day)]; [None] when any step raises. *)
Definition parse_date (part : pystr) : option Z :=
  match split_char 45 part with
  | [a; b; c] =>
      day ← int_of_str a;
      month ← int_of_str b;
      year ← int_of_str c;
      make_date year month day
  | _ => None
  end.

(** The format specification [:0w] on a non-negative [int]. *)
Definition pad0 (width : nat) (n : Z) : pystr :=
  let d := str_of_int n in
  replicate (width - length d) 48 ++ d.

(** [str(date_obj)] *)
Definition isoformat (date_obj : Z) : pystr :=
  let '(year, month, day) := ord2ymd date_obj in
  pad0 4 year ++ u8 "-" ++ pad0 2 month ++ u8 "-" ++ pad0 2 day.

(** The text [DD-MM-YYYY] that the help message asks for. *)
Definition typed_date (year month day : Z) : pystr :=
  pad0 2 day ++ u8 "-" ++ pad0 2 month ++ u8 "-" ++ pad0 4 year.

(** The first and the last day of a request of one or two parts, when
    every part is a date. *)
Definition request_dates (parts : list pystr) : option (Z * Z) :=
  match parts with
  | [part] => d ← parse_date part; Some (d, d)
  | [part1; part2] =>
      d1 ← parse_date part1;
      d2 ← parse_date part2;
      Some (Z.min d1 d2, Z.max d1 d2)
  | _ => None
  end.

(** ** [process_date_input], the part before the tagging *)

(** [news['date'] = date_key] *)
Definition with_date (date_key : Z) (item : news) : news :=
  News (headline item) (url item) (Some date_key) (combined_text item)
    (predicted_emotion item).

(** The two nested loops over [news_range.items()]. *)
Definition aggregate (news_range : list (Z * list news)) : list news :=
  concat ((fun entry : Z * list news => with_date entry.1 <$> entry.2)
            <$> news_range).

(** The URLs requested and the texts classified, in the order of a trace. *)
Definition requested (tr : list event) : list pystr :=
  omap (fun ev => match ev with EvGet u => Some u | _ => None end) tr.

Definition classified (tr : list event) : list pystr :=
  omap (fun ev => match ev with EvClassify t => Some t | _ => None end) tr.

Definition sent (tr : list event) : list (Z * pystr) :=
  omap (fun ev => match ev with EvSend c t => Some (c, t) | _ => None end) tr.

(** What every item that leaves [get_news_for_day] looks like: a headline
    of more than ten characters whose lower case is not blacklisted, an
    absolute URL without any of the blacklisted parts, and none of the
    fields that are added later. *)
Definition crawled_item (item : news) : Prop :=
  (10 < length (headline item))%nat
  /\ (lower (headline item) ∉ blacklisted_headlines)
  /\ (exists rest, url item = u8 "http" ++ rest)
  /\ (forall bad pre post,
        bad ∈ blacklisted_url_parts -> url item <> pre ++ bad ++ post)
  /\ date item = None /\ combined_text item = None
  /\ predicted_emotion item = None.

Section Handler.
Context `{W : World}.

(** The links of the page of day [date_obj], when the request succeeds. *)
Definition links_of_day (date_obj : Z) (st : state) : list (pystr * pystr) :=
  match requests_get (trace st) (day_url date_obj) with
  | Returned html => find_all_a html
  | Raised _ => []
  end.

(** The crawl of a list of days, one after the other: every day with its
    news, in the order of the days. *)
Fixpoint crawl_days (days : list Z) : M (list (Z * list news)) :=
  match days with
  | [] => mret []
  | d :: days' =>
      day_news ← get_news_for_day d;
      rest ← crawl_days days';
      mret ((d, day_news) :: rest)
  end.

(** The text of the exception raised while the dates of a request are
    read: it is shown to the user and otherwise plays no part. *)
Variable exception_text : list pystr -> pystr.

(** The [try] block of [process_date_input]: the news to tag, or [None]
    after the reply to a request that has neither one nor two parts. *)
Definition collect_request (chat_id : Z) (parts : list pystr)
    : M (option (list news)) :=
  match parts with
  | [part] =>
      match parse_date part with
      | None => raise (exception_text parts)
      | Some date_obj =>
          aggregated_news ← get_news_for_day date_obj;
          emit (EvSend chat_id
                  (u8 "Найдено <b>"
                   ++ str_of_int (Z.of_nat (length aggregated_news))
                   ++ u8 "</b> новостей за <b>" ++ isoformat date_obj
                   ++ u8 "</b>."));;
          mret (Some aggregated_news)
      end
  | [part1; part2] =>
      match parse_date part1, parse_date part2 with
      | Some date1, Some date2 =>
          let '(start_date, end_date) :=
            if date2 <? date1 then (date2, date1) else (date1, date2) in
          news_range ← get_news_for_date_range start_date end_date;
          emit (EvSend chat_id
                  (u8 "Обработано новостей за период <b>"
                   ++ isoformat start_date ++ u8 "</b> - <b>"
                   ++ isoformat end_date ++ u8 "</b>."));;
          mret (Some (aggregate news_range))
      | _, _ => raise (exception_text parts)
      end
  | _ =>
      emit (EvSend chat_id
              (u8 "Неверный формат ввода. Пожалуйста, введите дату или диапазон дат в формате <b>ДД-ММ-ГГГГ</b>."));;
      mret None
  end.

(** [process_date_input] up to the assignment to [user_context]; the
    chart and the keyboard that follow are [emotion_counts] and
    [keyboard] below.  Sending a message is taken to succeed. *)
Definition process_date_input (chat_id : Z) (text : pystr) : M unit :=
  let parts := split_ws (strip text) in
  r ← attempt (collect_request chat_id parts);
  match r with
  | Raised e =>
      emit (EvSend chat_id (u8 "Ошибка обработки ввода: <b>" ++ e ++ u8 "</b>"))
  | Returned None => mret tt
  | Returned (Some aggregated_news) =>
      tag_and_store chat_id aggregated_news;;
      mret tt
  end.
End Handler.

(** ** [generate_emotion_graph]: the numbers of the chart *)

(** [emotion_counts[emotion] += 1] when [emotion] is a key. *)
Definition count_emotion (counts : list (pystr * Z)) (item : news)
    : list (pystr * Z) :=
  match predicted_emotion item with
  | Some emotion =>
      match od_get emotion counts with
      | Some n => od_set emotion (n + 1) counts
      | None => counts
      end
  | None => counts
  end.

(** The dictionary [emotion_counts] that is handed to [plt.bar]. *)
Definition emotion_counts (news_items : list news) : list (pystr * Z) :=
  foldl count_emotion
    (foldl (fun d label => od_set label 0 d) [] CANDIDATE_LABELS)
    news_items.

(** The sum of the bars. *)
Definition chart_total (counts : list (pystr * Z)) : Z :=
  foldr (fun entry acc => entry.2 + acc) 0 counts.

(** The item has one of the candidate labels. *)
Definition has_candidate_label (item : news) : bool :=
  match predicted_emotion item with
  | Some emotion => bool_decide (emotion ∈ CANDIDATE_LABELS)
  | None => false
  end.

(** The item has the label [label], letter for letter. *)
Definition has_label (label : pystr) (item : news) : bool :=
  bool_decide (predicted_emotion item = Some label).

(** Every item has a label, and it is a candidate label or
    [UNDETERMINED]: the state of a batch after the tagging loop when the
    classifier ranks the labels it is given. *)
Definition labels_known (batch : list news) : Prop :=
  Forall (fun item =>
            exists emotion, predicted_emotion item = Some emotion
                            /\ (emotion ∈ CANDIDATE_LABELS \/ emotion = UNDETERMINED))
         batch.

(** ** The keyboard and the guard of [callback_emotion] *)

(** The [callback_data] of the buttons, one per candidate label. *)
Definition keyboard : list pystr :=
  (fun label => u8 "emotion_" ++ label) <$> CANDIDATE_LABELS.

(** [call.data.startswith("emotion_")] *)
Definition is_emotion_callback (data : pystr) : bool :=
  startswith data (u8 "emotion_").

(** A world in which every request returns one and the same page, with one
    paragraph of two sentences and two links to one address. *)
Definition one_page_world : World := {|
  requests_get := fun _ _ => Returned (u8 "<p>Раз. Два.</p>");
  find_all_a := fun _ =>
    [ (u8 "Первый заголовок", u8 "/news/x");
      (u8 "Второй заголовок16:45, 3 марта 2025", u8 "news/x") ];
  topic_body_p := fun _ => None;
  first_p := fun _ => Some (u8 "Раз. Два.");
  classifier := fun _ _ labels => Returned labels
|}.

(** * Properties *)

(** ** The matcher *)

Module ReFacts.
Import Re.

Section Matcher.
Variable w : pystr.

Lemma star_loop_sound (g : bool) (r : regex) :
  sound_at w r ->
  forall fuel s c k res,
    star_loop (run w r) g fuel s c k = Some res ->
    exists s1 s2 c1,
      s = s1 ++ s2 /\ matches w (Star g r) s1 s2 c c1 /\ k s2 c1 = Some res.
Proof.
  intros IHr. induction fuel as [|fuel IH]; intros s c k res Hrun.
  - exists [], s, c. split; [done|]. split; [constructor | exact Hrun].
  - cbn [star_loop] in Hrun. cbv zeta in Hrun.
    assert (forall res0,
            run w r s c
              (fun s' c' =>
                 if (length s' <? length s)%nat
                 then star_loop (run w r) g fuel s' c' k else None)
            = Some res0 ->
            exists s1 s2 c1,
              s = s1 ++ s2 /\ matches w (Star g r) s1 s2 c c1
              /\ k s2 c1 = Some res0) as Hbody.
    { intros res0 Hb. apply IHr in Hb as (sa & s2 & ca & -> & Ha & Hk).
      cbv beta in Hk.
      destruct (Nat.ltb_spec (length s2) (length (sa ++ s2))) as [Hlt|_];
        [|done].
      apply IH in Hk as (sb & s3 & cb & -> & Hb & Hk).
      exists (sa ++ sb), s3, cb. split; [by rewrite app_assoc|].
      split; [|exact Hk].
      apply M_StarCons with (c1 := ca); [|exact Ha | exact Hb].
      intros ->. cbn in Hlt. lia. }
    assert (forall res0, k s c = Some res0 ->
            exists s1 s2 c1,
              s = s1 ++ s2 /\ matches w (Star g r) s1 s2 c c1
              /\ k s2 c1 = Some res0) as Hstop.
    { intros res0 Hk. exists [], s, c. split; [done|].
      split; [constructor | exact Hk]. }
    destruct g.
    + match type of Hrun with
      | context [run w r s c ?kk] =>
          destruct (run w r s c kk) as [res'|] eqn:Hb
      end.
      * apply Hbody. exact Hrun.
      * apply Hstop. exact Hrun.
    + destruct (k s c) as [res'|] eqn:Hk.
      * apply Hstop. exact Hrun.
      * apply Hbody. exact Hrun.
Qed.

(** A result of the matcher comes from a match of the pattern at the
    front of the input, followed by a successful continuation. *)
Lemma run_sound (r : regex) : sound_at w r.
Proof.
  induction r as [|p|r1 IH1 r2 IH2|r1 IH1 r2 IH2|g r IH|i r IH| |];
    intros s c k res Hrun; cbn [run] in Hrun.
  - exists [], s, c. split; [done|]. split; [constructor | exact Hrun].
  - destruct s as [|a s]; [done|]. destruct (p a) eqn:Hp; [|done].
    exists [a], s, c. split; [done|]. split; [by constructor | exact Hrun].
  - apply IH1 in Hrun as (sa & s2 & ca & -> & Ha & Hrun).
    apply IH2 in Hrun as (sb & s3 & cb & -> & Hb & Hk).
    exists (sa ++ sb), s3, cb. split; [by rewrite app_assoc|].
    split; [|exact Hk]. by apply M_Cat with (c1 := ca).
  - destruct (run w r1 s c k) as [res'|] eqn:H1.
    + apply IH1 in H1 as (s1 & s2 & c1 & -> & Hm & Hk).
      exists s1, s2, c1. split; [done|]. split; [by apply M_AltL|].
      by rewrite Hk.
    + apply IH2 in Hrun as (s1 & s2 & c1 & -> & Hm & Hk).
      exists s1, s2, c1. split; [done|]. split; [by apply M_AltR | exact Hk].
  - by apply star_loop_sound in Hrun.
  - apply IH in Hrun as (s1 & s2 & c1 & -> & Hm & Hk).
    exists s1, s2, (<[i := s1]> c1). split; [done|].
    split; [by constructor|].
    rewrite length_app in Hk.
    replace (length s1 + length s2 - length s2)%nat with (length s1) in Hk by lia.
    by rewrite take_app_length in Hk.
  - destruct (Nat.eqb_spec (length s) (length w)) as [Hl|_]; [|done].
    exists [], s, c. split; [done|]. split; [by constructor | exact Hrun].
  - destruct (str_eqb s [] || str_eqb s [10]) eqn:Hs; [|done].
    unfold str_eqb in Hs. rewrite orb_true_iff, !bool_decide_eq_true in Hs.
    exists [], s, c. split; [done|]. split; [by constructor | exact Hrun].
Qed.

Lemma star_loop_complete (g : bool) (r : regex) :
  complete_at w r ->
  forall fuel s1 rest c c1,
    matches w (Star g r) s1 rest c c1 ->
    (length (s1 ++ rest) <= fuel)%nat ->
    forall k, (forall c', k rest c' <> None) ->
    forall c0, star_loop (run w r) g fuel (s1 ++ rest) c0 k <> None.
Proof.
  intros IHr. unfold complete_at in IHr.
  induction fuel as [|fuel IH]; intros s1 rest c c1 Hm Hfuel k Hk c0.
  - destruct s1; [|cbn in Hfuel; lia]. cbn. apply Hk.
  - cbn [star_loop].
    inversion Hm as [| | | | |? ? ? ?|? ? sa sb ? ? ca ? Hne Ha Hb| | |]; subst.
    + cbn [app]. destruct g.
      * destruct (run w r rest c0 _); [done | apply Hk].
      * specialize (Hk c0). by destruct (k rest c0).
    + match goal with
      | |- context [run w r ?s c0 ?k'] =>
          assert (run w r s c0 k' <> None) as Hbody
      end.
      { rewrite <- app_assoc in *. eapply IHr; [exact Ha|]. intros c'.
        assert (length (sb ++ rest) < length (sa ++ sb ++ rest))%nat as Hlt.
        { destruct sa; [done|]. rewrite !length_app. cbn [length]. lia. }
        destruct (Nat.ltb_spec (length (sb ++ rest))
                    (length (sa ++ sb ++ rest))) as [_|Hge]; [|lia].
        eapply IH; [exact Hb | lia | exact Hk]. }
      destruct g.
      * by destruct (run w r _ c0 _).
      * by destruct (k _ c0).
Qed.

(** When the pattern matches a prefix of the input and the
    continuation accepts what follows, the matcher succeeds. *)
Lemma run_complete (r : regex) : complete_at w r.
Proof.
  induction r as [|p|r1 IH1 r2 IH2|r1 IH1 r2 IH2|g r IH|i r IH| |];
    unfold complete_at in *;
    intros s1 rest c c1 Hm k Hk c0; inversion Hm; subst; cbn [run].
  - apply Hk.
  - cbn. match goal with H : p _ = true |- _ => rewrite H end. apply Hk.
  - rewrite <- app_assoc. eapply IH1; [eassumption|].
    intros c'. eapply IH2; [eassumption | exact Hk].
  - destruct (run w r1 _ c0 k) eqn:H1; [done|].
    exfalso. revert H1. eapply IH1; [eassumption | exact Hk].
  - destruct (run w r1 _ c0 k) eqn:H1; [done|].
    eapply IH2; [eassumption | exact Hk].
  - eapply (star_loop_complete g r IH _ []); [exact Hm | done | exact Hk].
  - eapply (star_loop_complete g r IH); [exact Hm | done | exact Hk].
  - eapply IH; [eassumption|]. intros c'. apply Hk.
  - cbn [app]. match goal with H : length rest = _ |- _ => rewrite H end.
    rewrite Nat.eqb_refl. apply Hk.
  - cbn [app].
    match goal with H : rest = [] \/ _ |- _ => destruct H as [->| ->] end;
      cbn; apply Hk.
Qed.

(** *** Patterns made of character classes *)

Lemma cat_iff (r1 r2 : regex) s rest c c' :
  matches w (Cat r1 r2) s rest c c'
  <-> exists s1 s2 c1,
        s = s1 ++ s2 /\ matches w r1 s1 (s2 ++ rest) c c1
        /\ matches w r2 s2 rest c1 c'.
Proof.
  split.
  - intros H. inversion H; subst. eauto 10.
  - intros (s1 & s2 & c1 & -> & H1 & H2). by apply M_Cat with (c1 := c1).
Qed.

Lemma eps_iff s rest c c' : matches w Eps s rest c c' <-> s = [] /\ c' = c.
Proof.
  split.
  - intros H. by inversion H.
  - intros [-> ->]. constructor.
Qed.

Lemma chr_iff (p : char -> bool) s rest c c' :
  matches w (Chr p) s rest c c' <-> exists a, s = [a] /\ p a = true /\ c' = c.
Proof.
  split.
  - intros H. inversion H; subst. eauto.
  - intros (a & -> & Hp & ->). by constructor.
Qed.

Lemma group_iff (i : nat) (r : regex) s rest c c' :
  matches w (Group i r) s rest c c'
  <-> exists c1, matches w r s rest c c1 /\ c' = <[i := s]> c1.
Proof.
  split.
  - intros H. inversion H; subst. eauto.
  - intros (c1 & H & ->). by constructor.
Qed.

Lemma star_chr_iff (g : bool) (p : char -> bool) s rest c c' :
  matches w (Star g (Chr p)) s rest c c' <-> all_of p s /\ c' = c.
Proof.
  split.
  - intros H. remember (Star g (Chr p)) as r eqn:Hr.
    induction H as [| | | | | |g' r' s1 s2 rest c c1 c2 Hne H1 _ H2 IH| | |];
      try discriminate Hr.
    + split; [constructor | done].
    + injection Hr as -> ->. apply chr_iff in H1 as (a & -> & Hp & ->).
      destruct (IH eq_refl) as [Hall ->]. split; [|done].
      by constructor.
  - intros [Hall ->]. revert rest. induction Hall as [|a s Hp Hall IH]; intros rest.
    + constructor.
    + apply (M_StarCons w g (Chr p) [a] s rest c c c); [done | | apply IH].
      by constructor.
Qed.

Lemma plus_chr_iff (p : char -> bool) s rest c c' :
  matches w (plus (Chr p)) s rest c c' <-> s <> [] /\ all_of p s /\ c' = c.
Proof.
  unfold plus. rewrite cat_iff. split.
  - intros (s1 & s2 & c1 & -> & H1 & H2).
    apply chr_iff in H1 as (a & -> & Hp & ->).
    apply star_chr_iff in H2 as [Hall ->].
    split; [done|]. split; [by constructor | done].
  - intros (Hne & Hall & ->). destruct Hall as [|a s Hp Hall]; [done|].
    exists [a], s, c. split; [done|].
    split; [by apply chr_iff; eauto | by apply star_chr_iff].
Qed.

Lemma rep_chr_iff (n : nat) (p : char -> bool) s rest c c' :
  matches w (rep n (Chr p)) s rest c c'
  <-> length s = n /\ all_of p s /\ c' = c.
Proof.
  revert s rest c c'. induction n as [|n IH]; intros s rest c c'; cbn [rep].
  - rewrite eps_iff. split.
    + intros [-> ->]. split; [done|]. split; [constructor | done].
    + intros (Hl & _ & ->). by destruct s.
  - rewrite cat_iff. split.
    + intros (s1 & s2 & c1 & -> & H1 & H2).
      apply chr_iff in H1 as (a & -> & Hp & ->).
      apply IH in H2 as (Hl & Hall & ->).
      split; [cbn; by rewrite Hl|]. split; [by constructor | done].
    + intros (Hl & Hall & ->). destruct Hall as [|a s Hp Hall]; [done|].
      exists [a], s, c. split; [done|].
      split; [by apply chr_iff; eauto|].
      apply IH. cbn in Hl. split; [lia | done].
Qed.

Lemma rep_upto_chr_iff (n : nat) (p : char -> bool) s rest c c' :
  matches w (rep_upto n (Chr p)) s rest c c'
  <-> (length s <= n)%nat /\ all_of p s /\ c' = c.
Proof.
  revert s rest c c'. induction n as [|n IH]; intros s rest c c'; cbn [rep_upto].
  - rewrite eps_iff. split.
    + intros [-> ->]. split; [done|]. split; [constructor | done].
    + intros (Hl & _ & ->). destruct s; [done | cbn in Hl; lia].
  - split.
    + intros H. inversion H as [| | |? ? ? ? ? ? H'|? ? ? ? ? ? H'| | | | |]; subst.
      * apply cat_iff in H' as (s1 & s2 & c1 & -> & H1 & H2).
        apply chr_iff in H1 as (a & -> & Hp & ->).
        apply IH in H2 as (Hl & Hall & ->).
        split; [cbn; lia|]. split; [by constructor | done].
      * apply eps_iff in H' as [-> ->].
        split; [cbn; lia|]. split; [constructor | done].
    + intros (Hl & Hall & ->). destruct Hall as [|a s Hp Hall].
      * apply M_AltR. constructor.
      * apply M_AltL. apply cat_iff. exists [a], s, c. split; [done|].
        split; [by apply chr_iff; eauto|].
        apply IH. cbn in Hl. split; [lia | done].
Qed.

(** The lazy repetition of a character class stops at the first
    position where the continuation succeeds. *)
Lemma lazy_star_chr_first (p : char -> bool) (fuel : nat) :
  forall s c k res,
    star_loop (run w (Chr p)) false fuel s c k = Some res ->
    exists n : nat,
      k (drop n s) c = Some res /\ all_of p (take n s)
      /\ (n <= length s)%nat
      /\ forall m : nat, (m < n)%nat -> k (drop m s) c = None.
Proof.
  induction fuel as [|fuel IH]; intros s c k res Hrun; cbn [star_loop] in Hrun.
  - exists 0%nat. split; [exact Hrun|]. split; [constructor|].
    split; [lia | intros m Hm; lia].
  - cbv zeta in Hrun. destruct (k s c) as [res'|] eqn:Hk.
    + exists 0%nat. split; [by rewrite <- Hrun|]. split; [constructor|].
      split; [lia | intros m Hm; lia].
    + cbn [run] in Hrun. destruct s as [|a s]; [done|].
      destruct (p a) eqn:Hp; [|done].
      destruct (Nat.ltb_spec (length s) (length (a :: s))) as [_|Hge];
        [|cbn in Hge; lia].
      apply IH in Hrun as (n & Hn & Hall & Hlen & Hmin).
      exists (S n). split; [exact Hn|]. split; [by constructor|].
      split; [cbn; lia|].
      intros [|m] Hm; [exact Hk | apply Hmin; lia].
Qed.

Lemma bol_iff s rest c c' :
  matches w Bol s rest c c' <-> s = [] /\ length rest = length w /\ c' = c.
Proof.
  split.
  - intros H. by inversion H.
  - intros (-> & Hl & ->). by constructor.
Qed.

Lemma eol_iff s rest c c' :
  matches w Eol s rest c c' <-> s = [] /\ (rest = [] \/ rest = [10]) /\ c' = c.
Proof.
  split.
  - intros H. by inversion H.
  - intros (-> & Hl & ->). by constructor.
Qed.
End Matcher.
End ReFacts.


(** ** [format_news_headline] *)

Section HeadlineFormat.
Import Re ReFacts.

Lemma all_of_app (p : char -> bool) (s1 s2 : pystr) :
  all_of p (s1 ++ s2) <-> all_of p s1 /\ all_of p s2.
Proof. apply Forall_app. Qed.

Lemma time_re_iff w s rest c c' :
  matches w time_re s rest c c' <-> is_time s /\ c' = c.
Proof.
  unfold time_re, seq, lit, digit. cbn [foldr]. split.
  - intros H.
    apply cat_iff in H as (s1 & s2 & c1 & -> & H1 & H2).
    apply rep_chr_iff in H1 as (Hl1 & Ha1 & ->).
    apply cat_iff in H2 as (s3 & s4 & c2 & -> & H3 & H4).
    apply chr_iff in H3 as (x & -> & Hx & ->). apply Z.eqb_eq in Hx as <-.
    apply cat_iff in H4 as (s5 & s6 & c3 & -> & H5 & H6).
    apply rep_chr_iff in H5 as (Hl5 & Ha5 & ->). apply eps_iff in H6 as [-> ->].
    split; [|done].
    destruct s1 as [|a [|b [|]]]; try done.
    destruct s5 as [|c0 [|d [|]]]; try done.
    inversion Ha1 as [|? ? ? Ha1']; inversion Ha1'; subst.
    inversion Ha5 as [|? ? ? Ha5']; inversion Ha5'; subst.
    by exists a, b, c0, d.
  - intros [(a & b & c0 & d & -> & Ha & Hb & Hc & Hd) ->].
    apply cat_iff. exists [a; b], [58; c0; d], c. split; [done|]. split.
    { apply rep_chr_iff. split; [done|]. split; [|done]. by repeat constructor. }
    apply cat_iff. exists [58], [c0; d], c. split; [done|]. split.
    { apply chr_iff. by exists 58. }
    apply cat_iff. exists [c0; d], [], c. split; [done|]. split.
    { apply rep_chr_iff. split; [done|]. split; [|done]. by repeat constructor. }
    by apply eps_iff.
Qed.

Lemma date_re_iff w s rest c c' :
  matches w date_re s rest c c' <-> is_date s /\ c' = c.
Proof.
  unfold date_re, seq, digit, space, nonspace. cbn [foldr]. split.
  - intros H.
    apply cat_iff in H as (s1 & s2 & c1 & -> & H1 & H2).
    apply cat_iff in H1 as (d1 & d2 & c2 & -> & Hd1 & Hd2).
    apply rep_chr_iff in Hd1 as (Hl1 & Ha1 & ->).
    apply rep_upto_chr_iff in Hd2 as (Hl2 & Ha2 & ->).
    apply cat_iff in H2 as (sp1 & s3 & c3 & -> & Hsp1 & H3).
    apply plus_chr_iff in Hsp1 as (Hn1 & Hs1 & ->).
    apply cat_iff in H3 as (word & s4 & c4 & -> & Hw & H4).
    apply plus_chr_iff in Hw as (Hnw & Hsw & ->).
    apply cat_iff in H4 as (sp2 & s5 & c5 & -> & Hsp2 & H5).
    apply plus_chr_iff in Hsp2 as (Hn2 & Hs2 & ->).
    apply cat_iff in H5 as (yyyy & s6 & c6 & -> & Hy & H6).
    apply rep_chr_iff in Hy as (Hly & Hay & ->). apply eps_iff in H6 as [-> ->].
    split; [|done].
    exists (d1 ++ d2), sp1, word, sp2, yyyy.
    split; [by rewrite app_nil_r, <- !app_assoc|].
    split; [rewrite length_app; lia|].
    split; [by apply all_of_app|]. done.
  - intros [(dd & sp1 & word & sp2 & yyyy & -> & Hld & Hdd & Hn1 & Hs1 & Hnw & Hsw
             & Hn2 & Hs2 & Hly & Hay) ->].
    apply cat_iff. exists dd, (sp1 ++ word ++ sp2 ++ yyyy), c.
    split; [done|]. split.
    { apply cat_iff. exists (take 1 dd), (drop 1 dd), c.
      split; [by rewrite take_drop|].
      rewrite <- (take_drop 1 dd) in Hdd. apply all_of_app in Hdd as [Ht Hd].
      split.
      - apply rep_chr_iff. split; [rewrite length_take; lia|]. done.
      - apply rep_upto_chr_iff. split; [rewrite length_drop; lia|]. done. }
    apply cat_iff. exists sp1, (word ++ sp2 ++ yyyy), c. split; [done|].
    split; [by apply plus_chr_iff|].
    apply cat_iff. exists word, (sp2 ++ yyyy), c. split; [done|].
    split; [by apply plus_chr_iff|].
    apply cat_iff. exists sp2, yyyy, c. split; [done|].
    split; [by apply plus_chr_iff|].
    apply cat_iff. exists yyyy, [], c. split; [by rewrite app_nil_r|].
    split; [by apply rep_chr_iff | by apply eps_iff].
Qed.

(** A match of the pattern after its first group, read as a
    decomposition of what it consumes. *)
Lemma headline_tail_iff w s rest c c' :
  matches w (seq headline_tail) s rest c c'
  <-> exists time sp date trail,
        s = time ++ [44] ++ sp ++ date ++ trail
        /\ is_time time
        /\ all_of is_space sp
        /\ is_date date
        /\ all_of (fun a => negb (a =? 10)) trail
        /\ (rest = [] \/ rest = [10])
        /\ c' = <[4%nat := trail]> (<[3%nat := date]> (<[2%nat := time]> c)).
Proof.
  unfold headline_tail, seq, lit, dot, space. cbn [foldr]. split.
  - intros H.
    apply cat_iff in H as (time & s3 & c2 & -> & H2 & H).
    apply group_iff in H2 as (c2' & H2 & ->).
    apply time_re_iff in H2 as [Htime ->].
    apply cat_iff in H as (comma & s4 & c3 & -> & H3 & H).
    apply chr_iff in H3 as (x & -> & Hx & ->). apply Z.eqb_eq in Hx as <-.
    apply cat_iff in H as (sp & s5 & c4 & -> & H4 & H).
    apply star_chr_iff in H4 as [Hsp ->].
    apply cat_iff in H as (date & s6 & c5 & -> & H5 & H).
    apply group_iff in H5 as (c5' & H5 & ->).
    apply date_re_iff in H5 as [Hdate ->].
    apply cat_iff in H as (trail & s7 & c6 & -> & H6 & H).
    apply group_iff in H6 as (c6' & H6 & ->).
    apply star_chr_iff in H6 as [Htrail ->].
    apply cat_iff in H as (s8 & s9 & c7 & -> & H7 & H).
    apply eol_iff in H7 as (-> & Hrest & ->). apply eps_iff in H as [-> ->].
    exists time, sp, date, trail. cbn [app] in *.
    rewrite !app_nil_r. done.
  - intros (time & sp & date & trail & -> & Htime & Hsp & Hdate & Htrail
            & Hrest & ->).
    apply cat_iff. eexists time, _, _. split; [reflexivity|].
    split; [apply group_iff; eexists; split; [by apply time_re_iff | done]|].
    apply cat_iff. eexists [44], _, _. split; [reflexivity|].
    split; [apply chr_iff; by exists 44|].
    apply cat_iff. eexists sp, _, _. split; [reflexivity|].
    split; [by apply star_chr_iff|].
    apply cat_iff. eexists date, _, _. split; [reflexivity|].
    split; [apply group_iff; eexists; split; [by apply date_re_iff | done]|].
    apply cat_iff. eexists trail, [], _. split; [by rewrite app_nil_r|].
    split; [apply group_iff; eexists; split; [by apply star_chr_iff | done]|].
    apply cat_iff. eexists [], [], _. split; [done|].
    split; [by apply eol_iff | by apply eps_iff].
Qed.

(** A match of the whole pattern, read as a decomposition of the
    subject. *)
Lemma headline_pattern_iff w s rest c c' :
  matches w headline_pattern s rest c c'
  <-> exists main time sp date trail,
        s = main ++ time ++ [44] ++ sp ++ date ++ trail
        /\ length (s ++ rest) = length w
        /\ all_of (fun a => negb (a =? 10)) main
        /\ is_time time
        /\ all_of is_space sp
        /\ is_date date
        /\ all_of (fun a => negb (a =? 10)) trail
        /\ (rest = [] \/ rest = [10])
        /\ c' = <[4%nat := trail]> (<[3%nat := date]>
                  (<[2%nat := time]> (<[1%nat := main]> c))).
Proof.
  unfold headline_pattern. cbn [seq foldr]. fold (seq headline_tail).
  unfold dot. split.
  - intros H.
    apply cat_iff in H as (s0 & s1 & c0 & -> & H0 & H).
    apply bol_iff in H0 as (-> & Hlen & ->).
    apply cat_iff in H as (main & s2 & c1 & -> & H1 & H).
    apply group_iff in H1 as (c1' & H1 & ->).
    apply star_chr_iff in H1 as [Hmain ->].
    apply headline_tail_iff in H
      as (time & sp & date & trail & -> & Htime & Hsp & Hdate & Htrail
          & Hrest & ->).
    exists main, time, sp, date, trail. cbn [app] in *. done.
  - intros (main & time & sp & date & trail & -> & Hlen & Hmain & Htime & Hsp
            & Hdate & Htrail & Hrest & ->).
    apply cat_iff. eexists [], _, c. split; [reflexivity|].
    split; [by apply bol_iff|].
    apply cat_iff. eexists main, _, _. split; [reflexivity|].
    split; [apply group_iff; eexists; split; [by apply star_chr_iff | done]|].
    apply headline_tail_iff. exists time, sp, date, trail. done.
Qed.

(** When [re.match] succeeds the subject has the shape of a headline and
    the groups are its parts. *)
Lemma re_match_headline_Some (s : pystr) (m : captures) :
  re_match headline_pattern s = Some m ->
  exists main time date trail,
    headline_shape s main time date trail
    /\ group m 1 = main /\ group m 2 = time
    /\ group m 3 = date /\ group m 4 = trail.
Proof.
  unfold re_match. intros H.
  apply run_sound in H as (s1 & rest & c1 & -> & Hm & [= <-]).
  apply headline_pattern_iff in Hm
    as (main & time & sp & date & trail & -> & _ & Hmain & Htime & Hsp
        & Hdate & Htrail & Hrest & ->).
  exists main, time, date, trail. split.
  - exists sp, rest. rewrite <- !app_assoc. done.
  - unfold group. by simplify_map_eq.
Qed.

(** When [re.match] fails the subject does not have that shape. *)
Lemma re_match_headline_None (s : pystr) :
  re_match headline_pattern s = None ->
  forall main time date trail, ~ headline_shape s main time date trail.
Proof.
  unfold re_match. intros H main time date trail
    (sp & nl & -> & Hmain & Htime & Hsp & Hdate & Htrail & Hnl).
  revert H.
  replace (main ++ time ++ [44] ++ sp ++ date ++ trail ++ nl)
    with ((main ++ time ++ [44] ++ sp ++ date ++ trail) ++ nl)
    by (by rewrite <- !app_assoc).
  eapply run_complete with (c := ∅); [|done].
  apply headline_pattern_iff.
  exists main, time, sp, date, trail.
  do 8 (split; [done|]). reflexivity.
Qed.

(** Among all the ways to read the subject as a headline, [re.match]
    takes one with the shortest leading text: the first group is
    lazy. *)
Lemma re_match_headline_first (s : pystr) (m : captures) :
  re_match headline_pattern s = Some m ->
  forall main time date trail,
    headline_shape s main time date trail ->
    (length (group m 1) <= length main)%nat.
Proof.
  unfold re_match, headline_pattern. cbn [seq foldr]. fold (seq headline_tail).
  cbn [run]. rewrite Nat.eqb_refl. intros Hrun.
  apply lazy_star_chr_first in Hrun as (n & Hn & _ & Hlen & Hmin).
  assert (group m 1 = take n s) as Hg.
  { apply run_sound in Hn as (s1 & rest & c1 & Hs & Hm & [= <-]).
    apply headline_tail_iff in Hm
      as (time & sp & date & trail & _ & _ & _ & _ & _ & _ & ->).
    unfold group. simplify_map_eq. rewrite length_drop.
    by replace (length s - (length s - n))%nat with n by lia. }
  intros main time date trail (sp & nl & Hs & _ & Htime & Hsp & Hdate & Htrail & Hnl).
  rewrite Hg, length_take. destruct (Nat.le_gt_cases n (length main)) as [|Hlt]; [lia|].
  exfalso. specialize (Hmin _ Hlt). revert Hmin.
  assert (drop (length main) s = (time ++ [44] ++ sp ++ date ++ trail) ++ nl) as ->.
  { rewrite Hs, drop_app_length. by rewrite <- !app_assoc. }
  eapply run_complete with (c := ∅); [|done].
  apply headline_tail_iff. exists time, sp, date, trail.
  do 6 (split; [done|]). reflexivity.
Qed.

(** *** The match is unique *)

Lemma space_not_digit (c : char) : is_space c = true -> is_digit c = false.
Proof.
  intros H.
  pose (spaces := [9; 10; 11; 12; 13; 28; 29; 30; 31; 32; 133; 160; 5760;
                   8192; 8193; 8194; 8195; 8196; 8197; 8198; 8199; 8200;
                   8201; 8202; 8232; 8233; 8239; 8287; 12288]).
  assert (In c spaces) as Hin.
  { revert H. unfold is_space, spaces.
    rewrite !orb_true_iff, !andb_true_iff, !Z.leb_le, !Z.eqb_eq.
    cbn [In]. lia. }
  assert (forallb (fun a => negb (is_digit a)) spaces = true) as Hall
    by (vm_compute; reflexivity).
  rewrite forallb_forall in Hall. apply negb_true_iff. exact (Hall c Hin).
Qed.

(** A run of characters of one class that is followed by a character
    outside the class can be read off a string in one way only. *)
Lemma span_unique (p : char -> bool) (a a' r r' : pystr) (x x' : char) :
  all_of p a -> all_of p a' -> p x = false -> p x' = false ->
  a ++ x :: r = a' ++ x' :: r' -> a = a' /\ x :: r = x' :: r'.
Proof.
  intros Ha. revert a'. induction Ha as [|y a Hy Ha IH];
    intros a' Ha' Hx Hx' Heq; destruct Ha' as [|y' a' Hy' Ha']; cbn in Heq.
  - done.
  - injection Heq as -> _. congruence.
  - injection Heq as -> _. congruence.
  - injection Heq as -> Heq. destruct (IH a' Ha' Hx Hx' Heq) as [-> ?]. done.
Qed.

Lemma is_date_unique (d d' r r' : pystr) :
  is_date d -> is_date d' -> d ++ r = d' ++ r' -> d = d'.
Proof.
  intros (dd & sp1 & word & sp2 & yyyy & -> & Hld & Hdd & Hn1 & Hs1 & Hnw & Hsw
          & Hn2 & Hs2 & Hly & Hay)
         (dd' & sp1' & word' & sp2' & yyyy' & -> & Hld' & Hdd' & Hn1' & Hs1' & Hnw'
          & Hsw' & Hn2' & Hs2' & Hly' & Hay') Heq.
  rewrite <- !app_assoc in Heq.
  destruct Hs1 as [|x1 sp1 Hx1 Hs1]; [done|].
  destruct Hs1' as [|x1' sp1' Hx1' Hs1']; [done|].
  cbn [app] in Heq.
  apply (span_unique is_digit) in Heq as [-> Heq];
    [|done|done|by apply space_not_digit|by apply space_not_digit].
  change (x1 :: ?t) with ([x1] ++ t) in Heq.
  destruct Hsw as [|w1 word Hw1 Hsw]; [done|].
  destruct Hsw' as [|w1' word' Hw1' Hsw']; [done|].
  assert (all_of is_space (x1 :: sp1)) as Hsp by (by constructor).
  assert (all_of is_space (x1' :: sp1')) as Hsp' by (by constructor).
  cbn [app] in Heq.
  change (x1 :: sp1 ++ ?t) with ((x1 :: sp1) ++ t) in Heq.
  change (x1' :: sp1' ++ ?t) with ((x1' :: sp1') ++ t) in Heq.
  cbn [app] in Heq.
  apply (span_unique is_space (x1 :: sp1) (x1' :: sp1')) in Heq as [Hsp1 Heq];
    [|done|done|by apply negb_true_iff|by apply negb_true_iff].
  rewrite Hsp1.
  destruct Hs2 as [|x2 sp2 Hx2 Hs2]; [done|].
  destruct Hs2' as [|x2' sp2' Hx2' Hs2']; [done|].
  assert (all_of (fun a => negb (is_space a)) (w1 :: word)) as Hw by (by constructor).
  assert (all_of (fun a => negb (is_space a)) (w1' :: word')) as Hw'
    by (by constructor).
  change (w1 :: word ++ ?t) with ((w1 :: word) ++ t) in Heq.
  change (w1' :: word' ++ ?t) with ((w1' :: word') ++ t) in Heq.
  cbn [app] in Heq.
  apply (span_unique (fun a => negb (is_space a)) (w1 :: word) (w1' :: word'))
    in Heq as [Hword Heq];
    [|done|done|by rewrite Hx2|by rewrite Hx2'].
  rewrite Hword.
  destruct yyyy as [|y1 yyyy]; [done|]. destruct yyyy' as [|y1' yyyy']; [done|].
  assert (all_of is_space (x2 :: sp2)) as Hsq by (by constructor).
  assert (all_of is_space (x2' :: sp2')) as Hsq' by (by constructor).
  change (x2 :: sp2 ++ ?t) with ((x2 :: sp2) ++ t) in Heq.
  change (x2' :: sp2' ++ ?t) with ((x2' :: sp2') ++ t) in Heq.
  cbn [app] in Heq.
  assert (forall y, is_digit y = true -> is_space y = false) as Hds.
  { intros y Hy. destruct (is_space y) eqn:E; [|done].
    apply space_not_digit in E. congruence. }
  inversion Hay as [|? ? Hy1 _]; inversion Hay' as [|? ? Hy1' _]; subst.
  apply (span_unique is_space (x2 :: sp2) (x2' :: sp2')) in Heq as [Hsp2 Heq];
    [|done|done|by apply Hds|by apply Hds].
  rewrite Hsp2.
  change (y1 :: yyyy ++ r) with ((y1 :: yyyy) ++ r) in Heq.
  change (y1' :: yyyy' ++ r') with ((y1' :: yyyy') ++ r') in Heq.
  apply app_inj_1 in Heq as [-> _]; [done | congruence].
Qed.

(** Two readings of one subject with leading texts of the same length
    are the same reading. *)
Lemma headline_shape_unique (s main time date trail main' time' date' trail' : pystr) :
  headline_shape s main time date trail ->
  headline_shape s main' time' date' trail' ->
  length main = length main' ->
  main = main' /\ time = time' /\ date = date'.
Proof.
  intros (sp & nl & -> & _ & Htime & Hsp & Hdate & _ & _)
         (sp' & nl' & Heq & _ & Htime' & Hsp' & Hdate' & _ & _) Hlen.
  apply app_inj_1 in Heq as [-> Heq]; [|done]. split; [done|].
  assert (length time = 5%nat) as Ht.
  { destruct Htime as (a & b & c & d & -> & _). done. }
  assert (length time' = 5%nat) as Ht'.
  { destruct Htime' as (a & b & c & d & -> & _). done. }
  apply app_inj_1 in Heq as [-> Heq]; [|congruence]. split; [done|].
  cbn [app] in Heq. injection Heq as Heq.
  assert (forall d : pystr, is_date d ->
            exists y d0, d = y :: d0 /\ is_space y = false) as Hfirst.
  { intros d (dd & sp1 & word & sp2 & yyyy & -> & Hld & Hdd & _).
    destruct Hdd as [|y dd Hy Hdd]; [cbn in Hld; lia|].
    exists y, (dd ++ sp1 ++ word ++ sp2 ++ yyyy). split; [done|].
    destruct (is_space y) eqn:E; [|done].
    apply space_not_digit in E. congruence. }
  destruct (Hfirst _ Hdate) as (y & d0 & Hd & Hy).
  destruct (Hfirst _ Hdate') as (y' & d0' & Hd' & Hy').
  rewrite Hd, Hd' in Heq. cbn [app] in Heq.
  apply (span_unique is_space) in Heq as [_ Heq]; [|done|done|done|done].
  change (y :: d0 ++ ?t) with ((y :: d0) ++ t) in Heq.
  change (y' :: d0' ++ ?t) with ((y' :: d0') ++ t) in Heq.
  rewrite <- Hd, <- Hd' in Heq. by eapply is_date_unique.
Qed.

(** [format_news_headline] on a subject that reads as a headline: the
    result is built from the reading with the shortest leading text. *)
Lemma format_news_headline_shortest (s main time date trail : pystr) :
  headline_shape s main time date trail ->
  (forall main' time' date' trail',
      headline_shape s main' time' date' trail' ->
      (length main <= length main')%nat) ->
  format_news_headline s = strip main ++ u8 ", " ++ time ++ u8 ", " ++ date.
Proof.
  intros Hshape Hmin. unfold format_news_headline.
  destruct (re_match headline_pattern s) as [m|] eqn:Hm.
  - pose proof (re_match_headline_first s m Hm _ _ _ _ Hshape) as Hle.
    apply re_match_headline_Some in Hm
      as (main0 & time0 & date0 & trail0 & Hshape0 & H1 & H2 & H3 & _).
    rewrite H1 in Hle. specialize (Hmin _ _ _ _ Hshape0).
    destruct (headline_shape_unique _ _ _ _ _ _ _ _ _ Hshape0 Hshape)
      as (E1 & E2 & E3); [lia|].
    cbv zeta. by rewrite H1, H2, H3, E1, E2, E3.
  - exfalso. exact (re_match_headline_None s Hm _ _ _ _ Hshape).
Qed.

(** C8: the input either reads as leading text, time, comma, date and
    trailing text, and the result is the stripped leading text, the
    time and the date joined by [", "], without the trailing text, for
    the reading with the shortest leading text; or it has no such
    reading and is returned unchanged.  The example of the specification
    is formatted as stated. *)
Theorem format_news_headline_spec :
  (forall s : pystr,
      (exists main time date trail,
          headline_shape s main time date trail
          /\ (forall main' time' date' trail',
                 headline_shape s main' time' date' trail' ->
                 (length main <= length main')%nat)
          /\ format_news_headline s
             = strip main ++ u8 ", " ++ time ++ u8 ", " ++ date)
      \/ ((forall main time date trail, ~ headline_shape s main time date trail)
          /\ format_news_headline s = s))
  /\ format_news_headline (u8 "Важная новость16:45, 3 марта 2025доп.текст")
     = u8 "Важная новость, 16:45, 3 марта 2025".
Proof.
  split; [|vm_compute; reflexivity].
  intros s. unfold format_news_headline.
  destruct (re_match headline_pattern s) as [m|] eqn:Hm.
  - left. pose proof (re_match_headline_first s m Hm) as Hfirst.
    apply re_match_headline_Some in Hm
      as (main & time & date & trail & Hshape & H1 & H2 & H3 & _).
    rewrite H1, H2, H3. rewrite H1 in Hfirst.
    exists main, time, date, trail.
    split; [exact Hshape|]. split; [exact Hfirst | reflexivity].
  - right. split; [by apply re_match_headline_None | done].
Qed.
End HeadlineFormat.

(** ** The monad *)

Ltac unfold_M :=
  unfold mbind, M_bind, mret, M_ret, attempt, raise, log_error, emit,
    http_get, call_classifier, store_batch in *.

Lemma bind_returned {A B : Type} (m : M A) (f : A -> M B) (st st' : state) (a : A) :
  m st = (Returned a, st') -> (m ≫= f) st = f a st'.
Proof. intros H. unfold mbind, M_bind. by rewrite H. Qed.

Lemma bind_raised {A B : Type} (m : M A) (f : A -> M B) (st st' : state) (e : pystr) :
  m st = (Raised e, st') -> (m ≫= f) st = (Raised e, st').
Proof. intros H. unfold mbind, M_bind. by rewrite H. Qed.

Lemma emit_returns (ev : event) (st : state) :
  emit ev st = (Returned tt, State (trace st ++ [ev]) (user_context st)).
Proof. reflexivity. Qed.

Section Crawl.
Context `{W : World}.

Lemma get_news_for_day_returns (d : Z) (st : state) :
  exists l st', get_news_for_day d st = (Returned l, st').
Proof.
  unfold get_news_for_day. unfold_M. cbn.
  destruct (requests_get (trace st) (day_url d)); eauto.
Qed.

Lemma get_first_sentence_returns (u : pystr) (st : state) :
  exists t st', get_first_sentence u st = (Returned t, st').
Proof.
  unfold get_first_sentence. unfold_M. cbn.
  destruct (requests_get (trace st) u); eauto.
Qed.


(** C10: with the start after the end, the loop body never runs: the
    result is the empty dictionary and the state, hence the trace of
    requests, is unchanged. *)
Theorem reversed_range_is_empty (d1 d2 : Z) (st : state) :
  d2 < d1 ->
  get_news_for_date_range d1 d2 st = (Returned [], st).
Proof.
  intros H. unfold get_news_for_date_range.
  destruct (Z.to_nat (d2 - d1 + 1)); cbn;
    (destruct (Z.leb_spec d1 d2); [lia | reflexivity]).
Qed.
End Crawl.


Lemma reversed_range_is_empty_witness :
  739313 < 739314
  /\ @get_news_for_date_range offline_world 739314 739313 initial_state
     = (Returned [], initial_state).
Proof.
  split; [lia|].
  apply (@reversed_range_is_empty offline_world 739314 739313 initial_state). lia.
Defined.


(** ** Insertion-ordered dictionaries *)

Section OrderedDictFacts.
Context {K V : Type} `{EqDecision K}.
Implicit Types (k : K) (v : V) (d : list (K * V)).

Lemma od_get_set_eq k v d : od_get k (od_set k v d) = Some v.
Proof.
  induction d as [|[k' v'] d IH]; cbn.
  - by rewrite decide_True.
  - destruct (decide (k = k')) as [->|Hne]; cbn.
    + by rewrite decide_True.
    + by rewrite decide_False.
Qed.

Lemma od_get_set_ne k k' v d : k <> k' -> od_get k' (od_set k v d) = od_get k' d.
Proof.
  intros Hne. induction d as [|[k0 v0] d IH]; cbn.
  - rewrite decide_False; [done | congruence].
  - destruct (decide (k = k0)) as [->|Hk]; cbn.
    + rewrite !decide_False; [done | congruence | congruence].
    + by rewrite IH.
Qed.

Lemma od_keys_set_old k v d : k ∈ od_keys d -> od_keys (od_set k v d) = od_keys d.
Proof.
  unfold od_keys. induction d as [|[k' v'] d IH]; cbn; intros Hin.
  - by apply elem_of_nil in Hin.
  - destruct (decide (k = k')) as [->|Hne]; cbn; [done|].
    f_equal. apply IH. apply elem_of_cons in Hin as [?|?]; [congruence | done].
Qed.

Lemma od_keys_set_new k v d : k ∉ od_keys d -> od_keys (od_set k v d) = od_keys d ++ [k].
Proof.
  unfold od_keys. induction d as [|[k' v'] d IH]; cbn; intros Hin; [done|].
  apply not_elem_of_cons in Hin as [Hne Hin].
  rewrite decide_False by done. cbn. f_equal. by apply IH.
Qed.

Lemma od_keys_set_elem k k' v d :
  k' ∈ od_keys (od_set k v d) <-> k' = k \/ k' ∈ od_keys d.
Proof.
  destruct (decide (k ∈ od_keys d)) as [Hin|Hin].
  - rewrite od_keys_set_old by done. split; [tauto | by intros [->|?]].
  - rewrite od_keys_set_new by done. rewrite elem_of_app, list_elem_of_singleton.
    tauto.
Qed.

Lemma od_keys_set_NoDup k v d : NoDup (od_keys d) -> NoDup (od_keys (od_set k v d)).
Proof.
  intros Hnd. destruct (decide (k ∈ od_keys d)) as [Hin|Hin].
  - by rewrite od_keys_set_old.
  - rewrite od_keys_set_new by done. apply NoDup_app. split; [done|].
    split; [|apply NoDup_singleton].
    intros x Hx Hx'. apply list_elem_of_singleton in Hx'. by subst.
Qed.

Lemma od_set_elem k v k' v' d :
  (k', v') ∈ od_set k v d -> (k' = k /\ v' = v) \/ (k', v') ∈ d.
Proof.
  induction d as [|[k0 v0] d IH]; cbn.
  - intros Hin. apply list_elem_of_singleton in Hin. left. by inversion Hin.
  - destruct (decide (k = k0)) as [->|Hne]; intros Hin;
      apply elem_of_cons in Hin as [Heq|Hin].
    + left. by inversion Heq.
    + right. by right.
    + right. rewrite Heq. by left.
    + destruct (IH Hin) as [?|?]; [by left | right; by right].
Qed.

Lemma od_get_elem k v d : NoDup (od_keys d) -> (k, v) ∈ d -> od_get k d = Some v.
Proof.
  unfold od_keys. induction d as [|[k0 v0] d IH]; cbn; intros Hnd Hin.
  - by apply elem_of_nil in Hin.
  - apply NoDup_cons in Hnd as [Hk0 Hnd].
    apply elem_of_cons in Hin as [Heq|Hin].
    + inversion Heq; subst. by rewrite decide_True.
    + rewrite decide_False; [by apply IH|].
      intros ->. apply Hk0. apply list_elem_of_fmap. by exists (k0, v).
Qed.
End OrderedDictFacts.

(** ** Deduplication by URL *)

Section Dedup.
Implicit Types (items : list news) (d : list (pystr * news)).

Lemma url_index_snoc items item d :
  url_index (items ++ [item]) d = od_set (url item) item (url_index items d).
Proof. unfold url_index. by rewrite foldl_app. Qed.

Lemma url_index_NoDup items : NoDup (od_keys (url_index items [])).
Proof.
  induction items as [|item items IH] using rev_ind.
  - apply NoDup_nil_2.
  - rewrite url_index_snoc. by apply od_keys_set_NoDup.
Qed.

Lemma url_index_keys items u :
  u ∈ od_keys (url_index items []) <-> u ∈ url <$> items.
Proof.
  induction items as [|item items IH] using rev_ind.
  - done.
  - rewrite url_index_snoc, od_keys_set_elem, IH, fmap_app, elem_of_app.
    cbn. rewrite list_elem_of_singleton. tauto.
Qed.

Lemma url_index_key_is_url items k v :
  (k, v) ∈ url_index items [] -> url v = k.
Proof.
  induction items as [|item items IH] using rev_ind.
  - intros Hin. by apply elem_of_nil in Hin.
  - rewrite url_index_snoc. intros Hin.
    apply od_set_elem in Hin as [[-> ->]|Hin]; [done | by apply IH].
Qed.

Lemma url_index_get items u :
  od_get u (url_index items []) = last (filter (fun c => url c = u) items).
Proof.
  induction items as [|item items IH] using rev_ind.
  - done.
  - rewrite url_index_snoc, filter_app.
    destruct (decide (url item = u)) as [<-|Hne].
    + rewrite od_get_set_eq. rewrite filter_cons_True by done.
      cbn. by rewrite last_snoc.
    + rewrite od_get_set_ne by done. rewrite IH.
      rewrite filter_cons_False by done. cbn. by rewrite app_nil_r.
Qed.

Lemma unique_news_urls items :
  url <$> unique_news items = od_keys (url_index items []).
Proof.
  unfold unique_news, od_values, od_keys.
  rewrite <- list_fmap_compose. apply list_fmap_ext.
  intros i [k v] Hin. cbn. apply list_elem_of_lookup_2 in Hin.
  by apply url_index_key_is_url in Hin.
Qed.

(** The deduplication step on its own. *)
Lemma unique_news_spec items :
  NoDup (url <$> unique_news items)
  /\ (forall u, u ∈ url <$> unique_news items <-> u ∈ url <$> items)
  /\ (forall item, item ∈ unique_news items ->
        last (filter (fun c => url c = url item) items) = Some item).
Proof.
  rewrite unique_news_urls. split; [apply url_index_NoDup|].
  split; [apply url_index_keys|].
  intros item Hin. rewrite <- url_index_get.
  unfold unique_news, od_values in Hin.
  apply list_elem_of_fmap in Hin as [[k v] [-> Hin]]. cbn.
  pose proof (url_index_key_is_url _ _ _ Hin) as ->.
  apply od_get_elem; [apply url_index_NoDup | done].
Qed.
End Dedup.

Section CrawlDedup.
Context `{W : World}.

(** C1: [get_news_for_day] returns a list in which every URL of a
    candidate occurs exactly once, and the item returned for a URL is
    the last candidate with that URL. *)
Theorem crawl_dedup_last_wins (d : Z) (st : state) :
  exists out st',
    get_news_for_day d st = (Returned out, st')
    /\ NoDup (url <$> out)
    /\ (forall u, u ∈ url <$> out <-> u ∈ url <$> candidates_of_day d st)
    /\ (forall item, item ∈ out ->
          last (filter (fun c => url c = url item) (candidates_of_day d st))
          = Some item).
Proof.
  unfold get_news_for_day, candidates_of_day. unfold_M. cbn.
  destruct (requests_get (trace st) (day_url d)) as [html|e]; cbn.
  - eexists _, _. split; [reflexivity|]. apply unique_news_spec.
  - eexists _, _. split; [reflexivity|]. apply (unique_news_spec []).
Qed.

(** Two links to one address, the first with a text of two characters:
    only the second becomes an item. *)
Example short_text_then_headline :
  unique_news
    (collect_news [ (u8 "ab", u8 "/news/x");
                    (u8 "Заголовок новости", u8 "https://lenta.ru/news/x") ])
  = [ News (u8 "Заголовок новости") (u8 "https://lenta.ru/news/x") None None None ].
Proof. vm_compute. reflexivity. Qed.

(** Two links to one address with two headlines: the item has the
    second headline, at the place of the first. *)
Example same_url_twice :
  unique_news
    (collect_news [ (u8 "Первый заголовок", u8 "/news/x");
                    (u8 "Другая новость дня", u8 "/news/y");
                    (u8 "Второй заголовок", u8 "news/x") ])
  = [ News (u8 "Второй заголовок") (u8 "https://lenta.ru/news/x") None None None;
      News (u8 "Другая новость дня") (u8 "https://lenta.ru/news/y") None None None ].
Proof. vm_compute. reflexivity. Qed.
End CrawlDedup.


(** ** The date range *)

Section DateRange.
Context `{W : World}.

Lemma date_add_day_ok (d : Z) (st : state) :
  d < MAXORDINAL -> date_add_day d st = (Returned (d + 1), st).
Proof.
  intros H. unfold date_add_day.
  destruct (Z.leb_spec (d + 1) MAXORDINAL); [done | lia].
Qed.

Lemma date_add_day_overflow (st : state) :
  date_add_day MAXORDINAL st = (Raised (u8 "date value out of range"), st).
Proof. reflexivity. Qed.

(** Fuel beyond the number of days left does not change the result. *)
Lemma range_loop_fuel (fuel1 : nat) :
  forall (fuel2 : nat) (current end_date : Z) (acc : list (Z * list news))
         (st : state),
    (Z.to_nat (end_date - current + 1) <= fuel1)%nat ->
    (Z.to_nat (end_date - current + 1) <= fuel2)%nat ->
    range_loop fuel1 current end_date acc st
    = range_loop fuel2 current end_date acc st.
Proof.
  induction fuel1 as [|fuel1 IH]; intros [|fuel2] current end_date acc st H1 H2;
    cbn [range_loop]; destruct (Z.leb_spec current end_date) as [Hc|Hc];
    try reflexivity; try lia.
  destruct (get_news_for_day_returns current st) as (l & st1 & Hday).
  rewrite !(bind_returned _ _ _ _ _ Hday).
  unfold date_add_day. destruct (Z.leb_spec (current + 1) MAXORDINAL) as [Hm|Hm].
  - rewrite !(bind_returned _ _ st1 st1 (current + 1)) by reflexivity.
    apply IH; lia.
  - rewrite !(bind_raised _ _ st1 st1 (u8 "date value out of range"))
      by reflexivity.
    reflexivity.
Qed.

(** With at least as much fuel as there are days left, and the last day
    before [MAXORDINAL], the loop returns, and it has added the days
    from [current] to [end_date], in order, to the keys it started
    with. *)
Lemma range_loop_keys (fuel : nat) :
  forall (current end_date : Z) (acc : list (Z * list news)) (st : state),
    current <= end_date + 1 ->
    end_date < MAXORDINAL ->
    (Z.to_nat (end_date - current + 1) <= fuel)%nat ->
    (forall k, k ∈ od_keys acc -> k < current) ->
    crawled acc ->
    exists m st',
      range_loop fuel current end_date acc st = (Returned m, st')
      /\ od_keys m = od_keys acc ++ seqZ current (end_date - current + 1)
      /\ crawled m.
Proof.
  induction fuel as [|fuel IH];
    intros current end_date acc st Hle Hmax Hfuel Hacc Hcr.
  - assert (current = end_date + 1) as -> by lia.
    cbn. destruct (Z.leb_spec (end_date + 1) end_date); [lia|].
    eexists _, _. split; [reflexivity|]. split; [|done].
    replace (end_date - (end_date + 1) + 1) with 0 by lia.
    by rewrite app_nil_r.
  - cbn [range_loop]. destruct (Z.leb_spec current end_date) as [Hc|Hc].
    + destruct (get_news_for_day_returns current st) as (l & st1 & Hday).
      rewrite (bind_returned _ _ _ _ _ Hday).
      rewrite (bind_returned _ _ _ _ _ (date_add_day_ok current st1 ltac:(lia))).
      destruct (IH (current + 1) end_date (od_set current l acc) st1)
        as (m & st' & Hrun & Hkeys & Hcr'); [lia | lia | lia | | |].
      { intros k Hk. apply od_keys_set_elem in Hk as [->|Hk]; [lia|].
        specialize (Hacc k Hk). lia. }
      { intros d l' Hin. apply od_set_elem in Hin as [[-> ->]|Hin]; [eauto|].
        by apply Hcr. }
      exists m, st'. split; [done|]. split; [|done]. rewrite Hkeys.
      rewrite od_keys_set_new.
      * rewrite <- app_assoc. f_equal. cbn [app].
        rewrite (seqZ_cons current (end_date - current + 1)) by lia.
        f_equal. f_equal; lia.
      * intros Hin. specialize (Hacc _ Hin). lia.
    + assert (current = end_date + 1) as -> by lia.
      eexists _, _. split; [reflexivity|]. split; [|done].
      replace (end_date - (end_date + 1) + 1) with 0 by lia.
      by rewrite app_nil_r.
Qed.

(** For a range that ends before 9999-12-31 the keys of the result are
    the days from [d1] to [d2], each once, in order, and each value is
    the crawl of its day, empty or not. *)
Lemma date_range_keys (d1 d2 : Z) (st : state) :
  d1 <= d2 -> d2 < MAXORDINAL ->
  exists m st',
    get_news_for_date_range d1 d2 st = (Returned m, st')
    /\ od_keys m = seqZ d1 (d2 - d1 + 1)
    /\ NoDup (od_keys m)
    /\ (forall d, d ∈ od_keys m <-> d1 <= d <= d2)
    /\ crawled m.
Proof.
  intros H12 Hmax. unfold get_news_for_date_range.
  destruct (range_loop_keys (Z.to_nat (d2 - d1 + 1)) d1 d2 [] st)
    as (m & st' & Hrun & Hkeys & Hcr); [lia | lia | lia | | |].
  { intros k Hk. by apply elem_of_nil in Hk. }
  { intros d l Hin. by apply elem_of_nil in Hin. }
  exists m, st'. cbn in Hkeys. rewrite Hkeys.
  split; [done|]. split; [done|]. split; [apply NoDup_seqZ|].
  split; [|done]. intros d. rewrite elem_of_seqZ. lia.
Qed.

(** A range that ends on 9999-12-31 raises, whatever its first day. *)
Lemma range_loop_overflows (fuel : nat) :
  forall (current : Z) (acc : list (Z * list news)) (st : state),
    current <= MAXORDINAL ->
    (Z.to_nat (MAXORDINAL - current + 1) <= fuel)%nat ->
    exists st',
      range_loop fuel current MAXORDINAL acc st
      = (Raised (u8 "date value out of range"), st').
Proof.
  induction fuel as [|fuel IH]; intros current acc st Hc Hfuel; [lia|].
  cbn [range_loop]. destruct (Z.leb_spec current MAXORDINAL) as [_|Hlt]; [|lia].
  destruct (get_news_for_day_returns current st) as (l & st1 & Hday).
  rewrite (bind_returned _ _ _ _ _ Hday).
  destruct (decide (current = MAXORDINAL)) as [->|Hne].
  - rewrite (bind_raised _ _ _ _ _ (date_add_day_overflow st1)). by exists st1.
  - rewrite (bind_returned _ _ _ _ _ (date_add_day_ok current st1 ltac:(lia))).
    apply IH; lia.
Qed.

Lemma date_range_raises_up_to_max (d1 : Z) (st : state) :
  d1 <= MAXORDINAL ->
  exists st',
    get_news_for_date_range d1 MAXORDINAL st
    = (Raised (u8 "date value out of range"), st').
Proof.
  intros H. unfold get_news_for_date_range. by apply range_loop_overflows.
Qed.

(** C5, at the last representable day: the day is crawled, then
    stepping to the next day raises [OverflowError], so no dictionary is
    returned for the range from 9999-12-31 to 9999-12-31. *)
Theorem date_range_raises_at_max (st : state) :
  exists st',
    get_news_for_date_range MAXORDINAL MAXORDINAL st
    = (Raised (u8 "date value out of range"), st')
    /\ EvGet (day_url MAXORDINAL) ∈ trace st'.
Proof.
  unfold get_news_for_date_range.
  replace (Z.to_nat (MAXORDINAL - MAXORDINAL + 1)) with 1%nat by (vm_compute; done).
  cbn [range_loop].
  destruct (Z.leb_spec MAXORDINAL MAXORDINAL) as [_|Hlt]; [|lia].
  pose proof (get_news_for_day_returns MAXORDINAL st) as (l & st1 & Hday).
  assert (EvGet (day_url MAXORDINAL) ∈ trace st1) as Hin.
  { revert Hday. unfold get_news_for_day. unfold_M. cbn.
    destruct (requests_get (trace st) (day_url MAXORDINAL)); cbn;
      intros [= _ <-]; cbn; set_solver. }
  rewrite (bind_returned _ _ _ _ _ Hday).
  rewrite (bind_raised _ _ _ _ _ (date_add_day_overflow st1)).
  by exists st1.
Qed.
End DateRange.


(** ** Progress percentage and progress bar *)

Section ProgressBar.

(** For every whole percentage from 0 to 100 the bar has [percent / 10]
    filled segments, then the empty ones up to ten, then the number. *)
Lemma format_progress_bar (percent : Z) :
  0 <= percent <= 100 -> format_progress percent = bar_as_specified percent.
Proof.
  intros H.
  assert (forallb (fun p => str_eqb (format_progress p) (bar_as_specified p))
            (seqZ 0 101) = true) as Hall by (vm_compute; reflexivity).
  rewrite forallb_forall in Hall.
  specialize (Hall percent). unfold str_eqb in Hall.
  apply (proj1 (bool_decide_eq_true _)), Hall, list_elem_of_In, elem_of_seqZ. lia.
Qed.

Lemma format_progress_segments (percent : Z) :
  0 <= percent <= 100 ->
  exists filled empty : nat,
    format_progress percent
    = replicate filled 128309 ++ replicate empty 9898
        ++ u8 " " ++ str_of_int percent ++ u8 "%"
    /\ Z.of_nat filled = percent / 10 /\ (filled + empty = 10)%nat.
Proof.
  intros H. rewrite format_progress_bar by done.
  exists (Z.to_nat (percent / 10)), (Z.to_nat (10 - percent / 10)).
  split; [done|].
  assert (0 <= percent / 10 <= 10).
  { split; [apply Z.div_pos; lia | apply Z.div_le_upper_bound; lia]. }
  lia.
Qed.

Lemma progress_percent_no_total (p : progress) :
  total p = 0 -> progress_percent p = 100.
Proof. intros H. unfold progress_percent. by rewrite H. Qed.

(** Up to 100 items the computed percentage is the floor or one below
    it. *)
Lemma progress_percent_near_floor (p : progress) :
  0 <= count p <= total p -> total p <= 100 ->
  floor_percent p - 1 <= progress_percent p <= floor_percent p.
Proof.
  intros Hc Ht.
  assert (forallb (fun t =>
            forallb (fun c =>
               let q := Progress c t false in
               (floor_percent q - 1 <=? progress_percent q)
               && (progress_percent q <=? floor_percent q))
              (seqZ 0 (t + 1)))
            (seqZ 0 101) = true) as Hall by (vm_compute; reflexivity).
  rewrite forallb_forall in Hall.
  specialize (Hall (total p)). rewrite forallb_forall in Hall.
  specialize (Hall ltac:(apply list_elem_of_In, elem_of_seqZ; lia) (count p)
                ltac:(apply list_elem_of_In, elem_of_seqZ; lia)).
  cbv zeta in Hall. apply andb_true_iff in Hall as [H1 H2].
  destruct p as [c t dn]. unfold progress_percent, floor_percent in *.
  cbn [count total] in *. lia.
Qed.

(** C6, at 29 items done out of 100: the reporter computes 28, where
    the floor of 29 / 100 * 100 is 29; the float product
    [(29 / 100) * 100] falls just below 29. *)
Theorem progress_percent_29_of_100 :
  progress_percent (Progress 29 100 false) = 28
  /\ floor_percent (Progress 29 100 false) = 29.
Proof. split; vm_compute; reflexivity. Qed.
End ProgressBar.


(** ** The headline filter *)

Section HeadlineFilter.

Lemma headline_rejected_iff (h : pystr) :
  headline_rejected h = true
  <-> h = [] \/ (length h <= 10)%nat \/ lower h ∈ blacklisted_headlines.
Proof.
  unfold headline_rejected.
  rewrite !orb_true_iff, !bool_decide_eq_true, Nat.leb_le. tauto.
Qed.

(** Every entry of the blacklist but one is its own lowercase. *)
Lemma blacklist_entries_lowercase (e : pystr) :
  e ∈ blacklisted_headlines -> e <> u8 "интернет и СМИ" -> lower e = e.
Proof.
  intros Hin Hne.
  assert (forallb (fun x => str_eqb x (u8 "интернет и СМИ") || str_eqb (lower x) x)
            (elements blacklisted_headlines) = true) as Hall
    by (vm_compute; reflexivity).
  rewrite forallb_forall in Hall.
  specialize (Hall e).
  assert (In e (elements blacklisted_headlines)) as Hel.
  { apply (proj1 (list_elem_of_In (elements blacklisted_headlines) e)).
    apply (proj2 (elem_of_elements blacklisted_headlines e)). exact Hin. }
  apply Hall in Hel. unfold str_eqb in Hel.
  apply orb_true_iff in Hel as [H|H]; apply bool_decide_eq_true in H.
  - exfalso. exact (Hne H).
  - exact H.
Qed.

(** A headline that equals, letter case aside, an entry of the blacklist
    other than the entry with capital letters is rejected. *)
Lemma blacklisted_headline_rejected (h e : pystr) :
  e ∈ blacklisted_headlines -> e <> u8 "интернет и СМИ" ->
  lower h = lower e -> headline_rejected h = true.
Proof.
  intros Hin Hne Heq. apply headline_rejected_iff. right. right.
  rewrite Heq. rewrite (blacklist_entries_lowercase e Hin Hne). exact Hin.
Qed.

(** No code point has the capital letter U+0421 in its lowercase. *)
Lemma lower_char_no_capital_es (c : char) : 1057 ∉ lower_char c.
Proof.
  unfold lower_char. destruct (c =? 304) eqn:H304.
  { intros H. repeat (apply elem_of_cons in H as [H|H]; [discriminate H|]).
    by apply elem_of_nil in H. }
  destruct (List.find (in_range c) lowercase_ranges) as [[[[lo hi] off] step]|] eqn:Hf.
  - apply List.find_some in Hf as [Hin Hr].
    assert (forallb (fun r => negb (in_range (1057 - r.1.2) r)) lowercase_ranges
            = true) as Hall by (vm_compute; reflexivity).
    rewrite forallb_forall in Hall. specialize (Hall _ Hin). cbn in Hall.
    intros H. apply list_elem_of_singleton in H.
    replace (1057 - off) with c in Hall by lia.
    cbn in Hr. rewrite Hr in Hall. discriminate Hall.
  - intros H. apply list_elem_of_singleton in H. subst c.
    eapply List.find_none in Hf; [|by apply (proj1 (list_elem_of_In _ (1040, 1071, 32, 1))),
                                     (bool_decide_unpack _); vm_compute].
    vm_compute in Hf. discriminate Hf.
Qed.

(** A code point of the lowercase of a string comes from the lowercase
    of one of its code points, or is one of the two small sigmas. *)
Lemma lower_from_elem (s : pystr) :
  forall (before : pystr) (x : char),
    x ∈ lower_from before s ->
    (exists c, c ∈ s /\ x ∈ lower_char c) \/ x = 962 \/ x = 963.
Proof.
  induction s as [|c s IH]; intros before x; cbn [lower_from].
  - by intros ?%elem_of_nil.
  - intros [Hx|Hx]%elem_of_app.
    + destruct (c =? 931).
      * right. apply list_elem_of_singleton in Hx.
        destruct (final_sigma before s); [by left | by right].
      * left. exists c. split; [by left | done].
    + destruct (IH _ _ Hx) as [(c' & Hc' & Hx')|Hsigma]; [|by right].
      left. exists c'. split; [by right | done].
Qed.

(** The lowercase of a code point other than the capital sigma is part
    of the lowercase of every string it stands in. *)
Lemma lower_from_keeps (s : pystr) :
  forall (before : pystr) (c x : char),
    c ∈ s -> c <> 931 -> x ∈ lower_char c -> x ∈ lower_from before s.
Proof.
  induction s as [|c' s IH]; intros before c x Hc Hne Hx; cbn [lower_from].
  - by apply elem_of_nil in Hc.
  - apply elem_of_app. apply elem_of_cons in Hc as [<-|Hc].
    + left. destruct (Z.eqb_spec c 931); [done | exact Hx].
    + right. by apply (IH _ c).
Qed.

Lemma lower_no_capital_es (s : pystr) : 1057 ∉ lower s.
Proof.
  unfold lower. intros H.
  apply lower_from_elem in H as [(c & _ & H)|[H|H]]; [|done|done].
  by apply lower_char_no_capital_es in H.
Qed.

(** What the filter does: it rejects the empty headline, a headline of
    at most ten characters, and a headline that equals, letter case
    aside, one of the entries written in lower case. *)
Lemma headline_rejected_characterised (h : pystr) :
  headline_rejected h = true
  <-> h = [] \/ (length h <= 10)%nat
      \/ exists e, e ∈ blacklisted_headlines /\ e <> u8 "интернет и СМИ"
                   /\ lower h = lower e.
Proof.
  rewrite headline_rejected_iff. split.
  - intros [H|[H|H]]; [by left | by right; left |]. right. right.
    assert (lower h <> u8 "интернет и СМИ") as Hne.
    { intros Heq. apply (lower_no_capital_es h). rewrite Heq.
      apply (bool_decide_unpack _). vm_compute. exact I. }
    exists (lower h). split; [exact H|]. split; [exact Hne|].
    symmetry. by apply blacklist_entries_lowercase.
  - intros [H|[H|(e & Hin & Hne & Heq)]]; [by left | by right; left |].
    right. right. rewrite Heq, (blacklist_entries_lowercase e Hin Hne). exact Hin.
Qed.

(** C3, at the entry written with capital letters: the headline equal to
    that very entry is not rejected, because its lowercase is not in the
    set, and a link with that text yields a news item. *)
Theorem capitalised_entry_not_rejected :
  u8 "интернет и СМИ" ∈ blacklisted_headlines
  /\ (10 < length (u8 "интернет и СМИ"))%nat
  /\ headline_rejected (u8 "интернет и СМИ") = false
  /\ headline_rejected (u8 "интернет и сми") = false
  /\ candidate (u8 "интернет и СМИ", u8 "/news/2025/03/03/smi/")
     = Some (News (u8 "интернет и СМИ")
               (u8 "https://lenta.ru/news/2025/03/03/smi/") None None None).
Proof.
  split; [apply (bool_decide_unpack _); vm_compute; exact I|].
  split; [vm_compute; lia|].
  repeat split; vm_compute; reflexivity.
Qed.
End HeadlineFilter.


(** ** The tagging loop *)

Section Tagging.
Context `{W : World}.

Lemma get_first_sentence_trace (u : pystr) (st : state) :
  exists t st',
    get_first_sentence u st = (Returned t, st')
    /\ trace st `prefix_of` trace st'.
Proof.
  unfold get_first_sentence. unfold_M. cbn.
  destruct (requests_get (trace st) u); cbn; eexists _, _;
    (split; [reflexivity|]); cbn.
  - by apply prefix_app_r.
  - rewrite <- app_assoc. by apply prefix_app_r.
Qed.

Lemma predict_returns (text : pystr) (st : state) :
  exists st',
    predict text st
    = (Returned (label_of_outcome (classifier (trace st) text CANDIDATE_LABELS)), st')
    /\ (trace st ++ [EvClassify text]) `prefix_of` trace st'.
Proof.
  unfold predict. unfold_M. cbn.
  destruct (classifier (trace st) text CANDIDATE_LABELS) as [[|top ranked]|e];
    cbn; eexists; (split; [reflexivity|]); cbn;
    first [reflexivity | by apply prefix_app_r].
Qed.

Lemma labelled_mono (tr1 tr2 : list event) (item item' : news) :
  tr1 `prefix_of` tr2 -> labelled tr1 item item' -> labelled tr2 item item'.
Proof.
  intros Hpre (H1 & H2 & H3 & tr & text & Hcall & Hrest).
  split; [done|]. split; [done|]. split; [done|].
  exists tr, text. split; [|done]. by etrans.
Qed.

Lemma tag_news_labelled (item : news) (st : state) :
  exists item' st',
    tag_news item st = (Returned item', st')
    /\ trace st `prefix_of` trace st'
    /\ labelled (trace st') item item'.
Proof.
  unfold tag_news.
  destruct (get_first_sentence_trace (url item) st) as (t & st1 & Hfs & Hpre1).
  rewrite (bind_returned _ _ _ _ _ Hfs).
  set (text := if bool_decide (t = []) then headline item
               else headline item ++ u8 ". " ++ t).
  destruct (predict_returns text st1) as (st2 & Hp & Hpre2).
  rewrite (bind_returned _ _ _ _ _ Hp).
  eexists _, st2. split; [reflexivity|]. split.
  - etrans; [exact Hpre1|]. etrans; [|exact Hpre2]. by apply prefix_app_r.
  - repeat split; cbn. exists (trace st1), text. split; [exact Hpre2|].
    split; [|done]. unfold text. case_bool_decide; [by left | right; eauto].
Qed.

(** The loop returns for every batch; it labels every item, in order,
    and adds the number of items to [count]. *)
Lemma tagging_loop_spec (items : list news) :
  forall (p : progress) (st : state),
  exists tagged st',
    tagging_loop items p st
    = (Returned (tagged,
                 Progress (count p + Z.of_nat (length items)) (total p) (done p)),
       st')
    /\ trace st `prefix_of` trace st'
    /\ Forall2 (labelled (trace st')) items tagged.
Proof.
  induction items as [|item items IH]; intros p st.
  - exists [], st. split; [|split; [done | constructor]]. cbn. unfold_M.
    destruct p; cbn. by rewrite Z.add_0_r.
  - destruct (tag_news_labelled item st) as (item' & st1 & Htag & Hpre1 & Hlab).
    destruct (IH (Progress (count p + 1) (total p) (done p)) st1)
      as (tagged & st2 & Hloop & Hpre2 & Hall).
    exists (item' :: tagged), st2.
    split; [|split; [by etrans | constructor; [by eapply labelled_mono | done]]].
    replace (count p + Z.of_nat (length (item :: items)))
      with (count p + 1 + Z.of_nat (length items)) by (cbn [length]; lia).
    cbn [tagging_loop]. rewrite (bind_returned _ _ _ _ _ Htag).
    rewrite (bind_returned _ _ _ _ _ Hloop). reflexivity.
Qed.

Lemma labelled_has_label (final : list event) (item item' : news) :
  ranks_given_labels -> labelled final item item' ->
  exists l, predicted_emotion item' = Some l
            /\ (l ∈ CANDIDATE_LABELS \/ l = UNDETERMINED).
Proof.
  intros Hrank (_ & _ & _ & tr & text & _ & _ & _ & Hl).
  eexists. split; [exact Hl|].
  destruct (classifier tr text CANDIDATE_LABELS) as [[|top ranked]|e] eqn:Hc;
    cbn; [by right | | by right].
  left. eapply Hrank; [exact Hc | by left].
Qed.

(** A batch that went through the loop is tagged, which is what
    [tag_and_store] puts into [user_context]. *)
Lemma labelled_all_tagged (final : list event) (items tagged : list news) :
  Forall2 (labelled final) items tagged -> all_tagged tagged.
Proof.
  intros H. induction H as [|item item' items tagged Hlab _ IH]; constructor;
    [|exact IH].
  destruct Hlab as (_ & _ & _ & tr & text & _ & _ & _ & Hl). by rewrite Hl.
Qed.

(** C2: for a classifier that ranks the labels it is given, the loop
    returns a batch of the same length in which every item carries one
    label, a candidate label or [UNDETERMINED]. *)
Theorem tagging_label_invariant (items : list news) (p : progress) (st : state) :
  ranks_given_labels ->
  exists tagged p' st',
    tagging_loop items p st = (Returned (tagged, p'), st')
    /\ length tagged = length items
    /\ Forall (fun item' =>
                 exists l, predicted_emotion item' = Some l
                           /\ (l ∈ CANDIDATE_LABELS \/ l = UNDETERMINED))
              tagged.
Proof.
  intros Hrank.
  destruct (tagging_loop_spec items p st) as (tagged & st' & Hloop & _ & Hall).
  eexists tagged, _, st'. split; [exact Hloop|].
  split; [symmetry; by eapply Forall2_length|].
  clear Hloop. induction Hall as [|item item' items tagged Hlab _ IH];
    constructor; [by eapply labelled_has_label | done].
Qed.

(** C7: the loop never raises; every item, in order, gets the top label
    of its classifier call or [UNDETERMINED] when that call failed;
    [count] grows by one per item; afterwards [done] is set and the
    batch stored.  With three items and a classifier that raises on its
    second call the labels are top, [UNDETERMINED], top, and the
    progress is 3 of 3, done. *)
Theorem tagging_survives_classifier_failure :
  (forall (chat_id : Z) (item : news) (rest : list news) (st : state),
      let items := item :: rest in
      exists tagged st',
        tag_and_store chat_id items st
        = (Returned (Some (tagged,
                           Progress (Z.of_nat (length items))
                             (Z.of_nat (length items)) true)),
           st')
        /\ Forall2 (labelled (trace st')) items tagged
        /\ user_context st' !! chat_id = Some tagged)
  /\ exists tagged st',
      @tag_and_store flaky_world 1 three_items initial_state
      = (Returned (Some (tagged, Progress 3 3 true)), st')
      /\ predicted_emotion <$> tagged
         = [Some (u8 "агрессия"); Some UNDETERMINED; Some (u8 "агрессия")].
Proof.
  split.
  - intros chat_id item rest st items.
    destruct (tagging_loop_spec items
                (Progress 0 (Z.of_nat (length items)) false)
                (State (trace st ++
                          [EvSend chat_id (u8 "Оценка эмоций: " ++ format_progress 0)])
                       (user_context st)))
      as (tagged & st1 & Hloop & _ & Hall).
    exists tagged, (State (trace st1) (<[chat_id := tagged]> (user_context st1))).
    split; [|split; [done | apply lookup_insert_eq]].
    unfold tag_and_store. subst items. cbv beta iota zeta.
    rewrite (bind_returned _ _ _ _ _ (emit_returns _ st)).
    rewrite (bind_returned _ _ _ _ _ Hloop). cbn. unfold_M. cbn.
    reflexivity.
  - eexists _, _. split; vm_compute; reflexivity.
Qed.
End Tagging.

Lemma tagging_label_invariant_witness :
  @ranks_given_labels offline_world
  /\ exists tagged p' st',
      @tagging_loop offline_world three_items (Progress 0 3 false) initial_state
      = (Returned (tagged, p'), st')
      /\ length tagged = length three_items
      /\ Forall (fun item' =>
                   exists l, predicted_emotion item' = Some l
                             /\ (l ∈ CANDIDATE_LABELS \/ l = UNDETERMINED))
                tagged.
Proof.
  assert (@ranks_given_labels offline_world) as Hrank.
  { intros tr text labels ranked Hcall l Hl. cbn in Hcall.
    injection Hcall as <-. exact Hl. }
  split; [exact Hrank|].
  exact (@tagging_label_invariant offline_world three_items (Progress 0 3 false)
           initial_state Hrank).
Defined.


(** ** The result store and the category filter *)

Section Store.

Lemma after_underscore_emotion (label : pystr) :
  after_underscore (u8 "emotion_" ++ label) = Some label.
Proof. reflexivity. Qed.

Lemma after_stores_snoc (stores : list (Z * list news)) (s : Z * list news)
    (st : state) :
  after_stores (stores ++ [s]) st
  = (store_batch s.1 s.2 (after_stores stores st)).2.
Proof. unfold after_stores. by rewrite foldl_app. Qed.

(** Looking up a chat after a sequence of stores gives the batch stored
    last for that chat, or what was there before. *)
Lemma after_stores_lookup (stores : list (Z * list news)) (st : state) (chat_id : Z) :
  user_context (after_stores stores st) !! chat_id
  = match last_stored chat_id stores with
    | Some batch => Some batch
    | None => user_context st !! chat_id
    end.
Proof.
  unfold last_stored.
  induction stores as [|[id batch] stores IH] using rev_ind; [done|].
  rewrite after_stores_snoc, filter_app. cbn [store_batch fst snd user_context].
  destruct (decide (id = chat_id)) as [->|Hne].
  - rewrite lookup_insert_eq, filter_cons_True by done.
    rewrite filter_nil, last_snoc. done.
  - rewrite lookup_insert_ne, filter_cons_False by done.
    rewrite filter_nil, app_nil_r. exact IH.
Qed.

Lemma last_stored_elem (stores : list (Z * list news)) (chat_id : Z)
    (batch : list news) :
  last_stored chat_id stores = Some batch -> (chat_id, batch) ∈ stores.
Proof.
  unfold last_stored. intros H.
  destruct (last (filter (fun s => s.1 = chat_id) stores)) as [[id b]|] eqn:Hl;
    [|done].
  cbn in H. injection H as ->.
  apply last_Some_elem_of, list_elem_of_filter in Hl as [Hid Hin].
  cbn in Hid. by subst.
Qed.

Lemma emotion_matches_iff (label : pystr) (item : news) :
  emotion_matches label item = true
  <-> exists e, predicted_emotion item = Some e /\ lower e = lower label.
Proof.
  unfold emotion_matches, str_eqb.
  destruct (predicted_emotion item) as [e|].
  - rewrite bool_decide_eq_true. split; [eauto | by intros (? & [= <-] & ?)].
  - split; [done | by intros (? & ? & _)].
Qed.

Lemma filter_tagged (label : pystr) (batch : list news) :
  all_tagged batch ->
  List.filter (fun item => str_eqb (lower (emotion_of item)) (lower label)) batch
  = List.filter (emotion_matches label) batch.
Proof.
  intros Hall. apply List.filter_ext_in. intros item Hin.
  unfold all_tagged in Hall. rewrite Forall_forall in Hall.
  destruct (Hall item) as [e He]; [by apply list_elem_of_In|].
  unfold emotion_matches, emotion_of. by rewrite He.
Qed.

(** In ASCII and the Russian alphabet the lowercase of a string is the
    string with every capital letter replaced by its small letter. *)
Lemma lower_char_plain (c : char) :
  plain_char c = true -> c <> 931 /\ lower_char c = [small_letter c].
Proof.
  intros Hc.
  assert (forallb (fun c => negb (c =? 931)
                            && bool_decide (lower_char c = [small_letter c]))
            (seqZ 0 128 ++ seqZ 1040 64 ++ [1025; 1105]) = true) as Hall
    by (vm_compute; reflexivity).
  rewrite forallb_forall in Hall.
  assert (In c (seqZ 0 128 ++ seqZ 1040 64 ++ [1025; 1105])) as Hin.
  { apply list_elem_of_In. rewrite !elem_of_app, !elem_of_seqZ, !elem_of_cons.
    unfold plain_char in Hc. lia. }
  apply Hall, andb_true_iff in Hin as [Hne Heq].
  apply negb_true_iff, Z.eqb_neq in Hne. by apply bool_decide_eq_true in Heq.
Qed.

Lemma lower_plain (s : pystr) :
  all_of plain_char s -> lower s = small_letter <$> s.
Proof.
  unfold lower. generalize (@nil char).
  induction s as [|c s IH]; intros before Hs; [done|].
  apply Forall_cons in Hs as [Hc Hs].
  destruct (lower_char_plain c Hc) as [Hne Heq].
  cbn [lower_from]. destruct (Z.eqb_spec c 931); [done|].
  rewrite Heq, (IH _ Hs). done.
Qed.

(** C4: after any sequence of stores of tagged batches into an empty
    [user_context], the callback for [chat_id] and ["emotion_" + label]
    returns, in stored order, the items of the batch stored last for
    [chat_id] whose label and [label] have the same [str.lower], and the
    empty list when nothing was stored for [chat_id]; it changes
    nothing.  For labels written in ASCII and the Russian alphabet, as
    the candidate labels are, having the same [str.lower] is being equal
    up to the case of the letters. *)
Theorem filter_by_emotion_spec (stores : list (Z * list news)) (chat_id : Z)
    (label : pystr) (tr : list event) :
  Forall (fun s => all_tagged s.2) stores ->
  callback_emotion chat_id (u8 "emotion_" ++ label)
    (after_stores stores (State tr ∅))
  = (Returned
       match last_stored chat_id stores with
       | Some batch => List.filter (emotion_matches label) batch
       | None => []
       end,
     after_stores stores (State tr ∅))
  /\ (forall item,
        emotion_matches label item = true
        <-> exists e, predicted_emotion item = Some e /\ lower e = lower label)
  /\ (forall item e,
        predicted_emotion item = Some e ->
        all_of plain_char e -> all_of plain_char label ->
        (emotion_matches label item = true <-> same_up_to_case e label)).
Proof.
  intros Hall. split; [|split].
  - unfold callback_emotion.
    rewrite after_underscore_emotion, after_stores_lookup. cbn [user_context].
    rewrite lookup_empty.
    destruct (last_stored chat_id stores) as [batch|] eqn:Hlast; cbn; [|done].
    rewrite filter_tagged; [done|].
    apply last_stored_elem in Hlast. rewrite Forall_forall in Hall.
    exact (Hall _ Hlast).
  - intros item. apply emotion_matches_iff.
  - intros item e He Hpe Hpl. rewrite emotion_matches_iff.
    unfold same_up_to_case. rewrite <- (lower_plain e Hpe), <- (lower_plain label Hpl).
    split; [intros (e' & He' & Heq) | intros Heq; by exists e].
    rewrite He in He'. by injection He' as <-.
Qed.
End Store.

Lemma filter_by_emotion_spec_witness :
  let stores := [(1, tagged_batch)] in
  let label := u8 "ПОЗИТИВ" in
  Forall (fun s => all_tagged s.2) stores
  /\ callback_emotion 1 (u8 "emotion_" ++ label) (after_stores stores (State [] ∅))
     = (Returned
          match last_stored 1 stores with
          | Some batch => List.filter (emotion_matches label) batch
          | None => []
          end,
        after_stores stores (State [] ∅))
  /\ (forall item,
        emotion_matches label item = true
        <-> exists e, predicted_emotion item = Some e /\ lower e = lower label)
  /\ (forall item e,
        predicted_emotion item = Some e ->
        all_of plain_char e -> all_of plain_char label ->
        (emotion_matches label item = true <-> same_up_to_case e label)).
Proof.
  intros stores label.
  assert (Forall (fun s => all_tagged s.2) stores) as Hall.
  { repeat constructor; eexists; reflexivity. }
  split; [exact Hall|].
  exact (filter_by_emotion_spec stores 1 label [] Hall).
Defined.

(** The reply to the button of the fourth label: the two items labelled
    with it, in stored order. *)
Example filter_by_emotion_example :
  (callback_emotion 1 (u8 "emotion_позитив")
     (after_stores [(2, []); (1, []); (1, tagged_batch)] (State [] ∅))).1
  = Returned (List.filter (fun item => bool_decide (url item <> u8 "https://lenta.ru/news/2025/03/03/b/"))
                tagged_batch).
Proof. vm_compute. reflexivity. Qed.

(** A label that ends in a capital sigma: its [str.lower] ends in the
    final small sigma, and the callback finds the item under it. *)
Example filter_final_sigma_example :
  let item := News (u8 "Заголовок новости") (u8 "https://lenta.ru/news/x") None
                (Some (u8 "Заголовок новости")) (Some (u8 "ΟΔΟΣ")) in
  lower (u8 "ΟΔΟΣ") = u8 "οδος"
  /\ (callback_emotion 1 (u8 "emotion_οδος")
        (after_stores [(1, [item])] (State [] ∅))).1
     = Returned [item]
  /\ (callback_emotion 1 (u8 "emotion_οδοσ")
        (after_stores [(1, [item])] (State [] ∅))).1
     = Returned [].
Proof. vm_compute. repeat split; reflexivity. Qed.


(** * Further properties *)

(** ** What [get_news_for_day] returns *)

Section CrawlItems.
Context `{W : World}.

Lemma startswith_spec (s p : pystr) :
  startswith s p = true <-> exists post, s = p ++ post.
Proof.
  revert s. induction p as [|a p IH]; intros s.
  - split; [by exists s | by destruct s].
  - destruct s as [|b s]; cbn.
    + split; [done | by intros [post ?]].
    + rewrite andb_true_iff, Z.eqb_eq, IH. split.
      * intros [-> [post ->]]. by exists post.
      * intros [post [= -> ->]]. split; [done | by exists post].
Qed.

Lemma str_contains_spec (p s : pystr) :
  str_contains p s = true <-> exists pre post, s = pre ++ p ++ post.
Proof.
  induction s as [|c s IH]; cbn [str_contains].
  - rewrite orb_false_r, startswith_spec. split.
    + intros [post ->]. by exists [], post.
    + intros (pre & post & H). symmetry in H.
      apply app_eq_nil in H as [-> H]. apply app_eq_nil in H as [-> ->].
      by exists [].
  - rewrite orb_true_iff, startswith_spec, IH. split.
    + intros [[post ->]|(pre & post & ->)].
      * by exists [], post.
      * by exists (c :: pre), post.
    + intros ([|c' pre] & post & H).
      * left. by exists post.
      * right. injection H as -> ->. by exists pre, post.
Qed.

Lemma full_url_absolute (href : pystr) :
  exists rest, full_url_of href = u8 "http" ++ rest.
Proof.
  unfold full_url_of.
  assert (BASE_URL = u8 "http" ++ u8 "s://lenta.ru") as Hbase
    by (vm_compute; reflexivity).
  destruct (startswith href (u8 "/")).
  - exists (u8 "s://lenta.ru" ++ href). by rewrite Hbase, <- app_assoc.
  - destruct (startswith href (u8 "http")) eqn:Hh.
    + by apply startswith_spec in Hh.
    + exists (u8 "s://lenta.ru" ++ u8 "/" ++ href). by rewrite Hbase, <- app_assoc.
Qed.

(** An item that the loop appends comes from one link and passed both
    filters. *)
Lemma candidate_Some (raw href : pystr) (item : news) :
  candidate (raw, href) = Some item ->
  headline item = format_news_headline raw
  /\ url item = full_url_of href
  /\ crawled_item item.
Proof.
  unfold candidate.
  destruct (headline_rejected (format_news_headline raw)) eqn:Hrej; [done|].
  destruct (existsb _ blacklisted_url_parts) eqn:Hbad; [done|].
  intros [= <-]. cbn. split; [done|]. split; [done|].
  unfold headline_rejected in Hrej.
  rewrite !orb_false_iff, !bool_decide_eq_false, Nat.leb_gt in Hrej.
  destruct Hrej as [[_ Hlen] Hbl].
  split; [exact Hlen|]. split; [exact Hbl|].
  split; [apply full_url_absolute|]. split; [|done].
  intros bad pre post Hin Heq.
  apply not_true_iff_false in Hbad. apply Hbad.
  apply existsb_exists. exists bad.
  split; [by apply list_elem_of_In|].
  apply str_contains_spec. by exists pre, post.
Qed.

Lemma unique_news_subset (items : list news) (item : news) :
  item ∈ unique_news items -> item ∈ items.
Proof.
  intros Hin. apply unique_news_spec in Hin.
  apply last_Some_elem_of, list_elem_of_filter in Hin as [_ Hin]. exact Hin.
Qed.

(** X1: Every item that [get_news_for_day] returns was made from a link of
    the page of that day, with the formatted text of the link as
    headline and its resolved address as URL, and has the form of a
    crawled item. *)
Theorem crawl_items_come_from_links (d : Z) (st : state) :
  exists out st',
    get_news_for_day d st = (Returned out, st')
    /\ forall item, item ∈ out ->
         crawled_item item
         /\ exists raw href,
              (raw, href) ∈ links_of_day d st
              /\ headline item = format_news_headline raw
              /\ url item = full_url_of href.
Proof.
  unfold get_news_for_day, links_of_day. unfold_M. cbn.
  destruct (requests_get (trace st) (day_url d)) as [html|e]; cbn.
  - eexists _, _. split; [reflexivity|]. intros item Hin.
    apply unique_news_subset in Hin. unfold collect_news in Hin.
    apply list_elem_of_omap in Hin as ([raw href] & Hin & Hc).
    apply candidate_Some in Hc as (Hh & Hu & Hwf).
    split; [exact Hwf|]. by exists raw, href.
  - eexists _, _. split; [reflexivity|]. intros item Hin.
    by apply elem_of_nil in Hin.
Qed.
End CrawlItems.

(** ** The order of the deduplicated list *)

Section DedupOrder.
Implicit Types (items : list news).

Lemma url_index_keys_order items :
  od_keys (url_index items []) = reverse (remove_dups (reverse (url <$> items))).
Proof.
  induction items as [|item items IH] using rev_ind; [done|].
  rewrite url_index_snoc, fmap_app, reverse_app. cbn [fmap list_fmap].
  rewrite reverse_singleton. cbn [app remove_dups].
  destruct (decide_rel (∈) (url item) (reverse (url <$> items))) as [Hd|Hd];
    rewrite elem_of_reverse, <- url_index_keys in Hd.
  - rewrite od_keys_set_old by done. by rewrite IH.
  - rewrite od_keys_set_new by done. by rewrite IH, reverse_cons.
Qed.

(** X2: The URLs of the result are the URLs of the input in the order of
    their first occurrence. *)
Theorem unique_news_order items :
  url <$> unique_news items = reverse (remove_dups (reverse (url <$> items))).
Proof. rewrite unique_news_urls. apply url_index_keys_order. Qed.

Lemma url_index_NoDup_id items :
  NoDup (url <$> items) ->
  url_index items [] = (fun item => (url item, item)) <$> items.
Proof.
  induction items as [|item items IH] using rev_ind; [done|].
  rewrite fmap_app, NoDup_app. intros (Hnd & Hnew & _).
  rewrite url_index_snoc, IH by done. rewrite fmap_app. cbn.
  assert (url item ∉ url <$> items) as Hitem.
  { intros Hin. apply (Hnew _ Hin). by left. }
  clear IH Hnd Hnew. induction items as [|x items IH]; cbn.
  - done.
  - rewrite decide_False.
    + f_equal. apply IH. intros Hin. apply Hitem. by right.
    + intros Heq. apply Hitem. rewrite Heq. by left.
Qed.

(** X3: A list in which no URL repeats is returned as it is. *)
Theorem unique_news_fixed items :
  NoDup (url <$> items) -> unique_news items = items.
Proof.
  intros Hnd. unfold unique_news, od_values.
  rewrite url_index_NoDup_id by done.
  rewrite <- list_fmap_compose. apply list_fmap_id.
Qed.

End DedupOrder.

Lemma unique_news_fixed_witness :
  NoDup (url <$> three_items) /\ unique_news three_items = three_items.
Proof.
  assert (NoDup (url <$> three_items)) as Hnd.
  { apply (bool_decide_unpack _). vm_compute. exact I. }
  split; [exact Hnd|]. exact (unique_news_fixed three_items Hnd).
Defined.


(** ** Headlines with and without a timestamp *)

Section HeadlineEdges.
Import Re ReFacts.

Lemma time_has_colon (t : pystr) : is_time t -> 58 ∈ t.
Proof. intros (a & b & c & d & -> & _). set_solver. Qed.

(** X4: A text without a colon is not changed by [format_news_headline]. *)
Theorem format_without_colon (s : pystr) :
  58 ∉ s -> format_news_headline s = s.
Proof.
  intros Hno. unfold format_news_headline.
  destruct (re_match headline_pattern s) as [m|] eqn:Hm; [|done].
  exfalso. apply re_match_headline_Some in Hm
    as (main & time & date & trail & (sp & nl & -> & _ & Htime & _) & _).
  apply Hno. apply time_has_colon in Htime. set_solver.
Qed.

Lemma is_time_length (t : pystr) : is_time t -> length t = 5%nat.
Proof. by intros (a & b & c & d & -> & _). Qed.

Lemma is_date_length (dt : pystr) : is_date dt -> (8 <= length dt)%nat.
Proof.
  intros (dd & sp1 & word & sp2 & yyyy & -> & Hdd & _ & Hs1 & _ & Hw & _ & Hs2
          & _ & Hy & _).
  rewrite !length_app.
  destruct sp1; [done|]. destruct word; [done|]. destruct sp2; [done|].
  cbn [length]. lia.
Qed.

Lemma lower_keeps_colon (s : pystr) : 58 ∈ s -> 58 ∈ lower s.
Proof.
  intros Hin. unfold lower. apply (lower_from_keeps s [] 58 58 Hin); [done|].
  apply (bool_decide_unpack _). vm_compute. exact I.
Qed.

Lemma blacklist_has_no_colon (e : pystr) : e ∈ blacklisted_headlines -> 58 ∉ e.
Proof.
  intros Hin.
  assert (forallb (fun x => negb (bool_decide (58 ∈ x)))
            (elements blacklisted_headlines) = true) as Hall
    by (vm_compute; reflexivity).
  rewrite forallb_forall in Hall.
  assert (In e (elements blacklisted_headlines)) as Hel.
  { apply (proj1 (list_elem_of_In (elements blacklisted_headlines) e)).
    apply (proj2 (elem_of_elements blacklisted_headlines e)). exact Hin. }
  apply Hall in Hel. apply negb_true_iff in Hel.
  by apply bool_decide_eq_false in Hel.
Qed.

(** X5: A text that reads as a headline with a timestamp is formatted to at
    least seventeen characters and passes the headline filter, also when
    there is nothing in front of the time. *)
Theorem timestamped_headline_kept (s main time date trail : pystr) :
  headline_shape s main time date trail ->
  (17 <= length (format_news_headline s))%nat
  /\ headline_rejected (format_news_headline s) = false.
Proof.
  intros Hshape. unfold format_news_headline.
  destruct (re_match headline_pattern s) as [m|] eqn:Hm.
  2:{ exfalso. exact (re_match_headline_None s Hm _ _ _ _ Hshape). }
  apply re_match_headline_Some in Hm
    as (main0 & time0 & date0 & trail0 & (sp & nl & _ & _ & Htime & _ & Hdate & _)
        & H1 & H2 & H3 & _).
  cbv zeta. rewrite H1, H2, H3.
  remember (strip main0 ++ u8 ", " ++ time0 ++ u8 ", " ++ date0) as out
    eqn:Hout.
  assert (17 <= length out)%nat as Hlen.
  { rewrite Hout, !length_app.
    replace (length (u8 ", ")) with 2%nat by reflexivity.
    pose proof (is_time_length _ Htime). pose proof (is_date_length _ Hdate).
    unfold char in *. lia. }
  split; [exact Hlen|].
  unfold headline_rejected.
  rewrite !orb_false_iff, !bool_decide_eq_false, Nat.leb_gt.
  split; [split|].
  - intros Heq. rewrite Heq in Hlen. cbn in Hlen. lia.
  - lia.
  - intros Hbl. apply blacklist_has_no_colon in Hbl. apply Hbl.
    apply lower_keeps_colon. rewrite Hout.
    apply time_has_colon in Htime. set_solver.
Qed.

Lemma all_of_forallb (p : char -> bool) (s : pystr) :
  forallb p s = true -> all_of p s.
Proof.
  intros H. apply Forall_forall. intros a Ha.
  rewrite forallb_forall in H. by apply H, list_elem_of_In.
Qed.

Lemma timestamped_headline_kept_witness :
  let s := u8 "16:45, 3 марта 2025" in
  headline_shape s [] (u8 "16:45") (u8 "3 марта 2025") []
  /\ (17 <= length (format_news_headline s))%nat
  /\ headline_rejected (format_news_headline s) = false.
Proof.
  intros s.
  assert (headline_shape s [] (u8 "16:45") (u8 "3 марта 2025") []) as Hshape.
  { exists (u8 " "), []. split; [vm_compute; reflexivity|].
    split; [constructor|].
    split; [by exists 49, 54, 52, 53|].
    split; [by repeat constructor|].
    split; [|split; [constructor | by left]].
    exists (u8 "3"), (u8 " "), (u8 "марта"), (u8 " "), (u8 "2025").
    split; [vm_compute; reflexivity|]. split; [by left|].
    repeat split;
      first [ reflexivity
            | apply all_of_forallb; vm_compute; reflexivity
            | apply (bool_decide_unpack _); vm_compute; exact I ]. }
  split; [exact Hshape|].
  exact (timestamped_headline_kept s _ _ _ _ Hshape).
Defined.

Lemma format_without_colon_witness :
  (58 ∉ u8 "Первая новость дня")
  /\ format_news_headline (u8 "Первая новость дня") = u8 "Первая новость дня".
Proof.
  assert (58 ∉ u8 "Первая новость дня") as Hno.
  { apply (bool_decide_unpack _). vm_compute. exact I. }
  split; [exact Hno|]. exact (format_without_colon _ Hno).
Defined.
End HeadlineEdges.


(** ** The first sentence *)

Section FirstSentence.
Context `{W : World}.

(** [first_piece] cuts its input in front of the first white space that
    follows a terminal character ([after] tells whether the character
    before the input was one). *)
Lemma first_piece_cut (text : pystr) :
  forall after : bool,
  exists rest,
    text = first_piece after text ++ rest
    /\ (rest = []
        \/ exists sp tail,
             rest = sp :: tail /\ is_space sp = true
             /\ match last (first_piece after text) with
                | Some a => is_terminal a = true
                | None => after = true
                end)
    /\ (forall pre a sp post,
          first_piece after text = pre ++ a :: sp :: post ->
          is_terminal a = true -> is_space sp = false)
    /\ (after = true ->
        forall sp post, first_piece after text = sp :: post -> is_space sp = false).
Proof.
  induction text as [|c text IH]; intros after.
  - exists []. cbn. split; [done|]. split; [by left|].
    split; [by intros [|??] ??? ?|done].
  - cbn [first_piece]. destruct (after && is_space c) eqn:Hcut.
    + apply andb_true_iff in Hcut as [-> Hsp].
      exists (c :: text). split; [done|].
      split; [right; by exists c, text|]. split; [by intros [|??] ??? ?|done].
    + destruct (IH (is_terminal c)) as (rest & Heq & Hrest & Hin & Hhead).
      exists rest. split; [cbn; by rewrite <- Heq|]. split; [|split].
      * destruct Hrest as [->|(sp & tail & -> & Hsp & Hlast)]; [by left|].
        right. exists sp, tail. split; [done|]. split; [done|].
        destruct (first_piece (is_terminal c) text) as [|x piece] eqn:Hp; cbn.
        -- exact Hlast.
        -- rewrite last_cons. cbn in Hlast. rewrite last_cons in Hlast.
           by destruct (last piece).
      * intros [|x pre] a sp post Hpiece Ha.
        -- injection Hpiece as -> Hpiece. by apply (Hhead Ha sp post).
        -- injection Hpiece as -> Hpiece. by apply (Hin pre a sp post).
      * intros -> sp post [= -> _]. by destruct (is_space sp).
Qed.

(** X6: When the article is fetched, [get_first_sentence] makes that one
    request, logs nothing, and returns the article text up to, and
    without, the first white space that follows [.], [!] or [?]: what is
    cut off starts with such white space, and the sentence returned has
    no such place inside. *)
Theorem first_sentence_cut_at_boundary (u html : pystr) (st : state) :
  requests_get (trace st) u = Returned html ->
  exists sentence rest,
    get_first_sentence u st
    = (Returned sentence, State (trace st ++ [EvGet u]) (user_context st))
    /\ article_text html = sentence ++ rest
    /\ (rest = []
        \/ exists before a sp tail,
             sentence = before ++ [a] /\ rest = sp :: tail
             /\ is_terminal a = true /\ is_space sp = true)
    /\ (forall pre a sp post,
          sentence = pre ++ a :: sp :: post ->
          is_terminal a = true -> is_space sp = false).
Proof.
  intros Hget. unfold get_first_sentence. unfold_M. cbn. rewrite Hget. cbn.
  destruct (first_piece_cut (article_text html) false)
    as (rest & Heq & Hrest & Hin & _).
  exists (first_piece false (article_text html)), rest.
  split; [done|]. split; [exact Heq|]. split; [|exact Hin].
  destruct Hrest as [->|(sp & tail & -> & Hsp & Hlast)]; [by left|]. right.
  destruct (first_piece false (article_text html)) as [|x piece] using rev_ind;
    [done|].
  rewrite last_snoc in Hlast. by exists piece, x, sp, tail.
Qed.
End FirstSentence.

Lemma first_sentence_cut_at_boundary_witness :
  let u := u8 "https://lenta.ru/news/2025/03/03/a/" in
  let html := u8 "<p>Раз. Два.</p>" in
  @requests_get one_page_world (trace initial_state) u = Returned html
  /\ exists sentence rest,
      @get_first_sentence one_page_world u initial_state
      = (Returned sentence,
         State (trace initial_state ++ [EvGet u]) (user_context initial_state))
      /\ @article_text one_page_world html = sentence ++ rest
      /\ (rest = []
          \/ exists before a sp tail,
               sentence = before ++ [a] /\ rest = sp :: tail
               /\ is_terminal a = true /\ is_space sp = true)
      /\ (forall pre a sp post,
            sentence = pre ++ a :: sp :: post ->
            is_terminal a = true -> is_space sp = false).
Proof.
  intros u html. split; [reflexivity|].
  exact (@first_sentence_cut_at_boundary one_page_world u html initial_state eq_refl).
Defined.

(** ** The calls of the tagging loop and of the date range *)

Section Calls.
Context `{W : World}.

Lemma requested_app (tr1 tr2 : list event) :
  requested (tr1 ++ tr2) = requested tr1 ++ requested tr2.
Proof. apply omap_app. Qed.

Lemma classified_app (tr1 tr2 : list event) :
  classified (tr1 ++ tr2) = classified tr1 ++ classified tr2.
Proof. apply omap_app. Qed.

Lemma get_first_sentence_calls (u : pystr) (st : state) :
  exists t st',
    get_first_sentence u st = (Returned t, st')
    /\ requested (trace st') = requested (trace st) ++ [u]
    /\ classified (trace st') = classified (trace st).
Proof.
  unfold get_first_sentence. unfold_M. cbn.
  destruct (requests_get (trace st) u); cbn; eexists _, _;
    (split; [reflexivity|]); cbn;
    rewrite ?requested_app, ?classified_app; cbn; by rewrite ?app_nil_r.
Qed.

Lemma predict_calls (text : pystr) (st : state) :
  exists l st',
    predict text st = (Returned l, st')
    /\ requested (trace st') = requested (trace st)
    /\ classified (trace st') = classified (trace st) ++ [text].
Proof.
  unfold predict. unfold_M. cbn.
  destruct (classifier (trace st) text CANDIDATE_LABELS) as [[|top ranked]|e];
    cbn; eexists _, _; (split; [reflexivity|]); cbn;
    rewrite ?requested_app, ?classified_app; cbn; by rewrite ?app_nil_r.
Qed.

Lemma tag_news_calls (item : news) (st : state) :
  exists item' st' text,
    tag_news item st = (Returned item', st')
    /\ combined_text item' = Some text
    /\ requested (trace st') = requested (trace st) ++ [url item]
    /\ classified (trace st') = classified (trace st) ++ [text].
Proof.
  unfold tag_news.
  destruct (get_first_sentence_calls (url item) st) as (t & st1 & Hfs & Hr1 & Hc1).
  rewrite (bind_returned _ _ _ _ _ Hfs).
  set (text := if bool_decide (t = []) then headline item
               else headline item ++ u8 ". " ++ t).
  destruct (predict_calls text st1) as (l & st2 & Hp & Hr2 & Hc2).
  rewrite (bind_returned _ _ _ _ _ Hp).
  eexists _, st2, text. split; [reflexivity|]. split; [done|].
  by rewrite Hr2, Hc2, Hr1, Hc1.
Qed.

(** X7: The loop requests the article of every item and classifies one text
    per item, both in the order of the batch; the text classified for
    an item is the combined text stored in it. *)
Theorem tagging_calls_in_order (items : list news) :
  forall (p : progress) (st : state),
  exists tagged p' st' texts,
    tagging_loop items p st = (Returned (tagged, p'), st')
    /\ requested (trace st') = requested (trace st) ++ (url <$> items)
    /\ classified (trace st') = classified (trace st) ++ texts
    /\ combined_text <$> tagged = Some <$> texts.
Proof.
  induction items as [|item items IH]; intros p st.
  - exists [], p, st, []. by rewrite !app_nil_r.
  - destruct (tag_news_calls item st) as (item' & st1 & text & Htag & Ht & Hr1 & Hc1).
    destruct (IH (Progress (count p + 1) (total p) (done p)) st1)
      as (tagged & p' & st2 & texts & Hloop & Hr2 & Hc2 & Htexts).
    exists (item' :: tagged), p', st2, (text :: texts).
    cbn [tagging_loop]. rewrite (bind_returned _ _ _ _ _ Htag).
    rewrite (bind_returned _ _ _ _ _ Hloop).
    split; [reflexivity|].
    rewrite Hr2, Hc2, Hr1, Hc1, <- !app_assoc. cbn.
    by rewrite Ht, Htexts.
Qed.

Lemma get_news_for_day_calls (d : Z) (st : state) :
  exists l st',
    get_news_for_day d st = (Returned l, st')
    /\ requested (trace st') = requested (trace st) ++ [day_url d]
    /\ classified (trace st') = classified (trace st)
    /\ user_context st' = user_context st.
Proof.
  unfold get_news_for_day. unfold_M. cbn.
  destruct (requests_get (trace st) (day_url d)); cbn; eexists _, _;
    (split; [reflexivity|]); cbn;
    rewrite ?requested_app, ?classified_app; cbn; by rewrite ?app_nil_r.
Qed.

Lemma range_loop_calls (fuel : nat) :
  forall (current end_date : Z) (acc : list (Z * list news)) (st : state),
    current <= end_date + 1 ->
    end_date < MAXORDINAL ->
    (Z.to_nat (end_date - current + 1) <= fuel)%nat ->
    exists m st',
      range_loop fuel current end_date acc st = (Returned m, st')
      /\ requested (trace st')
         = requested (trace st) ++ (day_url <$> seqZ current (end_date - current + 1))
      /\ classified (trace st') = classified (trace st)
      /\ user_context st' = user_context st.
Proof.
  induction fuel as [|fuel IH]; intros current end_date acc st Hle Hmax Hfuel.
  - assert (current = end_date + 1) as -> by lia.
    cbn. destruct (Z.leb_spec (end_date + 1) end_date); [lia|].
    eexists _, _. split; [reflexivity|].
    replace (end_date - (end_date + 1) + 1) with 0 by lia.
    cbn. by rewrite app_nil_r.
  - cbn [range_loop]. destruct (Z.leb_spec current end_date) as [Hc|Hc].
    + destruct (get_news_for_day_calls current st) as (l & st1 & Hday & Hr & Hcl & Hu).
      rewrite (bind_returned _ _ _ _ _ Hday).
      rewrite (bind_returned _ _ _ _ _ (date_add_day_ok current st1 ltac:(lia))).
      destruct (IH (current + 1) end_date (od_set current l acc) st1)
        as (m & st' & Hrun & Hr' & Hcl' & Hu'); [lia | lia | lia |].
      exists m, st'. split; [done|]. rewrite Hr', Hcl', Hu', Hr, Hcl, Hu.
      split; [|done]. rewrite <- app_assoc. f_equal.
      rewrite (seqZ_cons current (end_date - current + 1)) by lia.
      cbn. do 3 f_equal; lia.
    + assert (current = end_date + 1) as -> by lia.
      eexists _, _. split; [reflexivity|].
      replace (end_date - (end_date + 1) + 1) with 0 by lia.
      cbn. by rewrite app_nil_r.
Qed.

(** X8: For a range that ends before 9999-12-31, [get_news_for_date_range]
    requests the page of every day from [d1] to [d2] once, in
    chronological order, requests nothing else, and leaves
    [user_context] alone. *)
Theorem date_range_requests_each_day_once (d1 d2 : Z) (st : state) :
  d1 <= d2 -> d2 < MAXORDINAL ->
  exists m st',
    get_news_for_date_range d1 d2 st = (Returned m, st')
    /\ requested (trace st')
       = requested (trace st) ++ (day_url <$> seqZ d1 (d2 - d1 + 1))
    /\ classified (trace st') = classified (trace st)
    /\ user_context st' = user_context st.
Proof.
  intros H12 Hmax. unfold get_news_for_date_range.
  apply range_loop_calls; lia.
Qed.
End Calls.

Lemma date_range_requests_each_day_once_witness :
  739313 <= 739315 /\ 739315 < MAXORDINAL
  /\ exists m st',
      @get_news_for_date_range offline_world 739313 739315 initial_state
      = (Returned m, st')
      /\ requested (trace st')
         = requested (trace initial_state)
           ++ (day_url <$> seqZ 739313 (739315 - 739313 + 1))
      /\ classified (trace st') = classified (trace initial_state)
      /\ user_context st' = user_context initial_state.
Proof.
  split; [lia|]. split; [unfold MAXORDINAL; lia|].
  apply (@date_range_requests_each_day_once offline_world 739313 739315
           initial_state); unfold MAXORDINAL; lia.
Defined.


(** ** The numbers of the chart *)

Section Chart.

Lemma od_get_Some_key {V : Type} (k : pystr) (v : V) (d : list (pystr * V)) :
  od_get k d = Some v -> k ∈ od_keys d.
Proof.
  unfold od_keys. induction d as [|[k' v'] d IH]; cbn; [done|].
  destruct (decide (k = k')) as [->|Hne]; intros H.
  - by left.
  - right. by apply IH.
Qed.

Lemma count_emotion_keys (d : list (pystr * Z)) (item : news) :
  od_keys (count_emotion d item) = od_keys d.
Proof.
  unfold count_emotion. destruct (predicted_emotion item) as [e|]; [|done].
  destruct (od_get e d) as [n|] eqn:Hget; [|done].
  apply od_keys_set_old. by apply od_get_Some_key in Hget.
Qed.

Lemma count_emotion_get (d : list (pystr * Z)) (item : news) (label : pystr) (n : Z) :
  od_get label d = Some n ->
  od_get label (count_emotion d item)
  = Some (n + (if has_label label item then 1 else 0)).
Proof.
  intros Hget. unfold count_emotion, has_label.
  destruct (predicted_emotion item) as [e|]; cbn.
  - destruct (decide (e = label)) as [->|Hne].
    + rewrite Hget, od_get_set_eq. by rewrite bool_decide_eq_true_2.
    + rewrite bool_decide_eq_false_2 by congruence. rewrite Z.add_0_r.
      destruct (od_get e d); [by rewrite od_get_set_ne | done].
  - by rewrite Z.add_0_r.
Qed.

Lemma chart_total_set (d : list (pystr * Z)) (k : pystr) (n : Z) :
  od_get k d = Some n -> chart_total (od_set k (n + 1) d) = chart_total d + 1.
Proof.
  unfold chart_total. induction d as [|[k' v'] d IH]; cbn [od_get od_set]; [done|].
  destruct (decide (k = k')) as [->|Hne]; cbn [foldr snd].
  - intros [= ->]. lia.
  - intros H. rewrite IH by done. lia.
Qed.

Lemma count_emotion_total (d : list (pystr * Z)) (item : news) :
  chart_total (count_emotion d item)
  = chart_total d
    + (if match predicted_emotion item with
          | Some e => bool_decide (e ∈ od_keys d)
          | None => false
          end then 1 else 0).
Proof.
  unfold count_emotion. destruct (predicted_emotion item) as [e|]; [|lia].
  destruct (od_get e d) as [n|] eqn:Hget.
  - rewrite chart_total_set by done.
    apply od_get_Some_key in Hget. by rewrite bool_decide_eq_true_2.
  - rewrite bool_decide_eq_false_2; [lia|].
    intros Hin. clear -Hget Hin. unfold od_keys in Hin.
    induction d as [|[k' v'] d IH]; cbn in *; [by apply elem_of_nil in Hin|].
    destruct (decide (e = k')); [done|].
    apply elem_of_cons in Hin as [?|?]; [done | by apply IH].
Qed.

Lemma counting_spec (items : list news) :
  forall d : list (pystr * Z),
    od_keys (foldl count_emotion d items) = od_keys d
    /\ (forall label n, od_get label d = Some n ->
          od_get label (foldl count_emotion d items)
          = Some (n + Z.of_nat (length (List.filter (has_label label) items))))
    /\ chart_total (foldl count_emotion d items)
       = chart_total d
         + Z.of_nat (length (List.filter
              (fun item => match predicted_emotion item with
                           | Some e => bool_decide (e ∈ od_keys d)
                           | None => false
                           end) items)).
Proof.
  induction items as [|item items IH]; intros d; cbn [foldl List.filter].
  - split; [done|]. split; [|cbn; lia]. intros label n ->. cbn. f_equal. lia.
  - destruct (IH (count_emotion d item)) as (Hk & Hg & Ht).
    rewrite count_emotion_keys in Hk, Ht. split; [exact Hk|]. split.
    + intros label n Hget.
      rewrite (Hg label _ (count_emotion_get d item label n Hget)).
      f_equal. destruct (has_label label item); cbn [length]; lia.
    + rewrite Ht, count_emotion_total.
      destruct (predicted_emotion item) as [e|];
        [destruct (bool_decide (e ∈ od_keys d))|]; cbn [length]; lia.
Qed.

Lemma emotion_counts_facts (items : list news) :
  od_keys (emotion_counts items) = CANDIDATE_LABELS
  /\ (forall label, label ∈ CANDIDATE_LABELS ->
        od_get label (emotion_counts items)
        = Some (Z.of_nat (length (List.filter (has_label label) items))))
  /\ chart_total (emotion_counts items)
     = Z.of_nat (length (List.filter has_candidate_label items)).
Proof.
  unfold emotion_counts.
  set (init := foldl (fun d label => od_set label 0 d) [] CANDIDATE_LABELS).
  assert (od_keys init = CANDIDATE_LABELS) as Hinit by (vm_compute; reflexivity).
  assert (chart_total init = 0) as Htot by (vm_compute; reflexivity).
  assert (forall label, label ∈ CANDIDATE_LABELS -> od_get label init = Some 0)
    as Hzero.
  { intros label Hin.
    assert (forallb (fun l => bool_decide (od_get l init = Some 0))
              CANDIDATE_LABELS = true) as Hall by (vm_compute; reflexivity).
    rewrite forallb_forall in Hall.
    apply (proj1 (bool_decide_eq_true _)), Hall. by apply list_elem_of_In. }
  destruct (counting_spec items init) as (Hk & Hg & Ht).
  rewrite Hinit in Hk, Ht. split; [exact Hk|]. split.
  - intros label Hin. rewrite (Hg label 0 (Hzero label Hin)). f_equal.
  - rewrite Ht, Htot. done.
Qed.

(** X9: The chart always has the five candidate labels, in their order; the
    bar of a label counts the items with exactly that label; together
    the bars count the items that have a candidate label, so items
    without label or labelled [UNDETERMINED] are in no bar. *)
Theorem emotion_counts_spec (items : list news) :
  od_keys (emotion_counts items) = CANDIDATE_LABELS
  /\ (forall label, label ∈ CANDIDATE_LABELS ->
        od_get label (emotion_counts items)
        = Some (Z.of_nat (length (List.filter (has_label label) items))))
  /\ chart_total (emotion_counts items)
     = Z.of_nat (length (List.filter has_candidate_label items))
  /\ UNDETERMINED ∉ CANDIDATE_LABELS.
Proof.
  destruct (emotion_counts_facts items) as (Hk & Hg & Ht).
  split; [exact Hk|]. split; [exact Hg|]. split; [exact Ht|].
  apply (bool_decide_unpack _). vm_compute. exact I.
Qed.
End Chart.

(** ** The buttons, the reply and the chart *)

Section Buttons.

Lemma known_labels_exact (e label : pystr) :
  e ∈ CANDIDATE_LABELS \/ e = UNDETERMINED ->
  label ∈ CANDIDATE_LABELS ->
  (lower e = lower label <-> e = label).
Proof.
  intros He Hl.
  assert (forallb (fun x =>
            forallb (fun y => eqb (str_eqb (lower x) (lower y)) (str_eqb x y))
              CANDIDATE_LABELS)
            (UNDETERMINED :: CANDIDATE_LABELS) = true) as Hall
    by (vm_compute; reflexivity).
  rewrite forallb_forall in Hall.
  assert (In e (UNDETERMINED :: CANDIDATE_LABELS)) as Hine.
  { destruct He as [He| ->]; [right; by apply list_elem_of_In | by left]. }
  specialize (Hall e Hine). rewrite forallb_forall in Hall.
  specialize (Hall label ltac:(by apply list_elem_of_In)).
  apply eqb_prop in Hall. unfold str_eqb in Hall.
  split; intros H.
  - apply (proj1 (bool_decide_eq_true _)). rewrite <- Hall.
    by apply bool_decide_eq_true_2.
  - by rewrite H.
Qed.

(** X10: For a stored batch whose labels are candidate labels or
    [UNDETERMINED], the button of a candidate label lists exactly the
    items with that label, as many as its bar in the chart shows. *)
Theorem button_lists_what_chart_counts (chat_id : Z) (label : pystr)
    (batch : list news) (st : state) :
  labels_known batch ->
  label ∈ CANDIDATE_LABELS ->
  user_context st !! chat_id = Some batch ->
  u8 "emotion_" ++ label ∈ keyboard
  /\ is_emotion_callback (u8 "emotion_" ++ label) = true
  /\ callback_emotion chat_id (u8 "emotion_" ++ label) st
     = (Returned (List.filter (has_label label) batch), st)
  /\ od_get label (emotion_counts batch)
     = Some (Z.of_nat (length (List.filter (has_label label) batch))).
Proof.
  intros Hknown Hlabel Hstored.
  split; [unfold keyboard; by apply list_elem_of_fmap_2|].
  split; [unfold is_emotion_callback; apply startswith_spec; by exists label|].
  split; [|by apply emotion_counts_facts].
  unfold callback_emotion. rewrite after_underscore_emotion, Hstored. cbn.
  f_equal. f_equal. apply List.filter_ext_in. intros item Hin.
  unfold labels_known in Hknown. rewrite Forall_forall in Hknown.
  destruct (Hknown item ltac:(by apply list_elem_of_In)) as (e & He & Hcand).
  unfold emotion_of, has_label, str_eqb. rewrite He. cbn.
  apply bool_decide_ext. rewrite (known_labels_exact e label Hcand Hlabel).
  split; [by intros -> | by intros [= ->]].
Qed.

(** X11: Data that passes the guard of the handler never makes
    [callback_emotion] raise; the reply is taken from the stored batch
    in its order and the state is not changed. *)
Theorem guarded_callback_returns (chat_id : Z) (data : pystr) (st : state) :
  is_emotion_callback data = true ->
  exists shown,
    callback_emotion chat_id data st = (Returned shown, st)
    /\ shown `sublist_of` default [] (user_context st !! chat_id).
Proof.
  unfold is_emotion_callback. intros Hguard.
  apply startswith_spec in Hguard as [label ->].
  unfold callback_emotion. rewrite after_underscore_emotion.
  eexists. split; [reflexivity|].
  generalize (default [] (user_context st !! chat_id)). intros l.
  induction l as [|x l IH]; cbn; [done|].
  destruct (str_eqb _ _); [by apply sublist_skip | by apply sublist_cons].
Qed.
End Buttons.

Lemma button_lists_what_chart_counts_witness :
  let st := State [] (<[1 := tagged_batch]> ∅) in
  let label := u8 "позитив" in
  labels_known tagged_batch
  /\ label ∈ CANDIDATE_LABELS
  /\ user_context st !! 1 = Some tagged_batch
  /\ u8 "emotion_" ++ label ∈ keyboard
  /\ is_emotion_callback (u8 "emotion_" ++ label) = true
  /\ callback_emotion 1 (u8 "emotion_" ++ label) st
     = (Returned (List.filter (has_label label) tagged_batch), st)
  /\ od_get label (emotion_counts tagged_batch)
     = Some (Z.of_nat (length (List.filter (has_label label) tagged_batch))).
Proof.
  intros st label.
  assert (label ∈ CANDIDATE_LABELS) as Hl.
  { apply (bool_decide_unpack _). vm_compute. exact I. }
  assert (labels_known tagged_batch) as Hk.
  { repeat constructor; eexists; (split; [reflexivity|]); left;
      apply (bool_decide_unpack _); vm_compute; exact I. }
  assert (user_context st !! 1 = Some tagged_batch) as Hs by reflexivity.
  split; [exact Hk|]. split; [exact Hl|]. split; [exact Hs|].
  exact (button_lists_what_chart_counts 1 label tagged_batch st Hk Hl Hs).
Defined.

Lemma guarded_callback_returns_witness :
  is_emotion_callback (u8 "emotion_сарказм") = true
  /\ exists shown,
      callback_emotion 1 (u8 "emotion_сарказм") initial_state
      = (Returned shown, initial_state)
      /\ shown `sublist_of` default [] (user_context initial_state !! 1).
Proof.
  split; [reflexivity|].
  exact (guarded_callback_returns 1 (u8 "emotion_сарказм") initial_state eq_refl).
Defined.


(** ** The handler of a request *)

Section HandlerFacts.
Context `{W : World}.
Variable exception_text : list pystr -> pystr.

Lemma sent_app (tr1 tr2 : list event) :
  sent (tr1 ++ tr2) = sent tr1 ++ sent tr2.
Proof. apply omap_app. Qed.

Lemma state_eta (st : state) : State (trace st ++ []) (user_context st) = st.
Proof. destruct st. cbn. by rewrite app_nil_r. Qed.

Lemma get_news_for_day_quiet (d : Z) (st : state) :
  exists l evs,
    get_news_for_day d st
    = (Returned l, State (trace st ++ evs) (user_context st))
    /\ sent evs = [].
Proof.
  unfold get_news_for_day. unfold_M. cbn.
  destruct (requests_get (trace st) (day_url d)); cbn.
  - by eexists _, [_].
  - eexists _, [_; _]. by rewrite <- app_assoc.
Qed.

(** Whether it returns or raises, the loop over the days only adds
    requests and log entries to the trace. *)
Lemma range_loop_quiet (fuel : nat) :
  forall (current end_date : Z) (acc : list (Z * list news)) (st : state),
  exists r evs,
    range_loop fuel current end_date acc st
    = (r, State (trace st ++ evs) (user_context st))
    /\ sent evs = [].
Proof.
  induction fuel as [|fuel IH]; intros current end_date acc st; cbn [range_loop].
  - exists (Returned acc), []. rewrite state_eta.
    by destruct (current <=? end_date).
  - destruct (current <=? end_date).
    + destruct (get_news_for_day_quiet current st) as (l & evs & Hday & Hs).
      rewrite (bind_returned _ _ _ _ _ Hday).
      unfold date_add_day. destruct (current + 1 <=? MAXORDINAL).
      * rewrite (bind_returned _ _ (State (trace st ++ evs) (user_context st))
                   (State (trace st ++ evs) (user_context st))
                   (current + 1)) by reflexivity.
        destruct (IH (current + 1) end_date (od_set current l acc)
                    (State (trace st ++ evs) (user_context st)))
          as (r & evs' & Hrun & Hs').
        exists r, (evs ++ evs'). rewrite Hrun. cbn [trace user_context].
        rewrite (app_assoc (trace st)), sent_app, Hs, Hs'. done.
      * rewrite (bind_raised _ _ (State (trace st ++ evs) (user_context st))
                   (State (trace st ++ evs) (user_context st))
                   (u8 "date value out of range")) by reflexivity.
        by exists (Raised (u8 "date value out of range")), evs.
    + exists (Returned acc), []. by rewrite state_eta.
Qed.

Lemma get_first_sentence_quiet (u : pystr) (st : state) :
  exists t evs,
    get_first_sentence u st
    = (Returned t, State (trace st ++ evs) (user_context st))
    /\ sent evs = [].
Proof.
  unfold get_first_sentence. unfold_M. cbn.
  destruct (requests_get (trace st) u); cbn.
  - by eexists _, [_].
  - eexists _, [_; _]. by rewrite <- app_assoc.
Qed.

Lemma predict_quiet (text : pystr) (st : state) :
  exists l evs,
    predict text st = (Returned l, State (trace st ++ evs) (user_context st))
    /\ sent evs = [].
Proof.
  unfold predict. unfold_M. cbn.
  destruct (classifier (trace st) text CANDIDATE_LABELS) as [[|top ranked]|e];
    cbn.
  - eexists _, [_; _]. by rewrite <- app_assoc.
  - by eexists _, [_].
  - eexists _, [_; _]. by rewrite <- app_assoc.
Qed.

Lemma tag_news_quiet (item : news) (st : state) :
  exists item' evs,
    tag_news item st = (Returned item', State (trace st ++ evs) (user_context st))
    /\ sent evs = [].
Proof.
  unfold tag_news.
  destruct (get_first_sentence_quiet (url item) st) as (t & evs1 & Hfs & Hs1).
  rewrite (bind_returned _ _ _ _ _ Hfs).
  match goal with |- context [predict ?text] =>
    destruct (predict_quiet text (State (trace st ++ evs1) (user_context st)))
      as (l & evs2 & Hp & Hs2)
  end.
  rewrite (bind_returned _ _ _ _ _ Hp). cbn [trace user_context].
  eexists _, (evs1 ++ evs2). rewrite (app_assoc (trace st)), sent_app, Hs1, Hs2.
  split; [reflexivity | done].
Qed.

Lemma tagging_loop_quiet (items : list news) :
  forall (p : progress) (st : state),
  exists tagged p' evs,
    tagging_loop items p st
    = (Returned (tagged, p'), State (trace st ++ evs) (user_context st))
    /\ sent evs = [].
Proof.
  induction items as [|item items IH]; intros p st; cbn [tagging_loop].
  - exists [], p, []. by rewrite state_eta.
  - destruct (tag_news_quiet item st) as (item' & evs1 & Htag & Hs1).
    rewrite (bind_returned _ _ _ _ _ Htag).
    destruct (IH (Progress (count p + 1) (total p) (done p))
                (State (trace st ++ evs1) (user_context st)))
      as (tagged & p' & evs2 & Hloop & Hs2).
    rewrite (bind_returned _ _ _ _ _ Hloop). cbn [trace user_context].
    exists (item' :: tagged), p', (evs1 ++ evs2).
    rewrite (app_assoc (trace st)), sent_app, Hs1, Hs2. split; [reflexivity | done].
Qed.

(** The second half of the handler always returns, sends to its own chat
    only, and at most replaces the batch of that chat. *)
Lemma tag_and_store_effects (chat_id : Z) (items : list news) (st : state) :
  exists r evs ctx',
    tag_and_store chat_id items st = (Returned r, State (trace st ++ evs) ctx')
    /\ sent evs <> []
    /\ Forall (fun m => m.1 = chat_id) (sent evs)
    /\ (forall other, other <> chat_id ->
          ctx' !! other = user_context st !! other).
Proof.
  destruct items as [|item items]; unfold tag_and_store.
  - rewrite (bind_returned _ _ _ _ _ (emit_returns _ st)).
    eexists None, [_], _. split; [reflexivity|]. cbn.
    split; [done|]. split; [by repeat constructor | done].
  - rewrite (bind_returned _ _ _ _ _ (emit_returns _ st)).
    match goal with |- context [tagging_loop ?l ?p] =>
      destruct (tagging_loop_quiet l p
                  (State (trace st ++ [EvSend chat_id
                                         (u8 "Оценка эмоций: " ++ format_progress 0)])
                         (user_context st)))
        as (tagged & p' & evs & Hloop & Hs)
    end.
    rewrite (bind_returned _ _ _ _ _ Hloop). cbn [trace user_context].
    unfold_M. cbn [trace user_context].
    eexists _, ([_] ++ evs), _. split; [by rewrite (app_assoc (trace st))|].
    rewrite sent_app, Hs. cbn. split; [done|]. split; [by repeat constructor|].
    intros other Hne. by rewrite lookup_insert_ne.
Qed.

(** The [try] block sends to its own chat only, sends a message whenever
    it returns, and leaves [user_context] alone. *)
Lemma collect_request_effects (chat_id : Z) (parts : list pystr) (st : state) :
  exists r evs,
    collect_request exception_text chat_id parts st
    = (r, State (trace st ++ evs) (user_context st))
    /\ Forall (fun m => m.1 = chat_id) (sent evs)
    /\ match r with
       | Returned _ => sent evs <> []
       | Raised _ => sent evs = []
       end.
Proof.
  unfold collect_request.
  destruct parts as [|part1 [|part2 [|part3 parts]]].
  - rewrite (bind_returned _ _ _ _ _ (emit_returns _ st)).
    eexists (Returned None), [_]. split; [reflexivity|]. cbn.
    split; [by repeat constructor | done].
  - destruct (parse_date part1) as [date_obj|].
    + destruct (get_news_for_day_quiet date_obj st) as (l & evs & Hday & Hs).
      rewrite (bind_returned _ _ _ _ _ Hday).
      rewrite (bind_returned _ _ _ _ _ (emit_returns _ _)).
      cbn [trace user_context].
      eexists (Returned (Some l)), (evs ++ [_]).
      split; [by rewrite (app_assoc (trace st))|]. rewrite sent_app, Hs. cbn.
      split; [by repeat constructor | done].
    + exists (Raised (exception_text [part1])), []. by rewrite state_eta.
  - destruct (parse_date part1) as [date1|];
      [destruct (parse_date part2) as [date2|]|].
    + destruct (if date2 <? date1 then (date2, date1) else (date1, date2))
        as [start_date end_date].
      unfold get_news_for_date_range.
      destruct (range_loop_quiet (Z.to_nat (end_date - start_date + 1))
                  start_date end_date [] st) as ([m|e] & evs & Hrun & Hs).
      * rewrite (bind_returned _ _ _ _ _ Hrun).
        rewrite (bind_returned _ _ _ _ _ (emit_returns _ _)).
        cbn [trace user_context].
        eexists (Returned (Some (aggregate m))), (evs ++ [_]).
        split; [by rewrite (app_assoc (trace st))|]. rewrite sent_app, Hs. cbn.
        split; [by repeat constructor | done].
      * rewrite (bind_raised _ _ _ _ _ Hrun).
        exists (Raised e), evs. by rewrite Hs.
    + exists (Raised (exception_text [part1; part2])), []. by rewrite state_eta.
    + exists (Raised (exception_text [part1; part2])), []. by rewrite state_eta.
  - rewrite (bind_returned _ _ _ _ _ (emit_returns _ st)).
    eexists (Returned None), [_]. split; [reflexivity|]. cbn.
    split; [by repeat constructor | done].
Qed.

(** X12: Whatever the text, and whatever the network and the classifier
    do, [process_date_input] gets as far as the assignment to
    [user_context] without raising: what is raised while the request is
    read or the days are crawled becomes a message.  On the way it sends
    at least one message, sends to the chat of the request only, and
    changes the stored batch of no other chat. *)
Theorem handler_always_replies (chat_id : Z) (text : pystr) (st : state) :
  exists evs ctx',
    process_date_input exception_text chat_id text st
    = (Returned tt, State (trace st ++ evs) ctx')
    /\ sent evs <> []
    /\ Forall (fun m => m.1 = chat_id) (sent evs)
    /\ (forall other, other <> chat_id ->
          ctx' !! other = user_context st !! other).
Proof.
  unfold process_date_input.
  destruct (collect_request_effects chat_id (split_ws (strip text)) st)
    as (r & evs & Hreq & Hto & Hsent).
  assert (attempt (collect_request exception_text chat_id (split_ws (strip text))) st
          = (Returned r, State (trace st ++ evs) (user_context st))) as Hatt
    by (unfold attempt; by rewrite Hreq).
  rewrite (bind_returned _ _ _ _ _ Hatt).
  destruct r as [[batch|]|e].
  - destruct (tag_and_store_effects chat_id batch
                (State (trace st ++ evs) (user_context st)))
      as (r' & evs' & ctx' & Htag & Hne & Hto' & Hother).
    rewrite (bind_returned _ _ _ _ _ Htag). cbn [trace user_context] in *.
    exists (evs ++ evs'), ctx'. split; [by rewrite (app_assoc (trace st))|].
    rewrite sent_app. split; [|split; [|done]].
    + intros Hnil. by apply app_eq_nil in Hnil as [_ ?].
    + by apply Forall_app.
  - exists evs, (user_context st). done.
  - rewrite emit_returns. cbn [trace user_context].
    eexists (evs ++ [_]), (user_context st). split; [by rewrite (app_assoc (trace st))|].
    rewrite sent_app, Hsent. cbn. split; [done|].
    split; [by repeat constructor | done].
Qed.

(** X13: A request that is not one date or two dates is answered with one
    message and has no other effect: nothing is requested or classified
    and [user_context] keeps its value.  The message is the format hint
    when the number of words is not one or two, and otherwise shows the
    text of the exception. *)
Theorem rejected_request_only_replies (chat_id : Z) (text : pystr) (st : state) :
  request_dates (split_ws (strip text)) = None ->
  process_date_input exception_text chat_id text st
  = (Returned tt,
     State (trace st ++
              [EvSend chat_id
                 match split_ws (strip text) with
                 | [_] | [_; _] =>
                     u8 "Ошибка обработки ввода: <b>"
                     ++ exception_text (split_ws (strip text)) ++ u8 "</b>"
                 | _ => u8 "Неверный формат ввода. Пожалуйста, введите дату или диапазон дат в формате <b>ДД-ММ-ГГГГ</b>."
                 end])
           (user_context st)).
Proof.
  unfold process_date_input, request_dates.
  destruct (split_ws (strip text)) as [|part1 [|part2 [|part3 parts]]];
    intros Hbad; try reflexivity.
  - unfold collect_request.
    destruct (parse_date part1); [done | reflexivity].
  - unfold collect_request.
    destruct (parse_date part1); [|reflexivity].
    destruct (parse_date part2); [done | reflexivity].
Qed.

(** X14: The two dates of a range may be typed in either order: the handler
    does the same either way. *)
Theorem range_order_irrelevant (chat_id : Z) (text1 text2 p1 p2 : pystr)
    (d1 d2 : Z) (st : state) :
  split_ws (strip text1) = [p1; p2] ->
  split_ws (strip text2) = [p2; p1] ->
  parse_date p1 = Some d1 -> parse_date p2 = Some d2 ->
  process_date_input exception_text chat_id text1 st
  = process_date_input exception_text chat_id text2 st.
Proof.
  intros H1 H2 Hp1 Hp2. unfold process_date_input. rewrite H1, H2.
  assert (collect_request exception_text chat_id [p1; p2]
          = collect_request exception_text chat_id [p2; p1]) as ->; [|done].
  unfold collect_request. rewrite Hp1, Hp2.
  destruct (Z.ltb_spec d2 d1), (Z.ltb_spec d1 d2); try reflexivity; try lia.
  by replace d2 with d1 by lia.
Qed.

(** X15: When the page of the requested day cannot be fetched, the user gets
    the count 0 and the notice that nothing was found; [user_context] is
    not touched, so the buttons of an earlier request keep answering from
    the earlier batch. *)
Theorem failed_crawl_keeps_store (chat_id : Z) (text part e : pystr)
    (date_obj : Z) (st : state) :
  split_ws (strip text) = [part] ->
  parse_date part = Some date_obj ->
  requests_get (trace st) (day_url date_obj) = Raised e ->
  exists st',
    process_date_input exception_text chat_id text st = (Returned tt, st')
    /\ trace st'
       = trace st ++
         [ EvGet (day_url date_obj);
           EvLogError (u8 "Ошибка при получении " ++ day_url date_obj
                       ++ u8 ": " ++ e);
           EvSend chat_id (u8 "Найдено <b>" ++ str_of_int 0
                           ++ u8 "</b> новостей за <b>"
                           ++ isoformat date_obj ++ u8 "</b>.");
           EvSend chat_id
             (u8 "Новостей не найдено. Попробуйте другую дату или диапазон.") ]
    /\ user_context st' = user_context st
    /\ forall data,
         (callback_emotion chat_id data st').1 = (callback_emotion chat_id data st).1.
Proof.
  intros Hparts Hdate Hget. unfold process_date_input. rewrite Hparts.
  assert (get_news_for_day date_obj st
          = (Returned [],
             State (trace st ++
                      [EvGet (day_url date_obj);
                       EvLogError (u8 "Ошибка при получении " ++ day_url date_obj
                                   ++ u8 ": " ++ e)])
                   (user_context st))) as Hday.
  { unfold get_news_for_day. unfold_M. cbn [trace user_context].
    rewrite Hget. cbn [trace user_context]. by rewrite <- app_assoc. }
  match goal with |- context [attempt ?m] =>
    assert (exists st1,
              attempt m st = (Returned (Returned (Some [])), st1)
              /\ trace st1
                 = trace st ++
                   [EvGet (day_url date_obj);
                    EvLogError (u8 "Ошибка при получении " ++ day_url date_obj
                                ++ u8 ": " ++ e);
                    EvSend chat_id (u8 "Найдено <b>" ++ str_of_int 0
                                    ++ u8 "</b> новостей за <b>"
                                    ++ isoformat date_obj ++ u8 "</b>.")]
              /\ user_context st1 = user_context st)
      as (st1 & Hatt & Htr1 & Hctx1)
  end.
  { unfold attempt, collect_request. rewrite Hdate.
    rewrite (bind_returned _ _ _ _ _ Hday).
    rewrite (bind_returned _ _ _ _ _ (emit_returns _ _)).
    eexists. split; [reflexivity|]. cbn [trace user_context].
    split; [|done]. by rewrite <- app_assoc. }
  rewrite (bind_returned _ _ _ _ _ Hatt).
  assert (tag_and_store chat_id [] st1
          = (Returned None,
             State (trace st1 ++
                      [EvSend chat_id
                         (u8 "Новостей не найдено. Попробуйте другую дату или диапазон.")])
                   (user_context st1))) as Htag by reflexivity.
  rewrite (bind_returned _ _ _ _ _ Htag).
  eexists. split; [reflexivity|]. cbn [trace user_context].
  split; [|split; [done|]].
  - rewrite Htr1, <- app_assoc. reflexivity.
  - intros data. unfold callback_emotion. cbn [user_context].
    rewrite Hctx1. by destruct (after_underscore data).
Qed.
End HandlerFacts.

Lemma rejected_request_only_replies_witness :
  let text := u8 "завтра" in
  let exception_text := fun _ : list pystr =>
    u8 "invalid literal for int() with base 10" in
  request_dates (split_ws (strip text)) = None
  /\ @process_date_input offline_world exception_text 1 text initial_state
     = (Returned tt,
        State (trace initial_state ++
                 [EvSend 1
                    match split_ws (strip text) with
                    | [_] | [_; _] =>
                        u8 "Ошибка обработки ввода: <b>"
                        ++ exception_text (split_ws (strip text)) ++ u8 "</b>"
                    | _ => u8 "Неверный формат ввода. Пожалуйста, введите дату или диапазон дат в формате <b>ДД-ММ-ГГГГ</b>."
                    end])
              (user_context initial_state)).
Proof.
  intros text exception_text.
  assert (request_dates (split_ws (strip text)) = None) as Hbad
    by (vm_compute; reflexivity).
  split; [exact Hbad|].
  exact (@rejected_request_only_replies offline_world exception_text 1 text
           initial_state Hbad).
Defined.

Lemma range_order_irrelevant_witness :
  let text1 := u8 "01-03-2025 03-03-2025" in
  let text2 := u8 "03-03-2025  01-03-2025 " in
  let p1 := u8 "01-03-2025" in
  let p2 := u8 "03-03-2025" in
  let exception_text := fun _ : list pystr =>
    u8 "invalid literal for int() with base 10" in
  split_ws (strip text1) = [p1; p2]
  /\ split_ws (strip text2) = [p2; p1]
  /\ parse_date p1 = Some 739311 /\ parse_date p2 = Some 739313
  /\ @process_date_input offline_world exception_text 1 text1 initial_state
     = @process_date_input offline_world exception_text 1 text2 initial_state.
Proof.
  intros text1 text2 p1 p2 exception_text.
  assert (split_ws (strip text1) = [p1; p2]) as H1 by (vm_compute; reflexivity).
  assert (split_ws (strip text2) = [p2; p1]) as H2 by (vm_compute; reflexivity).
  assert (parse_date p1 = Some 739311) as H3 by (vm_compute; reflexivity).
  assert (parse_date p2 = Some 739313) as H4 by (vm_compute; reflexivity).
  split; [exact H1|]. split; [exact H2|]. split; [exact H3|]. split; [exact H4|].
  exact (@range_order_irrelevant offline_world exception_text 1 text1 text2 p1 p2
           739311 739313 initial_state H1 H2 H3 H4).
Defined.

Lemma failed_crawl_keeps_store_witness :
  let text := u8 " 03-03-2025" in
  let part := u8 "03-03-2025" in
  let e := u8 "connection refused" in
  let exception_text := fun _ : list pystr =>
    u8 "invalid literal for int() with base 10" in
  let st := State [] (<[1 := tagged_batch]> ∅) in
  split_ws (strip text) = [part]
  /\ parse_date part = Some 739313
  /\ @requests_get offline_world (trace st) (day_url 739313) = Raised e
  /\ exists st',
      @process_date_input offline_world exception_text 1 text st = (Returned tt, st')
      /\ trace st'
         = trace st ++
           [ EvGet (day_url 739313);
             EvLogError (u8 "Ошибка при получении " ++ day_url 739313
                         ++ u8 ": " ++ e);
             EvSend 1 (u8 "Найдено <b>" ++ str_of_int 0
                       ++ u8 "</b> новостей за <b>"
                       ++ isoformat 739313 ++ u8 "</b>.");
             EvSend 1
               (u8 "Новостей не найдено. Попробуйте другую дату или диапазон.") ]
      /\ user_context st' = user_context st
      /\ forall data,
           (@callback_emotion 1 data st').1 = (@callback_emotion 1 data st).1.
Proof.
  intros text part e exception_text st.
  assert (split_ws (strip text) = [part]) as H1 by (vm_compute; reflexivity).
  assert (parse_date part = Some 739313) as H2 by (vm_compute; reflexivity).
  split; [exact H1|]. split; [exact H2|]. split; [reflexivity|].
  exact (@failed_crawl_keeps_store offline_world exception_text 1 text part e
           739313 st H1 H2 eq_refl).
Defined.


(** ** Dates: from the text of a request to the page of a day *)

Section Dates.

Lemma is_leap_shift (y q : Z) : is_leap (y + 400 * q) = is_leap y.
Proof.
  unfold is_leap.
  replace ((y + 400 * q) mod 4) with (y mod 4)
    by (replace (y + 400 * q) with (y + (100 * q) * 4) by lia;
        by rewrite Z.mod_add).
  replace ((y + 400 * q) mod 100) with (y mod 100)
    by (replace (y + 400 * q) with (y + (4 * q) * 100) by lia;
        by rewrite Z.mod_add).
  replace ((y + 400 * q) mod 400) with (y mod 400)
    by (replace (y + 400 * q) with (y + q * 400) by lia;
        by rewrite Z.mod_add).
  done.
Qed.

Lemma days_before_year_shift (y q : Z) :
  days_before_year (y + 400 * q) = days_before_year y + 146097 * q.
Proof.
  unfold days_before_year. cbv zeta.
  replace ((y + 400 * q - 1) / 4) with ((y - 1) / 4 + 100 * q)
    by (replace (y + 400 * q - 1) with (y - 1 + (100 * q) * 4) by lia;
        by rewrite Z.div_add).
  replace ((y + 400 * q - 1) / 100) with ((y - 1) / 100 + 4 * q)
    by (replace (y + 400 * q - 1) with (y - 1 + (4 * q) * 100) by lia;
        by rewrite Z.div_add).
  replace ((y + 400 * q - 1) / 400) with ((y - 1) / 400 + q)
    by (replace (y + 400 * q - 1) with (y - 1 + q * 400) by lia;
        by rewrite Z.div_add).
  lia.
Qed.

Lemma days_in_month_shift (y q m : Z) :
  days_in_month (y + 400 * q) m = days_in_month y m.
Proof. unfold days_in_month. by rewrite is_leap_shift. Qed.

Lemma ymd2ord_shift (y q m d : Z) :
  ymd2ord (y + 400 * q) m d = ymd2ord y m d + 146097 * q.
Proof.
  unfold ymd2ord, days_before_month.
  rewrite days_before_year_shift, is_leap_shift. lia.
Qed.

Lemma ord2ymd_shift (n q : Z) :
  1 <= n <= 146097 ->
  ord2ymd (n + 146097 * q)
  = let '(y, m, d) := ord2ymd n in (y + 400 * q, m, d).
Proof.
  intros Hn. unfold ord2ymd. cbv zeta.
  replace ((n + 146097 * q - 1) / 146097) with q
    by (replace (n + 146097 * q - 1) with (n - 1 + q * 146097) by lia;
        rewrite Z.div_add by lia; rewrite Z.div_small; lia).
  replace ((n + 146097 * q - 1) mod 146097) with (n - 1)
    by (replace (n + 146097 * q - 1) with (n - 1 + q * 146097) by lia;
        rewrite Z.mod_add by lia; rewrite Z.mod_small; lia).
  replace ((n - 1) / 146097) with 0 by (rewrite Z.div_small; lia).
  replace ((n - 1) mod 146097) with (n - 1) by (rewrite Z.mod_small; lia).
  generalize (n - 1). clear n Hn. intros k.
  repeat match goal with
         | |- context [if ?b then _ else _] => destruct b
         end; f_equal; try f_equal; lia.
Qed.

(** [ord2ymd] on a day that is not the 366th of its year, given as the
    numbers of whole 100-year, 4-year and 1-year cycles before its year
    and the number [doy] of days before it in its year. *)
Lemma ord2ymd_decomposed (n100 n4 n1 doy : Z) :
  0 <= n100 <= 3 -> 0 <= n4 <= 24 -> 0 <= n1 <= 3 -> 0 <= doy <= 364 ->
  ord2ymd (n100 * 36524 + n4 * 1461 + n1 * 365 + doy + 1)
  = let leapyear := (n1 =? 3) && (negb (n4 =? 24) || (n100 =? 3)) in
    let month := Z.shiftr (doy + 50) 5 in
    let preceding :=
      nth (Z.to_nat month) DAYS_BEFORE_MONTH 0
      + (if (2 <? month) && leapyear then 1 else 0) in
    (1 + n100 * 100 + n4 * 4 + n1,
     if doy <? preceding then month - 1 else month,
     if doy <? preceding
     then doy - (preceding
                 - (nth (Z.to_nat (month - 1)) DAYS_IN_MONTH 0
                    + (if (month - 1 =? 2) && leapyear then 1 else 0))) + 1
     else doy - preceding + 1).
Proof.
  intros H100 H4 H1 Hdoy. unfold ord2ymd. cbv zeta.
  replace (n100 * 36524 + n4 * 1461 + n1 * 365 + doy + 1 - 1)
    with (n100 * 36524 + n4 * 1461 + n1 * 365 + doy) by lia.
  set (r2 := n1 * 365 + doy).
  set (r1 := n4 * 1461 + r2).
  replace (n100 * 36524 + n4 * 1461 + n1 * 365 + doy)
    with (r1 + n100 * 36524) by (unfold r1, r2; lia).
  assert (0 <= r2 < 1461) as Hr2 by (unfold r2; lia).
  assert (0 <= r1 < 36524) as Hr1 by (unfold r1; lia).
  replace ((r1 + n100 * 36524) / 146097) with 0
    by (symmetry; apply Z.div_small; lia).
  replace ((r1 + n100 * 36524) mod 146097) with (r1 + n100 * 36524)
    by (symmetry; apply Z.mod_small; lia).
  replace ((r1 + n100 * 36524) / 36524) with n100
    by (rewrite Z.div_add by lia; rewrite Z.div_small; lia).
  replace ((r1 + n100 * 36524) mod 36524) with r1
    by (rewrite Z.mod_add by lia; rewrite Z.mod_small; lia).
  replace (r1 / 1461) with n4
    by (unfold r1; rewrite (Z.add_comm (n4 * 1461)), Z.div_add by lia;
        rewrite Z.div_small; lia).
  replace (r1 mod 1461) with r2
    by (unfold r1; rewrite (Z.add_comm (n4 * 1461)), Z.mod_add by lia;
        rewrite Z.mod_small; lia).
  replace (r2 / 365) with n1
    by (unfold r2; rewrite (Z.add_comm (n1 * 365)), Z.div_add by lia;
        rewrite Z.div_small; lia).
  replace (r2 mod 365) with doy
    by (unfold r2; rewrite (Z.add_comm (n1 * 365)), Z.mod_add by lia;
        rewrite Z.mod_small; lia).
  replace ((n1 =? 4) || (n100 =? 4)) with false
    by (symmetry; apply orb_false_iff; split; apply Z.eqb_neq; lia).
  destruct (doy <? _); f_equal; try f_equal; lia.
Qed.

(** The last day of a leap year. *)
Lemma ord2ymd_leap_day (n100 n4 : Z) :
  0 <= n100 <= 3 -> 0 <= n4 <= 24 ->
  (negb (n4 =? 24) || (n100 =? 3)) = true ->
  ord2ymd (n100 * 36524 + n4 * 1461 + 3 * 365 + 365 + 1)
  = (1 + n100 * 100 + n4 * 4 + 3, 12, 31).
Proof.
  intros H100 H4 Hleap.
  assert (forallb (fun a =>
            forallb (fun b =>
               negb (negb (b =? 24) || (a =? 3))
               || match ord2ymd (a * 36524 + b * 1461 + 3 * 365 + 365 + 1) with
                  | (y, m, d) =>
                      (y =? 1 + a * 100 + b * 4 + 3) && (m =? 12) && (d =? 31)
                  end)
              (seqZ 0 25))
            (seqZ 0 4) = true) as Hall by (vm_compute; reflexivity).
  rewrite forallb_forall in Hall.
  specialize (Hall n100 ltac:(apply list_elem_of_In, elem_of_seqZ; lia)).
  rewrite forallb_forall in Hall.
  specialize (Hall n4 ltac:(apply list_elem_of_In, elem_of_seqZ; lia)).
  rewrite Hleap in Hall. cbn [negb orb] in Hall.
  destruct (ord2ymd _) as [[y m] d].
  apply andb_true_iff in Hall as [Hall Hd].
  apply andb_true_iff in Hall as [Hy Hm].
  apply Z.eqb_eq in Hy, Hm, Hd. by subst.
Qed.

(** The first day of each year of a 400-year cycle in whole cycles of
    100, 4 and 1 years, and its leap-year test in those terms. *)
Lemma year_start (y : Z) :
  1 <= y <= 400 ->
  let n100 := (y - 1) / 100 in
  let n4 := (y - 1) mod 100 / 4 in
  let n1 := (y - 1) mod 4 in
  days_before_year y = n100 * 36524 + n4 * 1461 + n1 * 365
  /\ is_leap y = (n1 =? 3) && (negb (n4 =? 24) || (n100 =? 3))
  /\ days_before_year y + 365 + (if is_leap y then 1 else 0)
     <= (if y <? 400 then 145731 else 146097).
Proof.
  intros Hy.
  assert (forallb (fun y =>
            let n100 := (y - 1) / 100 in
            let n4 := (y - 1) mod 100 / 4 in
            let n1 := (y - 1) mod 4 in
            (days_before_year y =? n100 * 36524 + n4 * 1461 + n1 * 365)
            && eqb (is_leap y) ((n1 =? 3) && (negb (n4 =? 24) || (n100 =? 3)))
            && (days_before_year y + 365 + (if is_leap y then 1 else 0)
                <=? (if y <? 400 then 145731 else 146097)))
            (seqZ 1 400) = true) as Hall by (vm_compute; reflexivity).
  rewrite forallb_forall in Hall.
  specialize (Hall y ltac:(apply list_elem_of_In, elem_of_seqZ; lia)).
  cbv zeta in *. apply andb_true_iff in Hall as [Hall Hle].
  apply andb_true_iff in Hall as [Hb Hl].
  apply Z.eqb_eq in Hb. apply eqb_prop in Hl. apply Z.leb_le in Hle. done.
Qed.

(** The month and the day that [ord2ymd] computes from the number of
    days before a day in its year. *)
Lemma month_day (leapyear : bool) (m d : Z) :
  1 <= m <= 12 ->
  1 <= d <= (if (m =? 2) && leapyear then 29
             else nth (Z.to_nat m) DAYS_IN_MONTH 0) ->
  let doy :=
    nth (Z.to_nat m) DAYS_BEFORE_MONTH 0
    + (if (2 <? m) && leapyear then 1 else 0) + d - 1 in
  let month := Z.shiftr (doy + 50) 5 in
  let preceding :=
    nth (Z.to_nat month) DAYS_BEFORE_MONTH 0
    + (if (2 <? month) && leapyear then 1 else 0) in
  0 <= doy <= 364 + (if leapyear then 1 else 0)
  /\ (doy = 365 -> m = 12 /\ d = 31)
  /\ (doy <= 364 ->
      (if doy <? preceding then month - 1 else month) = m
      /\ (if doy <? preceding
          then doy - (preceding
                      - (nth (Z.to_nat (month - 1)) DAYS_IN_MONTH 0
                         + (if (month - 1 =? 2) && leapyear then 1 else 0))) + 1
          else doy - preceding + 1) = d).
Proof.
  intros Hm Hd.
  assert (forallb (fun leapyear : bool =>
            forallb (fun m =>
              forallb (fun d =>
                let doy :=
                  nth (Z.to_nat m) DAYS_BEFORE_MONTH 0
                  + (if (2 <? m) && leapyear then 1 else 0) + d - 1 in
                let month := Z.shiftr (doy + 50) 5 in
                let preceding :=
                  nth (Z.to_nat month) DAYS_BEFORE_MONTH 0
                  + (if (2 <? month) && leapyear then 1 else 0) in
                (0 <=? doy) && (doy <=? 364 + (if leapyear then 1 else 0))
                && (negb (doy =? 365) || ((m =? 12) && (d =? 31)))
                && (negb (doy <=? 364)
                    || (((if doy <? preceding then month - 1 else month) =? m)
                        && ((if doy <? preceding
                             then doy - (preceding
                                         - (nth (Z.to_nat (month - 1)) DAYS_IN_MONTH 0
                                            + (if (month - 1 =? 2) && leapyear
                                               then 1 else 0))) + 1
                             else doy - preceding + 1) =? d))))
                (seqZ 1 (if (m =? 2) && leapyear then 29
                         else nth (Z.to_nat m) DAYS_IN_MONTH 0)))
              (seqZ 1 12))
            [false; true] = true) as Hall by (vm_compute; reflexivity).
  rewrite forallb_forall in Hall.
  specialize (Hall leapyear ltac:(destruct leapyear; cbn; tauto)).
  rewrite forallb_forall in Hall.
  specialize (Hall m ltac:(apply list_elem_of_In, elem_of_seqZ; lia)).
  rewrite forallb_forall in Hall.
  specialize (Hall d ltac:(apply list_elem_of_In, elem_of_seqZ; lia)).
  cbv zeta in *.
  apply andb_true_iff in Hall as [Hall Htail].
  apply andb_true_iff in Hall as [Hall Hlast].
  apply andb_true_iff in Hall as [H0 H364].
  apply Z.leb_le in H0, H364. split; [lia|]. split.
  - intros H365. rewrite H365 in Hlast. cbn in Hlast.
    apply andb_true_iff in Hlast as [?%Z.eqb_eq ?%Z.eqb_eq]. done.
  - intros Hle. apply Z.leb_le in Hle. rewrite Hle in Htail. cbn in Htail.
    apply andb_true_iff in Htail as [?%Z.eqb_eq ?%Z.eqb_eq]. done.
Qed.

Lemma ord2ymd_ymd2ord_cycle (y m d : Z) :
  1 <= y <= 400 -> 1 <= m <= 12 -> 1 <= d <= days_in_month y m ->
  ord2ymd (ymd2ord y m d) = (y, m, d)
  /\ 1 <= ymd2ord y m d <= 146097
  /\ (y < 400 -> ymd2ord y m d <= 145731).
Proof.
  intros Hy Hm Hd.
  destruct (year_start y Hy) as (Hb & Hl & Hnext). cbv zeta in Hb, Hl.
  unfold days_in_month in Hd.
  destruct (month_day (is_leap y) m d Hm Hd) as (Hdoy & H365 & Htail).
  cbv zeta in Hdoy, H365, Htail.
  set (n100 := (y - 1) / 100) in *.
  set (n4 := (y - 1) mod 100 / 4) in *.
  set (n1 := (y - 1) mod 4) in *.
  assert (0 <= n100 <= 3 /\ 0 <= n4 <= 24 /\ 0 <= n1 <= 3
          /\ y = 1 + n100 * 100 + n4 * 4 + n1) as (H100 & H4 & H1 & Hyear).
  { unfold n100, n4, n1. clear -Hy. Z.div_mod_to_equations. lia. }
  unfold ymd2ord, days_before_month.
  set (doy := nth (Z.to_nat m) DAYS_BEFORE_MONTH 0
              + (if (2 <? m) && is_leap y then 1 else 0) + d - 1) in *.
  replace (days_before_year y
           + (nth (Z.to_nat m) DAYS_BEFORE_MONTH 0
              + (if (2 <? m) && is_leap y then 1 else 0)) + d)
    with (days_before_year y + doy + 1) by (unfold doy; lia).
  split; [|split].
  - rewrite Hb. destruct (decide (doy = 365)) as [Hlast|Hnot].
    + destruct (H365 Hlast) as [-> ->]. rewrite Hlast.
      assert (is_leap y = true) as Hleap by (destruct (is_leap y); [done | lia]).
      rewrite Hl in Hleap. apply andb_true_iff in Hleap as [Hn1 Hcent].
      apply Z.eqb_eq in Hn1. rewrite Hn1 in *.
      rewrite (ord2ymd_leap_day n100 n4 H100 H4 Hcent). f_equal. f_equal. lia.
    + assert (0 <= doy <= 364) as Hdoy'
        by (destruct (is_leap y); lia).
      rewrite (ord2ymd_decomposed n100 n4 n1 doy H100 H4 H1 Hdoy').
      cbv zeta. rewrite <- Hl.
      destruct (Htail ltac:(lia)) as [-> ->]. by rewrite <- Hyear.
  - assert (0 <= days_before_year y) by (rewrite Hb; lia).
    destruct (y <? 400), (is_leap y); lia.
  - intros Hlt. destruct (Z.ltb_spec y 400); [|lia].
    destruct (is_leap y); lia.
Qed.

(** Year, month and day of the ordinal of a calendar date are that
    date. *)
Lemma ord2ymd_ymd2ord (y m d : Z) :
  1 <= y -> 1 <= m <= 12 -> 1 <= d <= days_in_month y m ->
  ord2ymd (ymd2ord y m d) = (y, m, d).
Proof.
  intros Hy Hm Hd.
  set (q := (y - 1) / 400). set (y0 := y - 400 * q).
  assert (1 <= y0 <= 400) as Hy0
    by (unfold y0, q; Z.div_mod_to_equations; lia).
  replace y with (y0 + 400 * q) in * by (unfold y0; lia).
  rewrite days_in_month_shift in Hd.
  destruct (ord2ymd_ymd2ord_cycle y0 m d Hy0 Hm Hd) as (Hrt & Hrange & _).
  rewrite ymd2ord_shift, (ord2ymd_shift _ q Hrange), Hrt. done.
Qed.

(** The ordinal of a date of the years 1 to 9999 is a valid date. *)
Lemma ymd2ord_valid (y m d : Z) :
  valid_ymd y m d -> 1 <= ymd2ord y m d <= MAXORDINAL.
Proof.
  intros ((Hy1 & Hy2) & Hm & Hd).
  set (q := (y - 1) / 400). set (y0 := y - 400 * q).
  assert (1 <= y0 <= 400 /\ 0 <= q <= 24 /\ (q = 24 -> y0 < 400))
    as (Hy0 & Hq & Hq24)
    by (unfold y0, q; Z.div_mod_to_equations; lia).
  replace y with (y0 + 400 * q) in * by (unfold y0; lia).
  rewrite days_in_month_shift in Hd.
  destruct (ord2ymd_ymd2ord_cycle y0 m d Hy0 Hm Hd) as (_ & Hrange & Hlast).
  rewrite ymd2ord_shift. unfold MAXORDINAL.
  destruct (decide (q = 24)) as [->|Hne]; [specialize (Hlast (Hq24 eq_refl))|];
    lia.
Qed.

(** *** Numbers written in ASCII digits *)

Lemma ascii_digit (a : Z) :
  0 <= a <= 9 ->
  int_space (48 + a) = false /\ digit_value (48 + a) = Some a.
Proof.
  intros Ha.
  assert (forallb (fun a => negb (int_space (48 + a))
                            && bool_decide (digit_value (48 + a) = Some a))
            (seqZ 0 10) = true) as Hall by (vm_compute; reflexivity).
  rewrite forallb_forall in Hall.
  specialize (Hall a ltac:(apply list_elem_of_In, elem_of_seqZ; lia)).
  apply andb_true_iff in Hall as [Hsp Hd].
  apply negb_true_iff in Hsp. by apply bool_decide_eq_true in Hd.
Qed.

Lemma int_digits_ascii (ds : list Z) :
  forall acc : Z,
    Forall (fun a => 0 <= a <= 9) ds ->
    int_digits acc (Z.add 48 <$> ds)
    = Some (foldl (fun acc a => acc * 10 + a) acc ds).
Proof.
  induction ds as [|a ds IH]; intros acc Hds; [done|].
  apply Forall_cons in Hds as [Ha Hds]. cbn [fmap list_fmap int_digits foldl].
  destruct (Z.eqb_spec (48 + a) 95) as [?|_]; [lia|].
  rewrite (proj2 (ascii_digit a Ha)). by apply IH.
Qed.

Lemma drop_int_space_digit (a : Z) (s : pystr) :
  0 <= a <= 9 -> drop_int_space ((48 + a) :: s) = (48 + a) :: s.
Proof.
  intros Ha. cbn [drop_int_space]. by rewrite (proj1 (ascii_digit a Ha)).
Qed.

Lemma drop_int_space_digits (ds : list Z) :
  Forall (fun a => 0 <= a <= 9) ds ->
  drop_int_space (Z.add 48 <$> ds) = Z.add 48 <$> ds.
Proof.
  destruct ds as [|a ds]; [done|]. intros [Ha _]%Forall_cons.
  by apply drop_int_space_digit.
Qed.

Lemma rstrip_int_space_digits (ds : list Z) :
  Forall (fun a => 0 <= a <= 9) ds ->
  rev (drop_int_space (rev (Z.add 48 <$> ds))) = Z.add 48 <$> ds.
Proof.
  destruct ds as [|z ds _] using rev_ind; [done|].
  intros [_ [Hz _]%Forall_cons]%Forall_app.
  rewrite fmap_app, rev_app_distr. cbn [fmap list_fmap rev app].
  rewrite (drop_int_space_digit z _ Hz).
  cbn [rev]. by rewrite rev_involutive.
Qed.

(** [int] of a string of at most 4300 ASCII digits is the number that
    the digits denote. *)
Lemma int_of_str_digits (ds : list Z) :
  ds <> [] -> (length ds <= int_max_str_digits)%nat ->
  Forall (fun a => 0 <= a <= 9) ds ->
  int_of_str (Z.add 48 <$> ds)
  = Some (foldl (fun acc a => acc * 10 + a) 0 ds).
Proof.
  intros Hne Hlen Hds. unfold int_of_str.
  rewrite (drop_int_space_digits ds Hds), (rstrip_int_space_digits ds Hds).
  destruct ds as [|a ds]; [done|].
  apply Forall_cons in Hds as [Ha Hds]. cbn [fmap list_fmap].
  destruct (Z.eqb_spec (48 + a) 43) as [?|_]; [lia|].
  destruct (Z.eqb_spec (48 + a) 45) as [?|_]; [lia|].
  unfold int_unsigned.
  match goal with
  | |- context [(?x <? ?y)%nat] => destruct (Nat.ltb_spec x y) as [Hlong|_]
  end.
  - match type of Hlong with
    | (_ < length (List.filter ?f ?l))%nat =>
        pose proof (List.filter_length_le f l) as Hle
    end.
    cbn [length] in Hle, Hlen. rewrite length_fmap in Hle.
    unfold char in *. lia.
  - rewrite (proj2 (ascii_digit a Ha)).
    rewrite (int_digits_ascii ds a Hds). cbn [foldl].
    by replace (0 * 10 + a) with a by lia.
Qed.

Lemma split_char_app (sep : char) (a rest : pystr) :
  sep ∉ a -> split_char sep (a ++ sep :: rest) = a :: split_char sep rest.
Proof.
  induction a as [|c a IH]; intros Hsep; cbn [app split_char].
  - by rewrite Z.eqb_refl.
  - apply not_elem_of_cons in Hsep as [Hc Ha].
    destruct (Z.eqb_spec c sep) as [?|_]; [congruence|].
    by rewrite (IH Ha).
Qed.

Lemma split_char_none (sep : char) (a : pystr) :
  sep ∉ a -> split_char sep a = [a].
Proof.
  induction a as [|c a IH]; intros Hsep; cbn [split_char]; [done|].
  apply not_elem_of_cons in Hsep as [Hc Ha].
  destruct (Z.eqb_spec c sep) as [?|_]; [congruence|].
  by rewrite (IH Ha).
Qed.

Lemma digits_no_hyphen (ds : list Z) :
  Forall (fun a => 0 <= a <= 9) ds -> 45 ∉ Z.add 48 <$> ds.
Proof.
  intros Hds Hin. apply list_elem_of_fmap in Hin as (a & Heq & Hin).
  rewrite Forall_forall in Hds. specialize (Hds a Hin). lia.
Qed.

(** The decimal digits of a number below 10000. *)
Lemma str_of_int_small (n : Z) :
  0 <= n <= 9999 ->
  str_of_int n
  = if n <? 10 then [48 + n]
    else if n <? 100 then [48 + n / 10; 48 + n mod 10]
    else if n <? 1000 then [48 + n / 100; 48 + n / 10 mod 10; 48 + n mod 10]
    else [48 + n / 1000; 48 + n / 100 mod 10; 48 + n / 10 mod 10; 48 + n mod 10].
Proof.
  intros Hn. unfold str_of_int. destruct (Z.ltb_spec n 0); [lia|].
  rewrite Nat.add_1_r. destruct (Z.ltb_spec n 10) as [H10|H10].
  - cbn [digits_fuel]. destruct (Z.ltb_spec n 10); [|lia].
    f_equal. f_equal. by apply Z.mod_small.
  - assert (3 <= Z.log2 n) as Hlog
      by (apply Z.log2_le_pow2; [lia | change (2 ^ 3) with 8; lia]).
    destruct (Z.to_nat (Z.log2 n)) as [|[|[|k]]] eqn:Hk; [lia | lia | lia |].
    cbn [digits_fuel].
    destruct (Z.ltb_spec n 10); [lia|].
    assert (n / 10 / 10 = n / 100) as E2
      by (rewrite Z.div_div by lia; reflexivity).
    assert (n / 10 / 10 / 10 = n / 1000) as E3
      by (rewrite E2, Z.div_div by lia; reflexivity).
    rewrite E3, E2.
    destruct (Z.ltb_spec (n / 10) 10), (Z.ltb_spec n 100);
      try (exfalso; Z.div_mod_to_equations; lia).
    + repeat f_equal. Z.div_mod_to_equations; lia.
    + destruct (Z.ltb_spec (n / 100) 10), (Z.ltb_spec n 1000);
        try (exfalso; Z.div_mod_to_equations; lia).
      * repeat f_equal. Z.div_mod_to_equations; lia.
      * destruct (Z.ltb_spec (n / 1000) 10);
          [|exfalso; Z.div_mod_to_equations; lia].
        repeat f_equal. Z.div_mod_to_equations; lia.
Qed.

Lemma pad0_4_digits (n : Z) :
  0 <= n <= 9999 ->
  pad0 4 n = Z.add 48 <$> [n / 1000; n / 100 mod 10; n / 10 mod 10; n mod 10].
Proof.
  intros Hn. unfold pad0. rewrite (str_of_int_small n Hn).
  destruct (Z.ltb_spec n 10); [|destruct (Z.ltb_spec n 100);
    [|destruct (Z.ltb_spec n 1000)]];
    cbn [length Nat.sub replicate app fmap list_fmap];
    repeat f_equal; Z.div_mod_to_equations; lia.
Qed.

Lemma pad0_2_digits (n : Z) :
  0 <= n <= 99 -> pad0 2 n = Z.add 48 <$> [n / 10; n mod 10].
Proof.
  intros Hn. unfold pad0. rewrite (str_of_int_small n ltac:(lia)).
  destruct (Z.ltb_spec n 10); [|destruct (Z.ltb_spec n 100); [|lia]];
    cbn [length Nat.sub replicate app fmap list_fmap];
    repeat f_equal; Z.div_mod_to_equations; lia.
Qed.

Lemma pad02_pad0 (n : Z) : 0 <= n <= 99 -> pad02 n = pad0 2 n.
Proof.
  intros Hn. unfold pad02, pad0. rewrite (str_of_int_small n ltac:(lia)).
  destruct (Z.ltb_spec n 10); [|destruct (Z.ltb_spec n 100); [|lia]]; done.
Qed.

Lemma int_of_pad0_4 (n : Z) :
  0 <= n <= 9999 -> int_of_str (pad0 4 n) = Some n /\ 45 ∉ pad0 4 n.
Proof.
  intros Hn. rewrite (pad0_4_digits n Hn).
  assert (Forall (fun a => 0 <= a <= 9)
            [n / 1000; n / 100 mod 10; n / 10 mod 10; n mod 10]) as Hds
    by (repeat constructor; Z.div_mod_to_equations; lia).
  split; [|by apply digits_no_hyphen].
  rewrite int_of_str_digits; [|done|unfold int_max_str_digits; cbn; lia|done].
  cbn [foldl]. f_equal. Z.div_mod_to_equations; lia.
Qed.

Lemma int_of_pad0_2 (n : Z) :
  0 <= n <= 99 -> int_of_str (pad0 2 n) = Some n /\ 45 ∉ pad0 2 n.
Proof.
  intros Hn. rewrite (pad0_2_digits n Hn).
  assert (Forall (fun a => 0 <= a <= 9) [n / 10; n mod 10]) as Hds
    by (repeat constructor; Z.div_mod_to_equations; lia).
  split; [|by apply digits_no_hyphen].
  rewrite int_of_str_digits; [|done|unfold int_max_str_digits; cbn; lia|done].
  cbn [foldl]. f_equal. Z.div_mod_to_equations; lia.
Qed.

Lemma make_date_Some (year month day date_obj : Z) :
  make_date year month day = Some date_obj ->
  valid_ymd year month day /\ date_obj = ymd2ord year month day.
Proof.
  unfold make_date, valid_ymd.
  destruct (_ && _) eqn:Hok; [|done]. intros [= <-].
  repeat (apply andb_true_iff in Hok as [Hok ?]).
  split; [lia | done].
Qed.

Lemma make_date_valid (year month day : Z) :
  valid_ymd year month day ->
  make_date year month day = Some (ymd2ord year month day).
Proof.
  unfold make_date, valid_ymd. intros (Hy & Hm & Hd).
  replace (_ && _) with true; [done|]. symmetry.
  repeat (apply andb_true_iff; split); lia.
Qed.

Lemma make_date_invalid (year month day : Z) :
  ~ valid_ymd year month day -> make_date year month day = None.
Proof.
  intros Hbad. destruct (make_date year month day) as [date_obj|] eqn:Hd;
    [|done].
  by apply make_date_Some in Hd as [? _].
Qed.

(** Reading a date typed with two, two and four digits is making the
    date of the three numbers. *)
Lemma parse_typed_date (year month day : Z) :
  0 <= year <= 9999 -> 0 <= month <= 99 -> 0 <= day <= 99 ->
  parse_date (typed_date year month day) = make_date year month day.
Proof.
  intros Hy Hm Hd.
  destruct (int_of_pad0_4 year Hy) as [Hiy Hny].
  destruct (int_of_pad0_2 month Hm) as [Him Hnm].
  destruct (int_of_pad0_2 day Hd) as [Hid Hnd].
  unfold parse_date, typed_date.
  change (u8 "-") with [45]. cbn [app].
  rewrite (split_char_app 45 _ _ Hnd), (split_char_app 45 _ _ Hnm),
    (split_char_none 45 _ Hny).
  rewrite Hid, Him, Hiy. done.
Qed.
End Dates.

Section DatesOfRequests.

(** X16: A part of a request that is accepted as a date has three fields
    between hyphens that [int] reads as day, month and year of a calendar
    date of the years 1 to 9999; the page requested for it is the page of
    that year, month and day, and the date shown in the reply is that
    date. *)
Theorem parsed_date_is_requested (part : pystr) (date_obj : Z) :
  parse_date part = Some date_obj ->
  exists a b c day month year,
    split_char 45 part = [a; b; c]
    /\ int_of_str a = Some day /\ int_of_str b = Some month
    /\ int_of_str c = Some year
    /\ valid_ymd year month day
    /\ 1 <= date_obj <= MAXORDINAL
    /\ ord2ymd date_obj = (year, month, day)
    /\ day_url date_obj
       = BASE_URL ++ u8 "/news/" ++ str_of_int year ++ u8 "/"
           ++ pad02 month ++ u8 "/" ++ pad02 day ++ u8 "/"
    /\ isoformat date_obj
       = pad0 4 year ++ u8 "-" ++ pad0 2 month ++ u8 "-" ++ pad0 2 day.
Proof.
  unfold parse_date.
  destruct (split_char 45 part) as [|a [|b [|c [|? ?]]]]; try done.
  destruct (int_of_str a) as [day|] eqn:Ha; [|done].
  destruct (int_of_str b) as [month|] eqn:Hb; [|done].
  destruct (int_of_str c) as [year|] eqn:Hc; [|done].
  cbn. intros [Hvalid ->]%make_date_Some.
  pose proof Hvalid as (Hy & Hm & Hd).
  pose proof (ord2ymd_ymd2ord year month day ltac:(lia) Hm Hd) as Hrt.
  exists a, b, c, day, month, year.
  repeat (split; [done|]). split; [by apply ymd2ord_valid|].
  split; [done|]. unfold day_url, isoformat. by rewrite Hrt.
Qed.

(** X17: A date typed the way the help message asks for, [DD-MM-YYYY] with two,
    two and four digits, is accepted exactly when it is a calendar date of
    the years 1 to 9999, leap years included. *)
Theorem typed_date_accepted_iff_calendar (year month day : Z) :
  0 <= year <= 9999 -> 0 <= month <= 99 -> 0 <= day <= 99 ->
  (valid_ymd year month day ->
     parse_date (typed_date year month day)
     = Some (ymd2ord year month day))
  /\ (~ valid_ymd year month day ->
        parse_date (typed_date year month day) = None).
Proof.
  intros Hy Hm Hd. rewrite (parse_typed_date year month day Hy Hm Hd).
  split; [apply make_date_valid | apply make_date_invalid].
Qed.
End DatesOfRequests.

Lemma parsed_date_is_requested_witness :
  let part := u8 "3-03-2025" in
  parse_date part = Some 739313
  /\ exists a b c day month year,
      split_char 45 part = [a; b; c]
      /\ int_of_str a = Some day /\ int_of_str b = Some month
      /\ int_of_str c = Some year
      /\ valid_ymd year month day
      /\ 1 <= 739313 <= MAXORDINAL
      /\ ord2ymd 739313 = (year, month, day)
      /\ day_url 739313
         = BASE_URL ++ u8 "/news/" ++ str_of_int year ++ u8 "/"
             ++ pad02 month ++ u8 "/" ++ pad02 day ++ u8 "/"
      /\ isoformat 739313
         = pad0 4 year ++ u8 "-" ++ pad0 2 month ++ u8 "-" ++ pad0 2 day.
Proof.
  intros part.
  assert (parse_date part = Some 739313) as Hp by (vm_compute; reflexivity).
  split; [exact Hp|]. exact (parsed_date_is_requested part 739313 Hp).
Defined.

Lemma typed_date_accepted_iff_calendar_witness :
  0 <= 2024 <= 9999 /\ 0 <= 2 <= 99 /\ 0 <= 29 <= 99
  /\ (valid_ymd 2024 2 29 ->
        parse_date (typed_date 2024 2 29) = Some (ymd2ord 2024 2 29))
  /\ (~ valid_ymd 2024 2 29 -> parse_date (typed_date 2024 2 29) = None).
Proof.
  split; [lia|]. split; [lia|]. split; [lia|].
  apply (typed_date_accepted_iff_calendar 2024 2 29); lia.
Defined.


(** ** The date range, day by day *)

Section DayByDay.
Context `{W : World}.

Lemma od_set_new {V : Type} (k : Z) (v : V) (d : list (Z * V)) :
  k ∉ od_keys d -> od_set k v d = d ++ [(k, v)].
Proof.
  unfold od_keys. induction d as [|[k' v'] d IH]; cbn; [done|].
  intros [Hne Hd]%not_elem_of_cons. rewrite decide_False by done.
  by rewrite IH.
Qed.

Lemma range_loop_day_by_day (fuel : nat) :
  forall (current end_date : Z) (acc : list (Z * list news)) (st : state),
    end_date < MAXORDINAL ->
    (Z.to_nat (end_date - current + 1) <= fuel)%nat ->
    (forall k, k ∈ od_keys acc -> k < current) ->
    range_loop fuel current end_date acc st
    = (rest ← crawl_days (seqZ current (end_date - current + 1));
       mret (acc ++ rest)) st.
Proof.
  induction fuel as [|fuel IH]; intros current end_date acc st Hmax Hfuel Hacc;
    cbn [range_loop]; destruct (Z.leb_spec current end_date) as [Hc|Hc];
    try lia.
  - rewrite seqZ_nil by lia. cbn. unfold_M. by rewrite app_nil_r.
  - rewrite (seqZ_cons current) by lia. cbn [crawl_days].
    destruct (get_news_for_day_returns current st) as (l & st1 & Hday).
    rewrite (bind_returned _ _ _ _ _ Hday).
    rewrite (bind_returned _ _ _ _ _ (date_add_day_ok current st1 ltac:(lia))).
    rewrite IH; [|lia|lia|].
    + replace (end_date - (current + 1) + 1)
        with (Z.pred (end_date - current + 1)) by lia.
      replace (Z.succ current) with (current + 1) by lia.
      rewrite od_set_new by (intros Hin; specialize (Hacc _ Hin); lia).
      unfold mbind, M_bind, mret, M_ret. rewrite Hday.
      destruct (crawl_days _ st1) as [[rest|e] st2]; [|done].
      by rewrite <- app_assoc.
    + intros k Hin. apply od_keys_set_elem in Hin as [->|Hin]; [lia|].
      specialize (Hacc _ Hin). lia.
  - rewrite seqZ_nil by lia. cbn. unfold_M. by rewrite app_nil_r.
Qed.

(** X19: For a range that ends before 9999-12-31, the loop with its dictionary
    does what crawling the days one after the other does: the result
    lists every day from the first to the last, in order, with the news
    that [get_news_for_day] returned for it at its turn, and the state at
    the end is the same.  No assignment overwrites an earlier day. *)
Theorem date_range_is_day_by_day (start_date end_date : Z) (st : state) :
  end_date < MAXORDINAL ->
  get_news_for_date_range start_date end_date st
  = crawl_days (seqZ start_date (end_date - start_date + 1)) st.
Proof.
  intros Hmax. unfold get_news_for_date_range.
  rewrite range_loop_day_by_day; [|done|lia|by intros k ?%elem_of_nil].
  unfold mbind, M_bind, mret, M_ret.
  by destruct (crawl_days _ st) as [[rest|e] st'].
Qed.
End DayByDay.

Lemma date_range_is_day_by_day_witness :
  739314 < MAXORDINAL
  /\ @get_news_for_date_range one_page_world 739313 739314 initial_state
     = @crawl_days one_page_world (seqZ 739313 (739314 - 739313 + 1)) initial_state.
Proof.
  assert (739314 < MAXORDINAL) as Hmax by (vm_compute; reflexivity).
  split; [exact Hmax|].
  exact (@date_range_is_day_by_day one_page_world 739313 739314 initial_state Hmax).
Defined.

(** ** The progress shown while tagging *)

Section ProgressShown.

Lemma progress_percent_ends (t : Z) :
  0 < t <= 100 ->
  forall dn : bool,
    progress_percent (Progress 0 t dn) = 0
    /\ progress_percent (Progress t t dn) = 100.
Proof.
  intros Ht dn.
  assert (forallb (fun t =>
            (progress_percent (Progress 0 t false) =? 0)
            && (progress_percent (Progress t t false) =? 100))
            (seqZ 1 100) = true) as Hall by (vm_compute; reflexivity).
  rewrite forallb_forall in Hall.
  specialize (Hall t ltac:(apply list_elem_of_In, elem_of_seqZ; lia)).
  apply andb_true_iff in Hall as [H0%Z.eqb_eq H100%Z.eqb_eq]. done.
Qed.

(** X20: With up to 100 items, the percentage that the reporter computes stays
    between 0 and 100 and is 100 exactly when every item is done; the
    bar made from it has ten segments, all of them filled exactly when
    every item is done. *)
Theorem progress_full_only_when_done (p : progress) :
  0 <= count p <= total p -> 0 < total p <= 100 ->
  0 <= progress_percent p <= 100
  /\ (progress_percent p = 100 <-> count p = total p)
  /\ exists filled : nat,
       format_progress (progress_percent p)
       = replicate filled 128309 ++ replicate (10 - filled) 9898
           ++ u8 " " ++ str_of_int (progress_percent p) ++ u8 "%"
       /\ (filled <= 10)%nat
       /\ (filled = 10%nat <-> count p = total p).
Proof.
  intros Hc Ht.
  pose proof (progress_percent_near_floor p Hc ltac:(lia)) as Hnear.
  destruct p as [c t dn]. cbn [count total] in *.
  destruct (progress_percent_ends t Ht dn) as [H0 H100].
  unfold floor_percent in Hnear. cbn [count total] in Hnear.
  destruct (Z.ltb_spec 0 t) as [_|?]; [|lia].
  assert (0 <= progress_percent (Progress c t dn) <= 100
          /\ (progress_percent (Progress c t dn) = 100 <-> c = t))
    as [Hrange Hfull].
  { destruct (decide (c = t)) as [->|Hne]; [rewrite H100; lia|].
    assert (c * 100 / t < 100) by (apply Z.div_lt_upper_bound; lia).
    destruct (decide (c = 0)) as [->|Hpos]; [rewrite H0; lia|].
    assert (1 <= c * 100 / t) by (apply Z.div_le_lower_bound; lia).
    lia. }
  split; [exact Hrange|]. split; [exact Hfull|].
  destruct (format_progress_segments _ Hrange)
    as (filled & empty & Hbar & Hfilled & Hten).
  exists filled. replace (10 - filled)%nat with empty by lia.
  split; [exact Hbar|]. split; [lia|].
  rewrite <- Hfull. split.
  - intros ->. change (Z.of_nat 10) with 10 in Hfilled.
    symmetry in Hfilled. Z.div_mod_to_equations. lia.
  - intros E. rewrite E in Hfilled. change (100 / 10) with 10 in Hfilled. lia.
Qed.
End ProgressShown.

Lemma progress_full_only_when_done_witness :
  let p := Progress 29 100 false in
  0 <= count p <= total p /\ 0 < total p <= 100
  /\ 0 <= progress_percent p <= 100
  /\ (progress_percent p = 100 <-> count p = total p)
  /\ exists filled : nat,
       format_progress (progress_percent p)
       = replicate filled 128309 ++ replicate (10 - filled) 9898
           ++ u8 " " ++ str_of_int (progress_percent p) ++ u8 "%"
       /\ (filled <= 10)%nat
       /\ (filled = 10%nat <-> count p = total p).
Proof.
  intros p.
  assert (0 <= count p <= total p) as Hc by (cbn; lia).
  assert (0 < total p <= 100) as Ht by (cbn; lia).
  split; [exact Hc|]. split; [exact Ht|].
  exact (progress_full_only_when_done p Hc Ht).
Defined.


(** ** The batch of a date range *)

Section RangeBatch.
Context `{W : World}.
Variable exception_text : list pystr -> pystr.

Lemma sorted_app {A : Type} (R : relation A) (l1 l2 : list A) :
  (forall x1 x2, x1 ∈ l1 -> x2 ∈ l2 -> R x1 x2) ->
  StronglySorted R l1 -> StronglySorted R l2 ->
  StronglySorted R (l1 ++ l2).
Proof.
  intros Hcross H1 H2. induction H1 as [|x l1 Hl1 IH Hx]; [done|].
  cbn. constructor.
  - apply IH. intros x1 x2 Hin1 Hin2. apply Hcross; [by right | done].
  - apply Forall_app. split; [done|].
    apply Forall_forall. intros x2 Hin2. apply Hcross; [by left | done].
Qed.

Lemma seqZ_sorted (n : nat) :
  forall m : Z, StronglySorted Z.lt (seqZ m (Z.of_nat n)).
Proof.
  induction n as [|n IH]; intros m.
  - rewrite seqZ_nil by lia. constructor.
  - rewrite seqZ_cons by lia.
    replace (Z.pred (Z.of_nat (S n))) with (Z.of_nat n) by lia.
    constructor; [apply IH|]. apply Forall_seqZ. lia.
Qed.

Lemma aggregate_cons (d : Z) (l : list news) (m : list (Z * list news)) :
  aggregate ((d, l) :: m) = (with_date d <$> l) ++ aggregate m.
Proof. reflexivity. Qed.

Lemma dates_of_day (d : Z) (l : list news) :
  omap date (with_date d <$> l) = replicate (length l) d.
Proof. induction l as [|item l IH]; cbn; [done | by rewrite IH]. Qed.

Lemma aggregate_dates (m : list (Z * list news)) (d : Z) :
  d ∈ omap date (aggregate m) -> d ∈ od_keys m.
Proof.
  induction m as [|[k l] m IH]; [done|].
  rewrite aggregate_cons, omap_app, dates_of_day, elem_of_app.
  intros [Hin|Hin].
  - apply elem_of_replicate in Hin as [-> _]. by left.
  - right. by apply IH.
Qed.

(** With the days in increasing order, the dates of the batch never go
    back. *)
Lemma aggregate_sorted (m : list (Z * list news)) :
  StronglySorted Z.lt (od_keys m) ->
  StronglySorted Z.le (omap date (aggregate m)).
Proof.
  induction m as [|[k l] m IH]; [constructor|].
  intros Hsorted. inversion Hsorted as [|? ? Hm Hk]; subst.
  rewrite aggregate_cons, omap_app, dates_of_day.
  apply sorted_app; [| |by apply IH].
  - intros x1 x2 [-> _]%elem_of_replicate Hin%aggregate_dates.
    rewrite Forall_forall in Hk. specialize (Hk x2 Hin). lia.
  - generalize (length l). intros n. induction n as [|n IHn]; cbn;
      constructor; [done|].
    apply Forall_forall. intros x [-> _]%elem_of_replicate. lia.
Qed.

Lemma aggregate_elem (m : list (Z * list news)) (item : news) :
  item ∈ aggregate m ->
  exists d l item0, (d, l) ∈ m /\ item0 ∈ l /\ item = with_date d item0.
Proof.
  induction m as [|[k l] m IH]; [by intros ?%elem_of_nil|].
  rewrite aggregate_cons, elem_of_app. intros [Hin|Hin].
  - apply list_elem_of_fmap in Hin as (item0 & -> & Hin).
    exists k, l, item0. split; [by left | done].
  - destruct (IH Hin) as (d & l' & item0 & Hm & Hl & ->).
    exists d, l', item0. split; [by right | done].
Qed.

Lemma aggregate_flat_map (m : list (Z * list news)) :
  aggregate m
  = flat_map (fun entry : Z * list news =>
                map (fun item => News (headline item) (url item) (Some entry.1)
                                   (combined_text item) (predicted_emotion item))
                    entry.2) m.
Proof.
  induction m as [|[d l] m IH]; [done|].
  rewrite aggregate_cons, IH. cbn [flat_map fst snd]. f_equal; clear.
  all: induction l as [|item l IHl]; [done|]; cbn; by rewrite <- IHl.
Qed.

(** X18: For two dates in either order, the later of them before
    9999-12-31, the batch of the range is what crawling the days from
    the earlier to the later date, one after the other from the state of
    the request, returns: for every day in order, the items that
    [get_news_for_day] returned for it at its turn, in their order, each
    with the date of its day added and nothing else changed.  After the
    crawl one message with the two dates in order is sent.  So every
    item of the batch carries a date of the range, and the dates in the
    batch never go back. *)
Theorem range_batch_dated_in_order (chat_id : Z) (p1 p2 : pystr) (d1 d2 : Z)
    (st : state) :
  parse_date p1 = Some d1 -> parse_date p2 = Some d2 ->
  Z.max d1 d2 < MAXORDINAL ->
  exists m st1 batch,
    crawl_days (seqZ (Z.min d1 d2) (Z.max d1 d2 - Z.min d1 d2 + 1)) st
    = (Returned m, st1)
    /\ m.*1 = seqZ (Z.min d1 d2) (Z.max d1 d2 - Z.min d1 d2 + 1)
    /\ batch
       = flat_map (fun entry : Z * list news =>
                     map (fun item =>
                            News (headline item) (url item) (Some entry.1)
                              (combined_text item) (predicted_emotion item))
                         entry.2) m
    /\ collect_request exception_text chat_id [p1; p2] st
       = (Returned (Some batch),
          State (trace st1 ++
                   [EvSend chat_id
                      (u8 "Обработано новостей за период <b>"
                       ++ isoformat (Z.min d1 d2) ++ u8 "</b> - <b>"
                       ++ isoformat (Z.max d1 d2) ++ u8 "</b>.")])
                (user_context st1))
    /\ Forall (fun item =>
                 exists d, date item = Some d
                           /\ Z.min d1 d2 <= d <= Z.max d1 d2) batch
    /\ StronglySorted Z.le (omap date batch).
Proof.
  intros Hp1 Hp2 Hmax.
  destruct (date_range_keys (Z.min d1 d2) (Z.max d1 d2) st ltac:(lia) Hmax)
    as (m & st1 & Hrun & Hkeys & _ & Hiff & _).
  assert (crawl_days (seqZ (Z.min d1 d2) (Z.max d1 d2 - Z.min d1 d2 + 1)) st
          = (Returned m, st1)) as Hcrawl.
  { rewrite <- Hrun. unfold get_news_for_date_range.
    rewrite range_loop_day_by_day; [|done|lia|by intros k ?%elem_of_nil].
    unfold mbind, M_bind, mret, M_ret.
    by destruct (crawl_days _ st) as [[rest|e] st']. }
  exists m, st1, (aggregate m).
  split; [exact Hcrawl|]. split; [exact Hkeys|].
  split; [apply aggregate_flat_map|]. split; [|split].
  - unfold collect_request. rewrite Hp1, Hp2.
    assert ((if d2 <? d1 then (d2, d1) else (d1, d2))
            = (Z.min d1 d2, Z.max d1 d2)) as ->
      by (destruct (Z.ltb_spec d2 d1); f_equal; lia).
    rewrite (bind_returned _ _ _ _ _ Hrun).
    rewrite (bind_returned _ _ _ _ _ (emit_returns _ st1)). reflexivity.
  - apply Forall_forall. intros item Hin.
    apply aggregate_elem in Hin as (d & l & item0 & Hm & Hl & ->).
    exists d. split; [done|].
    apply Hiff. unfold od_keys. apply list_elem_of_fmap. by exists (d, l).
  - apply aggregate_sorted. rewrite Hkeys.
    replace (Z.max d1 d2 - Z.min d1 d2 + 1)
      with (Z.of_nat (Z.to_nat (Z.max d1 d2 - Z.min d1 d2 + 1))) by lia.
    apply seqZ_sorted.
Qed.
End RangeBatch.

Lemma range_batch_dated_in_order_witness :
  let p1 := u8 "05-03-2025" in
  let p2 := u8 "03-03-2025" in
  let exception_text := fun _ : list pystr =>
    u8 "invalid literal for int() with base 10" in
  parse_date p1 = Some 739315 /\ parse_date p2 = Some 739313
  /\ Z.max 739315 739313 < MAXORDINAL
  /\ exists m st1 batch,
      @crawl_days one_page_world
        (seqZ (Z.min 739315 739313) (Z.max 739315 739313 - Z.min 739315 739313 + 1))
        initial_state
      = (Returned m, st1)
      /\ m.*1 = seqZ (Z.min 739315 739313)
                  (Z.max 739315 739313 - Z.min 739315 739313 + 1)
      /\ batch
         = flat_map (fun entry : Z * list news =>
                       map (fun item =>
                              News (headline item) (url item) (Some entry.1)
                                (combined_text item) (predicted_emotion item))
                           entry.2) m
      /\ @collect_request one_page_world exception_text 1 [p1; p2] initial_state
         = (Returned (Some batch),
            State (trace st1 ++
                     [EvSend 1
                        (u8 "Обработано новостей за период <b>"
                         ++ isoformat (Z.min 739315 739313) ++ u8 "</b> - <b>"
                         ++ isoformat (Z.max 739315 739313) ++ u8 "</b>.")])
                  (user_context st1))
      /\ Forall (fun item =>
                   exists d, date item = Some d
                             /\ Z.min 739315 739313 <= d <= Z.max 739315 739313)
                batch
      /\ StronglySorted Z.le (omap date batch).
Proof.
  intros p1 p2 exception_text.
  assert (parse_date p1 = Some 739315) as H1 by (vm_compute; reflexivity).
  assert (parse_date p2 = Some 739313) as H2 by (vm_compute; reflexivity).
  assert (Z.max 739315 739313 < MAXORDINAL) as H3 by (vm_compute; reflexivity).
  split; [exact H1|]. split; [exact H2|]. split; [exact H3|].
  exact (@range_batch_dated_in_order one_page_world exception_text 1 p1 p2
           739315 739313 initial_state H1 H2 H3).
Defined.

(** The batch of the range from 2025-03-03 to 2025-03-04, typed with the
    later date first, where every day has the same page with two links to
    one address: one item per day, the later link's, dated with its
    day. *)
Example range_batch_example :
  (@collect_request one_page_world (fun _ => []) 1
     [u8 "04-03-2025"; u8 "03-03-2025"] initial_state).1
  = Returned
      (Some [ News (u8 "Второй заголовок, 16:45, 3 марта 2025")
                (u8 "https://lenta.ru/news/x") (Some 739313) None None;
              News (u8 "Второй заголовок, 16:45, 3 марта 2025")
                (u8 "https://lenta.ru/news/x") (Some 739314) None None ]).
Proof. vm_compute. reflexivity. Qed.


(** ** From the typed date to the page *)

Section TypedDay.
Context `{W : World}.
Variable exception_text : list pystr -> pystr.

Lemma split_ws_word (s : pystr) :
  s <> [] -> Forall (fun c => is_space c = false) s -> split_ws s = [s].
Proof.
  induction s as [|c s IH]; [done|]. intros _ [Hc Hs]%Forall_cons.
  cbn [split_ws]. rewrite Hc. destruct s as [|c' s]; [done|].
  pose proof Hs as [Hc' _]%Forall_cons. rewrite Hc'.
  by rewrite IH.
Qed.

Lemma lstrip_word (s : pystr) :
  match s with c :: _ => is_space c = false | [] => True end -> lstrip s = s.
Proof. destruct s as [|c s]; [done|]. cbn [lstrip]. by intros ->. Qed.

Lemma strip_word (s : pystr) :
  Forall (fun c => is_space c = false) s -> strip s = s.
Proof.
  intros Hs. unfold strip, rstrip.
  rewrite (lstrip_word s) by (destruct s; [done | by apply Forall_cons in Hs as [? _]]).
  rewrite lstrip_word; [apply rev_involutive|].
  destruct s as [|z s _] using rev_ind; [done|].
  rewrite rev_app_distr. cbn.
  by apply Forall_app in Hs as [_ [? _]%Forall_cons].
Qed.

Lemma digits_not_space (ds : list Z) :
  Forall (fun a => 0 <= a <= 9) ds ->
  Forall (fun c => is_space c = false) (Z.add 48 <$> ds).
Proof.
  intros Hds. apply Forall_fmap. eapply Forall_impl; [exact Hds|].
  intros a Ha. unfold compose. cbv beta in Ha |- *.
  assert (forallb (fun a => negb (is_space (48 + a))) (seqZ 0 10) = true)
    as Hall by (vm_compute; reflexivity).
  rewrite forallb_forall in Hall.
  specialize (Hall a ltac:(apply list_elem_of_In, elem_of_seqZ; lia)).
  by apply negb_true_iff in Hall.
Qed.

Lemma typed_date_word (year month day : Z) :
  0 <= year <= 9999 -> 0 <= month <= 99 -> 0 <= day <= 99 ->
  typed_date year month day <> []
  /\ Forall (fun c => is_space c = false) (typed_date year month day).
Proof.
  intros Hy Hm Hd. unfold typed_date.
  rewrite (pad0_4_digits year Hy), (pad0_2_digits month Hm),
    (pad0_2_digits day Hd).
  split; [done|]. change (u8 "-") with [45].
  repeat (apply Forall_app; split);
    try (by repeat constructor);
    apply digits_not_space; repeat constructor; Z.div_mod_to_equations; lia.
Qed.

Lemma get_news_for_day_first_event (d : Z) (st : state) :
  exists l evs,
    get_news_for_day d st
    = (Returned l, State (trace st ++ EvGet (day_url d) :: evs) (user_context st)).
Proof.
  unfold get_news_for_day. unfold_M. cbn.
  destruct (requests_get (trace st) (day_url d)); cbn.
  - by eexists _, [].
  - eexists _, [_]. by rewrite <- app_assoc.
Qed.

(** X21: When the text of a message is a calendar date of the years 1 to
    9999 typed as [DD-MM-YYYY], the first thing the handler does is to
    request the page [https://lenta.ru/news/YYYY/MM/DD/] of that date
    (the year without leading zeros), and it gets as far as the
    assignment to [user_context] without raising. *)
Theorem typed_day_requests_its_page (chat_id year month day : Z) (st : state) :
  valid_ymd year month day ->
  exists evs st',
    process_date_input exception_text chat_id (typed_date year month day) st
    = (Returned tt, st')
    /\ trace st'
       = trace st ++
         EvGet (BASE_URL ++ u8 "/news/" ++ str_of_int year ++ u8 "/"
                ++ pad0 2 month ++ u8 "/" ++ pad0 2 day ++ u8 "/") :: evs.
Proof.
  intros Hvalid. pose proof Hvalid as (Hy & Hm & Hd).
  assert (0 <= day <= 99) as Hd'.
  { unfold days_in_month in Hd. destruct (_ && _); [lia|].
    assert (forallb (fun m => nth (Z.to_nat m) DAYS_IN_MONTH 0 <=? 31)
              (seqZ 1 12) = true) as Hall by (vm_compute; reflexivity).
    rewrite forallb_forall in Hall.
    specialize (Hall month ltac:(apply list_elem_of_In, elem_of_seqZ; lia)).
    apply Z.leb_le in Hall. lia. }
  destruct (typed_date_word year month day ltac:(lia) ltac:(lia) Hd')
    as [Hne Hword].
  unfold process_date_input.
  rewrite (strip_word _ Hword), (split_ws_word _ Hne Hword).
  unfold collect_request.
  rewrite (parse_typed_date year month day ltac:(lia) ltac:(lia) Hd').
  rewrite (make_date_valid _ _ _ Hvalid).
  destruct (get_news_for_day_first_event (ymd2ord year month day) st)
    as (l & evs & Hday).
  assert (day_url (ymd2ord year month day)
          = BASE_URL ++ u8 "/news/" ++ str_of_int year ++ u8 "/"
              ++ pad0 2 month ++ u8 "/" ++ pad0 2 day ++ u8 "/") as Hurl.
  { unfold day_url.
    rewrite (ord2ymd_ymd2ord year month day ltac:(lia) Hm Hd).
    by rewrite (pad02_pad0 month ltac:(lia)), (pad02_pad0 day Hd'). }
  rewrite Hurl in Hday.
  match goal with |- context [attempt ?m] =>
    assert (exists st1 msg,
              attempt m st = (Returned (Returned (Some l)), st1)
              /\ trace st1
                 = (trace st ++
                    EvGet (BASE_URL ++ u8 "/news/" ++ str_of_int year ++ u8 "/"
                           ++ pad0 2 month ++ u8 "/" ++ pad0 2 day ++ u8 "/")
                    :: evs) ++ [EvSend chat_id msg])
      as (st1 & msg & Hatt & Htr1)
  end.
  { unfold attempt. rewrite (bind_returned _ _ _ _ _ Hday).
    rewrite (bind_returned _ _ _ _ _ (emit_returns _ _)).
    eexists _, _. split; reflexivity. }
  rewrite (bind_returned _ _ _ _ _ Hatt). cbv beta iota.
  destruct (tag_and_store_effects chat_id l st1)
    as (r & evs' & ctx' & Htag & _).
  rewrite (bind_returned _ _ _ _ _ Htag).
  eexists _, _. split; [reflexivity|]. cbn [trace].
  rewrite Htr1, <- !app_assoc, <- app_comm_cons. reflexivity.
Qed.
End TypedDay.

Lemma typed_day_requests_its_page_witness :
  let exception_text := fun _ : list pystr =>
    u8 "invalid literal for int() with base 10" in
  valid_ymd 2025 3 3
  /\ exists evs st',
      @process_date_input one_page_world exception_text 1 (typed_date 2025 3 3)
        initial_state
      = (Returned tt, st')
      /\ trace st'
         = trace initial_state ++
           EvGet (BASE_URL ++ u8 "/news/" ++ str_of_int 2025 ++ u8 "/"
                  ++ pad0 2 3 ++ u8 "/" ++ pad0 2 3 ++ u8 "/") :: evs.
Proof.
  intros exception_text.
  assert (valid_ymd 2025 3 3) as Hv 
    by (unfold valid_ymd; change (days_in_month 2025 3) with 31; lia).
  split; [exact Hv|].
  exact (@typed_day_requests_its_page one_page_world exception_text 1 2025 3 3
           initial_state Hv).
Defined.
